(** * Edovia chat demo: the slot-filling wizard and its comparison engine

    A shallow embedding of the chat back end (successive revisions of
    [server.js]) and the properties of its dialogue controller, of its
    deterministic slot extractors and of the comparison engine.

    Conventions of the embedding.
    - A JavaScript string is the list of its UTF-16 code units ([list N]).
    - A JavaScript number is an exact number: [Z] where the code only ever
      produces integers ([parseInt], the turn counter), [Q] for amounts read
      from the partner files and everything computed from them.  The score
      and the budget tag are also given as the code computes them, on
      IEEE 754 binary64 numbers with their rounding and their infinities
      (module [Binary64]).
    - A partner file that parses is taken to hold an array of partner
      records; module [AnyFile] follows the code on the other values
      [JSON.parse] can return.
    - [null]/[undefined] are [None]; truthiness is written out ([truthyZ],
      [truthyS], ...).
    - Exceptions are values of a small error monad ([M]); [try]/[catch] is
      [try_catch].
    - The session [Map] is a [gmap] from session ids to sessions. *)

From Stdlib Require Import String Ascii QArith Qround Lqa SpecFloat.
From stdpp Require Import gmap pretty sorting.

Local Open Scope N_scope.

(** ** Strings *)

Abbreviation jsstring := (list N).

(** An ASCII literal as a list of code units. *)
Definition lit (s : string) : jsstring :=
  map N_of_ascii (list_ascii_of_string s).

(** Code units used by the source outside ASCII. *)
Definition EURO : N := 8364.         (* U+20AC *)
Definition RSQUO : N := 8217.        (* U+2019, the typographic apostrophe *)
Definition A_GRAVE : N := 224.       (* U+00E0 *)

Definition isDigit (c : N) : bool := (48 <=? c) && (c <=? 57).

(** [\s] of a JavaScript regular expression, which is also what
    [String.prototype.trim] strips. *)
Definition isSpace (c : N) : bool :=
  ((9 <=? c) && (c <=? 13)) || (c =? 32) || (c =? 160) || (c =? 5760)
  || ((8192 <=? c) && (c <=? 8202)) || (c =? 8232) || (c =? 8233)
  || (c =? 8239) || (c =? 8287) || (c =? 12288) || (c =? 65279).

(** [String.prototype.toLowerCase] on Basic Latin and Latin-1: the letters
    A-Z and the accented capitals U+00C0-U+00DE (but the multiplication
    sign U+00D7).  The case mappings of the rest of Unicode are left out:
    such code units stay as they are. *)
Definition lowerUnit (c : N) : N :=
  if ((65 <=? c) && (c <=? 90))
     || ((192 <=? c) && (c <=? 222) && negb (c =? 215))
  then c + 32 else c.

Definition toLowerCase (s : jsstring) : jsstring := map lowerUnit s.

Fixpoint startsWith (s pat : jsstring) {struct pat} : bool :=
  match pat, s with
  | [], _ => true
  | p :: pat', c :: s' => (c =? p) && startsWith s' pat'
  | _ :: _, [] => false
  end.

(** [String.prototype.includes]. *)
Fixpoint includes (s pat : jsstring) : bool :=
  startsWith s pat ||
  match s with
  | [] => false
  | _ :: s' => includes s' pat
  end.

Fixpoint dropWhile {A} (p : A -> bool) (l : list A) : list A :=
  match l with
  | x :: l' => if p x then dropWhile p l' else l
  | [] => []
  end.

Fixpoint takeWhile {A} (p : A -> bool) (l : list A) : list A :=
  match l with
  | x :: l' => if p x then x :: takeWhile p l' else []
  | [] => []
  end.

(** [String.prototype.trim]. *)
Definition trim (s : jsstring) : jsstring :=
  rev (dropWhile isSpace (rev (dropWhile isSpace s))).

Definition digitVal (c : N) : Z := Z.of_N (c - 48).

(** [parseInt(s, 10)] on a string of digits: the number its leading digits
    denote, [None] (for [NaN]) when there is none.  The source only calls it
    on digit strings. *)
Definition parseInt (s : jsstring) : option Z :=
  match takeWhile isDigit s with
  | [] => None
  | ds => Some (fold_left (fun acc c => (10 * acc + digitVal c)%Z) ds 0%Z)
  end.

(** ** Regular expressions

    The fragment the source uses: single code units, classes, sequence,
    ordered choice, greedy star of a class, greedy option and capturing
    groups.  [run r s] lists every way [r] matches a prefix of [s], in the
    order a backtracking matcher tries them; the first one is the match. *)

Inductive regex : Type :=
| Chr (c : N)
| Cls (p : N -> bool)
| Cat (r1 r2 : regex)
| Alt (r1 r2 : regex)
| Star (p : N -> bool)
| Opt (r : regex)
| Grp (g : nat) (r : regex).

Definition Plus (p : N -> bool) : regex := Cat (Cls p) (Star p).

Fixpoint Str (s : jsstring) : regex :=
  match s with
  | [] => Opt (Cls (fun _ => false))
  | [c] => Chr c
  | c :: s' => Cat (Chr c) (Str s')
  end.

(** What one attempt yields: the matched text, the captures, the rest. *)
Definition attempt : Type := jsstring * list (nat * jsstring) * jsstring.

(** Greedy [p*]: the longest run first, then each shorter one. *)
Fixpoint starC (p : N -> bool) (s : jsstring) : list (jsstring * jsstring) :=
  match s with
  | c :: s' =>
      if p c
      then map (fun mr => (c :: fst mr, snd mr)) (starC p s') ++ [([], s)]
      else [([], s)]
  | [] => [([], [])]
  end.

Fixpoint run (r : regex) (s : jsstring) : list attempt :=
  match r with
  | Chr c =>
      match s with
      | x :: s' => if x =? c then [([x], [], s')] else []
      | [] => []
      end
  | Cls p =>
      match s with
      | x :: s' => if p x then [([x], [], s')] else []
      | [] => []
      end
  | Cat r1 r2 =>
      flat_map
        (fun a1 : attempt =>
           let '(m1, c1, s1) := a1 in
           map (fun a2 : attempt =>
                  let '(m2, c2, s2) := a2 in (m1 ++ m2, c1 ++ c2, s2))
               (run r2 s1))
        (run r1 s)
  | Alt r1 r2 => run r1 s ++ run r2 s
  | Star p => map (fun mr => (fst mr, [], snd mr)) (starC p s)
  | Opt r => run r s ++ [([], [], s)]
  | Grp g r =>
      map (fun a : attempt => let '(m, c, rest) := a in (m, (g, m) :: c, rest))
          (run r s)
  end.

(** [String.prototype.match] with a regular expression without the [g]
    flag: the leftmost position with a match, and the first match there.
    The result is [match[0]] and the captures. *)
Fixpoint exec (r : regex) (s : jsstring) : option (jsstring * list (nat * jsstring)) :=
  match run r s with
  | (m, c, _) :: _ => Some (m, c)
  | [] =>
      match s with
      | _ :: s' => exec r s'
      | [] => None
      end
  end.

Fixpoint capture (g : nat) (c : list (nat * jsstring)) : option jsstring :=
  match c with
  | (g', m) :: c' => if Nat.eqb g g' then Some m else capture g c'
  | [] => None
  end.

(** ** Budget extraction *)

(** The class [[\d\.'’]]. *)
Definition isBudgetChar (c : N) : bool :=
  isDigit c || (c =? 46) || (c =? 39) || (c =? RSQUO).

(** [/(\d[\d\.'’]*\d|\d+)/] *)
Definition budgetRegex : regex :=
  Grp 1 (Alt (Cat (Cls isDigit) (Cat (Star isBudgetChar) (Cls isDigit)))
             (Plus isDigit)).

(** [s.replace(/[^\d]/g, "")] *)
Definition stripNonDigits (s : jsstring) : jsstring := List.filter isDigit s.

(** ** Exceptions *)

(** A computation that returns a value or throws; the payload of [Throw] is
    the error's message. *)
Inductive M (A : Type) : Type :=
| Ok (a : A)
| Throw (msg : jsstring).
Arguments Ok {A} a.
Arguments Throw {A} msg.

#[global] Instance M_ret : MRet M := fun A a => Ok a.

#[global] Instance M_bind : MBind M := fun A B k c =>
  match c with
  | Ok a => k a
  | Throw msg => Throw msg
  end.

(** [try { c } catch (err) { h(err.message) }] *)
Definition try_catch {A} (c : M A) (h : jsstring -> M A) : M A :=
  match c with
  | Ok a => Ok a
  | Throw msg => h msg
  end.

(** ** Partners and the comparison engine

    [loadPartners] and [comparePrograms] are the same text in every revision
    that has them. *)

(** One record of [partners/<countryCode>.json].  The partner files are not
    part of the sources; the fields are the ones the code reads. *)
Record Partner : Type := mkPartner {
  name : jsstring;
  city : jsstring;
  tuition_per_week : Q;
  housing_per_week : Q;
  fees : Q;
  notes : jsstring
}.

(** [{ ...p, total, tuition, housing, fitsBudget }] *)
Record Program : Type := mkProgram {
  partner : Partner;
  total : Q;
  tuition : Q;
  housing : Q;
  fitsBudget : bool
}.

Definition Qltb (x y : Q) : bool := negb (Qle_bool y x).

(** [Array.prototype.sort(compare)]: a stable sort; [a] goes before [b]
    when [compare(a, b) < 0], after it when [compare(a, b) > 0], and equal
    elements keep their order.  Written as an insertion sort that inserts
    from the right, so an element stays in front of the equal ones that
    followed it. *)
Section ArraySort.
Context {A : Type} (compare : A -> A -> Q).

Fixpoint sort_insert (x : A) (l : list A) : list A :=
  match l with
  | [] => [x]
  | y :: l' =>
      if Qle_bool (compare x y) 0 then x :: y :: l'
      else y :: sort_insert x l'
  end.

Definition array_sort (l : list A) : list A := foldr sort_insert [] l.
End ArraySort.

Definition priced (budget weeks : Q) (p : Partner) : Program :=
  let tuition := (tuition_per_week p * weeks)%Q in
  let housing := (housing_per_week p * weeks)%Q in
  let total := (tuition + housing + fees p)%Q in
  {| partner := p;
     total := total;
     tuition := tuition;
     housing := housing;
     fitsBudget := Qle_bool total budget |}.

Definition byTotal (a b : Program) : Q := (total a - total b)%Q.

Section Comparator.
(** The file system and the JSON parser.  Either can throw; a file that
    parses is taken to hold an array of partner records. *)
Variable readFileSync : jsstring -> M jsstring.
Variable JSON_parse : jsstring -> M (list Partner).

(** [path.join(__dirname, "partners", `${countryCode}.json`)], relative to
    the directory of the script. *)
Definition partnersPath (countryCode : jsstring) : jsstring :=
  lit "partners/" ++ countryCode ++ lit ".json".

Definition loadPartners (countryCode : jsstring) : M (list Partner) :=
  try_catch
    (raw ← readFileSync (partnersPath countryCode);
     JSON_parse raw)
    (fun _ => mret []).

Definition comparePrograms (countryCode : jsstring) (budget weeks : Q)
  : M (list Program) :=
  partners ← loadPartners countryCode;
  if (length partners =? 0)%nat then mret []
  else mret (array_sort byTotal (map (priced budget weeks) partners)).
End Comparator.

(** [matchScore(total, budget)].  With a zero budget and a positive
    difference the quotient is [Infinity], which is below none of the
    thresholds. *)
Definition matchScore (total budget : Q) : Q :=
  let diff := (total - budget)%Q in
  if Qle_bool diff 0 then 5%Q
  else if Qeq_bool budget 0 then (5#2)%Q
  else
    let ratio := (diff / budget)%Q in
    if Qltb ratio (1#10) then (9#2)%Q
    else if Qltb ratio (2#10) then 4%Q
    else if Qltb ratio (3#10) then (7#2)%Q
    else if Qltb ratio (5#10) then 3%Q
    else (5#2)%Q.

(** The tags of [badgeArray], by what they say rather than by their text
    (the texts differ between revisions and languages). *)
Inductive Tag : Type :=
| BudgetOk | SopraBudget
| FocusAccademico | LifestyleOutdoor | GrandeCitta
| MatchMoltoAlto | BuonMatch | CompromessoBudget | UsaComeRiferimento.

Definition badgeArray (p : Program) (score : Q) : list Tag :=
  let cityLower := toLowerCase (city (partner p)) in
  [if fitsBudget p then BudgetOk else SopraBudget]
  ++ (if includes cityLower (lit "boston") || includes cityLower (lit "new york")
      then [FocusAccademico] else [])
  ++ (if includes cityLower (lit "los angeles")
         || includes cityLower (lit "san diego")
         || includes cityLower (lit "vancouver")
      then [LifestyleOutdoor] else [])
  ++ (if includes cityLower (lit "toronto") then [GrandeCitta] else [])
  ++ [if Qle_bool (9#2) score then MatchMoltoAlto
      else if Qle_bool 4 score then BuonMatch
      else if Qle_bool (7#2) score then CompromessoBudget
      else UsaComeRiferimento].

(** One card of the reply: what [cards] interpolates into its lines. *)
Record Card : Type := mkCard {
  option_no : nat;
  shown : Program;
  score : Q;
  tags : list Tag
}.

(** [programs.slice(0, 3).map((p, index) => ...)] *)
Definition cards (programs : list Program) (budget : Q) : list Card :=
  imap (fun index p =>
          let score := matchScore (total p) budget in
          {| option_no := index + 1; shown := p; score := score;
             tags := badgeArray p score |})
       (take 3 programs).

(** ** Truthiness of slot values *)

Definition truthyZ (v : option Z) : bool :=
  match v with
  | Some n => negb (n =? 0)%Z
  | None => false
  end.

Definition truthyS (v : option jsstring) : bool :=
  match v with
  | Some (_ :: _) => true
  | _ => false
  end.

(** The value of a slot when it is truthy. *)
Definition setZ (v : option Z) : option Z :=
  if truthyZ v then v else None.

Definition setS (v : option jsstring) : option jsstring :=
  if truthyS v then v else None.

Definition MAX_MESSAGES_FREE : Z := 20.

(** The [type] field of a reply. *)
Definition OK_TYPE : jsstring := lit "ok".
Definition LIMIT_REACHED : jsstring := lit "limit_reached".

(** * The wizard of src/server.js (second revision, lines 271-664) *)

Module ServerJs.

Record Wizard : Type := mkWizard {
  budget : option Z;
  countryCode : option jsstring;
  weeks : option Z;
  goal : option jsstring
}.

(** [{}] *)
Definition emptyWizard : Wizard := mkWizard None None None None.

Record Session : Type := mkSession {
  count : Z;
  wizard : Wizard
}.

Definition parseBudget (text : jsstring) : option Z :=
  match exec budgetRegex (toLowerCase text) with
  | None => None
  | Some (m0, _) => parseInt (stripNonDigits m0)
  end.

Definition parseCountryCode (text : jsstring) : option jsstring :=
  let lower := toLowerCase text in
  if includes lower (lit "usa")
     || includes lower (lit "stati uniti")
     || includes lower (lit "stato unito")
     || includes lower (lit "america")
  then Some (lit "us")
  else if includes lower (lit "canada") || includes lower (lit "canad" ++ [A_GRAVE])
  then Some (lit "canada")
  else None.

(** [/(\d+)\s*(settimane|sett\.?|mesi|mese)/] *)
Definition weeksRegex : regex :=
  Cat (Grp 1 (Plus isDigit))
      (Cat (Star isSpace)
           (Grp 2 (Alt (Str (lit "settimane"))
                  (Alt (Cat (Str (lit "sett")) (Opt (Chr 46)))
                  (Alt (Str (lit "mesi")) (Str (lit "mese"))))))).

Definition parseWeeks (text : jsstring) : option Z :=
  let lower := toLowerCase text in
  if includes lower (lit "estate") then Some 12%Z
  else if includes lower (lit "semestre") then Some 24%Z
  else if includes lower (lit "anno") then Some 48%Z
  else
    match exec weeksRegex lower with
    | Some (_, caps) =>
        match capture 1 caps, capture 2 caps with
        | Some m1, Some m2 =>
            num ← parseInt m1;
            if startsWith m2 (lit "mes") then Some (num * 4)%Z else Some num
        | _, _ => None
        end
    | None => None
    end.

Definition isProgramIntent (text : jsstring) : bool :=
  let lower := toLowerCase text in
  includes lower (lit "usa")
  || includes lower (lit "canada")
  || includes lower (lit "programma")
  || includes lower (lit "all'estero")
  || includes lower (lit "estero")
  || includes lower (lit "semestre")
  || includes lower (lit "anno")
  || includes lower (lit "summer")
  || includes lower (lit "exchange")
  || bool_decide (parseBudget text ≠ None).

(** What a reply says; the wording is the renderer's. *)
Inductive Reply : Type :=
| LimitReply
| GenericAnswer (content : jsstring)
| GenericProblem
| AskBudget
| AskCountry (budget : Z)
| AskWeeks
| AskGoal
| Results (goal : jsstring) (budget weeks : Z) (countryCode : jsstring)
          (cards : list Card)
| NoPartners.

Inductive Response : Type :=
| BadRequest                                   (* status 400 *)
| Json (type : jsstring) (reply : Reply)
| ServerError.                                 (* status 500 *)

(** Steps 1) and 2) of the handler: fill the slots the message gives, and
    take the message as the goal when nothing else is missing and nothing
    else was found in it. *)
Definition populate (wizard : Wizard) (text : jsstring) : Wizard :=
  let detectedBudget := parseBudget text in
  let wizard :=
    if truthyZ detectedBudget && negb (truthyZ (budget wizard))
    then mkWizard detectedBudget (countryCode wizard) (weeks wizard) (goal wizard)
    else wizard in
  let detectedCountry := parseCountryCode text in
  let wizard :=
    if truthyS detectedCountry && negb (truthyS (countryCode wizard))
    then mkWizard (budget wizard) detectedCountry (weeks wizard) (goal wizard)
    else wizard in
  let detectedWeeks := parseWeeks text in
  let wizard :=
    if truthyZ detectedWeeks && negb (truthyZ (weeks wizard))
    then mkWizard (budget wizard) (countryCode wizard) detectedWeeks (goal wizard)
    else wizard in
  if truthyZ (budget wizard) && truthyS (countryCode wizard)
     && truthyZ (weeks wizard) && negb (truthyS (goal wizard))
     && negb (truthyZ detectedBudget) && negb (truthyS detectedCountry)
     && negb (truthyZ detectedWeeks)
  then mkWizard (budget wizard) (countryCode wizard) (weeks wizard) (Some text)
  else wizard.

Definition wizardActive (wizard : Wizard) : bool :=
  truthyZ (budget wizard) || truthyS (countryCode wizard)
  || truthyZ (weeks wizard) || truthyS (goal wizard).

Section Handler.
Variable readFileSync : jsstring -> M jsstring.
Variable JSON_parse : jsstring -> M (list Partner).
(** The generic responder: [completion.choices?.[0]?.message?.content]
    for the user's text, or an exception. *)
Variable chat_completion : jsstring -> M (option jsstring).

(** The handler from [session.count += 1] on.  An exception leaves the
    session as it was mutated so far and answers with status 500. *)
Definition turn (session : Session) (message : jsstring) : Session * Response :=
  let count := (count session + 1)%Z in
  let text := trim message in
  let wizard := populate (wizard session) text in
  let session := mkSession count wizard in
  if negb (wizardActive wizard) && negb (isProgramIntent text) then
    match chat_completion text with
    | Throw _ => (session, ServerError)
    | Ok content =>
        (session,
         Json OK_TYPE (match setS content with
                       | Some reply => GenericAnswer reply
                       | None => GenericProblem
                       end))
    end
  else
    match setZ (budget wizard), setS (countryCode wizard),
          setZ (weeks wizard), setS (goal wizard) with
    | None, _, _, _ => (session, Json OK_TYPE AskBudget)
    | Some b, None, _, _ => (session, Json OK_TYPE (AskCountry b))
    | Some _, Some _, None, _ => (session, Json OK_TYPE AskWeeks)
    | Some _, Some _, Some _, None => (session, Json OK_TYPE AskGoal)
    | Some b, Some c, Some w, Some g =>
        match comparePrograms readFileSync JSON_parse c (inject_Z b) (inject_Z w) with
        | Throw _ => (session, ServerError)
        | Ok programs =>
            if negb (length programs =? 0)%nat then
              (mkSession count emptyWizard,
               Json OK_TYPE (Results (trim g) b w c (cards programs (inject_Z b))))
            else (session, Json OK_TYPE NoPartners)
        end
    end.

(** [app.post("/chat", ...)] on the session store. *)
Definition chat (sessions : gmap jsstring Session) (sessionId message : jsstring)
  : gmap jsstring Session * Response :=
  if (length sessionId =? 0)%nat || (length message =? 0)%nat then
    (sessions, BadRequest)
  else
    let '(sessions, session) :=
      match sessions !! sessionId with
      | Some session => (sessions, session)
      | None =>
          let session := mkSession 0 emptyWizard in
          (<[sessionId := session]> sessions, session)
      end in
    if (MAX_MESSAGES_FREE <=? count session)%Z then
      (sessions, Json LIMIT_REACHED LimitReply)
    else
      let '(session, response) := turn session message in
      (<[sessionId := session]> sessions, response).
End Handler.

End ServerJs.

(** * The wizard of src/unnamed/part_002 (second revision, lines 79-550) *)

Module Part002.

Record Wizard : Type := mkWizard {
  started : bool;
  budget : option Z;
  countryCode : option jsstring;
  weeks : option Z;
  goal : option jsstring
}.

(** [{ started: false }] *)
Definition emptyWizard : Wizard := mkWizard false None None None None.

Record Session : Type := mkSession {
  count : Z;
  wizard : Wizard
}.

Definition hasCurrency (lower : jsstring) : bool :=
  includes lower [EURO]
  || includes lower (lit "euro")
  || includes lower (lit " eur")
  || includes lower (lit " k")
  || includes lower (lit " mila").

(** Reads a budget in the text: a number in a monetary context, or a
    number of at least 100; small numbers without a monetary context are
    left alone (lines 139-167). *)
Definition parseBudget (text : jsstring) : option Z :=
  let lower := toLowerCase text in
  let hasCurrency := hasCurrency lower in
  match exec budgetRegex lower with
  | None => None
  | Some (m0, _) =>
      match parseInt (stripNonDigits m0) with
      | None => None
      | Some value =>
          if negb hasCurrency && (value <? 100)%Z then None
          else Some value
      end
  end.

Definition parseCountryCode (text : jsstring) : option jsstring :=
  let lower := toLowerCase text in
  if includes lower (lit "usa")
     || includes lower (lit "stati uniti")
     || includes lower (lit "america")
  then Some (lit "us")
  else if includes lower (lit "canada") || includes lower (lit "canad" ++ [A_GRAVE])
  then Some (lit "canada")
  else if includes lower (lit "boston")
          || includes lower (lit "new york")
          || includes lower (lit "los angeles")
          || includes lower (lit "san diego")
  then Some (lit "us")
  else if includes lower (lit "toronto")
          || includes lower (lit "vancouver")
          || includes lower (lit "montreal")
          || includes lower (lit "calgary")
  then Some (lit "canada")
  else None.

(** [/(\d+)\s*(settimane|sett\.?|weeks?|mesi|mese|months?)/] *)
Definition weeksRegex : regex :=
  Cat (Grp 1 (Plus isDigit))
      (Cat (Star isSpace)
           (Grp 2 (Alt (Str (lit "settimane"))
                  (Alt (Cat (Str (lit "sett")) (Opt (Chr 46)))
                  (Alt (Cat (Str (lit "week")) (Opt (Chr 115)))
                  (Alt (Str (lit "mesi"))
                  (Alt (Str (lit "mese"))
                       (Cat (Str (lit "month")) (Opt (Chr 115)))))))))).

Definition parseWeeks (text : jsstring) : option Z :=
  let lower := toLowerCase text in
  if includes lower (lit "estate") || includes lower (lit "summer") then Some 12%Z
  else if includes lower (lit "semestre") || includes lower (lit "semester") then Some 24%Z
  else if includes lower (lit "anno") || includes lower (lit "year") then Some 48%Z
  else
    match exec weeksRegex lower with
    | Some (_, caps) =>
        match capture 1 caps, capture 2 caps with
        | Some m1, Some unit =>
            num ← parseInt m1;
            if startsWith unit (lit "mes") || startsWith unit (lit "month")
            then Some (num * 4)%Z else Some num
        | _, _ => None
        end
    | None => None
    end.

Definition parseGoal (text : jsstring) : option jsstring :=
  let lower := toLowerCase text in
  if includes lower (lit "cultur")
     || includes lower (lit "cresc")
     || includes lower (lit "personal")
     || includes lower (lit "univers")
     || includes lower (lit "lavor")
     || includes lower (lit "inglese")
     || includes lower (lit "toefl")
     || includes lower (lit "ielts")
     || includes lower (lit "accadem")
  then Some (trim text)
  else None.

Definition isProgramIntent (text : jsstring) : bool :=
  let lower := toLowerCase text in
  includes lower (lit "usa")
  || includes lower (lit "canada")
  || includes lower (lit "all'estero")
  || includes lower (lit "anno")
  || includes lower (lit "semestre")
  || includes lower (lit "exchange")
  || includes lower (lit "programma")
  || includes lower (lit "programmi")
  || bool_decide (parseBudget text ≠ None).

(** What the wizard already knows, in the order of [knownParts]. *)
Inductive Known : Type :=
| KnownCountry (countryCode : jsstring)
| KnownWeeks (weeks : Z)
| KnownBudget (budget : Z)
| KnownGoal (goal : jsstring).

Inductive Question : Type := AskBudget | AskCountry | AskWeeks | AskGoal.

Inductive Reply : Type :=
| LimitReply
| GenericAnswer (content : jsstring)
| AskMore (knownParts : list Known) (question : Question)
| Results (goal : jsstring) (budget weeks : Z) (countryCode : jsstring)
          (cards : list Card)
| NoPartners.

Inductive Response : Type :=
| BadRequest                                   (* status 400 *)
| Json (type : jsstring) (reply : Reply)
| ServerError.                                 (* status 500 *)

(** "auto-parsing parametri dal testo corrente": each extractor runs on the
    text, and a value goes into its slot when the slot has none. *)
Definition populate (wizard : Wizard) (text : jsstring) : Wizard :=
  let detectedBudget := parseBudget text in
  let detectedCountry := parseCountryCode text in
  let detectedWeeks := parseWeeks text in
  let detectedGoal := parseGoal text in
  let wizard :=
    if truthyZ detectedBudget && negb (truthyZ (budget wizard))
    then mkWizard (started wizard) detectedBudget (countryCode wizard)
                  (weeks wizard) (goal wizard)
    else wizard in
  let wizard :=
    if truthyS detectedCountry && negb (truthyS (countryCode wizard))
    then mkWizard (started wizard) (budget wizard) detectedCountry
                  (weeks wizard) (goal wizard)
    else wizard in
  let wizard :=
    if truthyZ detectedWeeks && negb (truthyZ (weeks wizard))
    then mkWizard (started wizard) (budget wizard) (countryCode wizard)
                  detectedWeeks (goal wizard)
    else wizard in
  if truthyS detectedGoal && negb (truthyS (goal wizard))
  then mkWizard (started wizard) (budget wizard) (countryCode wizard)
                (weeks wizard) detectedGoal
  else wizard.

Definition wizardActive (wizard : Wizard) : bool :=
  truthyZ (budget wizard) || truthyS (countryCode wizard)
  || truthyZ (weeks wizard) || truthyS (goal wizard).

Definition knownParts (wizard : Wizard) : list Known :=
  (match setS (countryCode wizard) with Some c => [KnownCountry c] | None => [] end)
  ++ (match setZ (weeks wizard) with Some w => [KnownWeeks w] | None => [] end)
  ++ (match setZ (budget wizard) with Some b => [KnownBudget b] | None => [] end)
  ++ (match setS (goal wizard) with Some g => [KnownGoal g] | None => [] end).

Section Handler.
Variable readFileSync : jsstring -> M jsstring.
Variable JSON_parse : jsstring -> M (list Partner).
Variable chat_completion : jsstring -> M (option jsstring).

(** The reply of the generic responder, its asterisks removed. *)
Definition genericReply (content : option jsstring) : jsstring :=
  let reply :=
    match setS content with
    | Some reply => reply
    | None => lit "C'" ++ [232] ++ lit " stato un problema, riprova tra poco."
    end in
  List.filter (fun c => negb (c =? 42)) reply.

Definition turn (session : Session) (message : jsstring) : Session * Response :=
  let count := (count session + 1)%Z in
  let text := trim message in
  let wizard := populate (wizard session) text in
  if negb (wizardActive wizard) && negb (isProgramIntent text) then
    let session := mkSession count wizard in
    match chat_completion text with
    | Throw _ => (session, ServerError)
    | Ok content => (session, Json OK_TYPE (GenericAnswer (genericReply content)))
    end
  else
    let wizard := mkWizard true (budget wizard) (countryCode wizard)
                           (weeks wizard) (goal wizard) in
    let session := mkSession count wizard in
    match setZ (budget wizard), setS (countryCode wizard),
          setZ (weeks wizard), setS (goal wizard) with
    | Some b, Some c, Some w, Some g =>
        match comparePrograms readFileSync JSON_parse c (inject_Z b) (inject_Z w) with
        | Throw _ => (session, ServerError)
        | Ok programs =>
            if negb (length programs =? 0)%nat then
              (mkSession count emptyWizard,
               Json OK_TYPE (Results (trim g) b w c (cards programs (inject_Z b))))
            else (session, Json OK_TYPE NoPartners)
        end
    | None, _, _, _ =>
        (session, Json OK_TYPE (AskMore (knownParts wizard) AskBudget))
    | _, None, _, _ =>
        (session, Json OK_TYPE (AskMore (knownParts wizard) AskCountry))
    | _, _, None, _ =>
        (session, Json OK_TYPE (AskMore (knownParts wizard) AskWeeks))
    | _, _, _, None =>
        (session, Json OK_TYPE (AskMore (knownParts wizard) AskGoal))
    end.

Definition chat (sessions : gmap jsstring Session) (sessionId message : jsstring)
  : gmap jsstring Session * Response :=
  if (length sessionId =? 0)%nat || (length message =? 0)%nat then
    (sessions, BadRequest)
  else
    let '(sessions, session) :=
      match sessions !! sessionId with
      | Some session => (sessions, session)
      | None =>
          let session := mkSession 0 emptyWizard in
          (<[sessionId := session]> sessions, session)
      end in
    if (MAX_MESSAGES_FREE <=? count session)%Z then
      (sessions, Json LIMIT_REACHED LimitReply)
    else
      let '(session, response) := turn session message in
      (<[sessionId := session]> sessions, response).
End Handler.

End Part002.

(** * The delegated controller of src/unnamed/part_003 *)

Module Part003.

(** A value of [JSON.parse]. *)
#[warnings="-register-all"] Inductive json : Type :=
| JNull
| JBool (b : bool)
| JNum (q : Q)
| JStr (s : jsstring)
| JArr (items : list json)
| JObj (fields : gmap jsstring json).

(** The wizard is whatever object the merges have produced. *)
Record Session : Type := mkSession {
  count : Z;
  wizard : gmap jsstring json
}.

Definition truthy (v : json) : bool :=
  match v with
  | JNull => false
  | JBool b => b
  | JNum q => negb (Qeq_bool q 0)
  | JStr s => negb (length s =? 0)%nat
  | JArr _ | JObj _ => true
  end.

(** Truthiness of a property that may be [undefined]. *)
Definition truthyO (v : option json) : bool := from_option truthy false v.

(** [typeof v === "object"] *)
Definition isObject (v : json) : bool :=
  match v with
  | JNull | JArr _ | JObj _ => true
  | _ => false
  end.

(** [v.key], for the keys [updatedWizard], [action] and [reply], which
    only an object can have. *)
Definition prop (v : json) (key : jsstring) : option json :=
  match v with
  | JObj fields => fields !! key
  | _ => None
  end.

(** The own enumerable properties an object spread copies. *)
Definition spread (v : json) : gmap jsstring json :=
  match v with
  | JObj fields => fields
  | JArr items => list_to_map (imap (fun i x => (lit (pretty i), x)) items)
  | JStr s => list_to_map (imap (fun i c => (lit (pretty i), JStr [c])) s)
  | _ => ∅
  end.

Definition isStr (v : option json) (s : jsstring) : bool :=
  match v with
  | Some (JStr t) => bool_decide (t = s)
  | _ => false
  end.

(** The re-prompt of the fallback in [runWizardControllerLLM]. *)
Definition RIPROVIAMO : jsstring :=
  lit "C'" ++ [232] ++ lit " stato un piccolo problema tecnico nell'elaborazione. Riproviamo: dimmi budget totale, Paese e durata, cos" ++ [236] ++ lit " ti mostro i programmi compatibili.".

Definition UPDATED_WIZARD : jsstring := lit "updatedWizard".
Definition ACTION : jsstring := lit "action".
Definition REPLY : jsstring := lit "reply".

Inductive Reply : Type :=
| LimitReply
| ModelReply (llmReply : json)          (* off_topic and ask_more *)
| AlmostThere                           (* ready_to_compare with a slot missing *)
| NoPrograms (llmReply : json)
| Results (llmReply : jsstring) (cityNote : bool) (cards : list Card)
| NeedMore.                             (* "fallback di sicurezza" *)

Inductive Response : Type :=
| BadRequest                                   (* status 400 *)
| Json (type : jsstring) (reply : Reply)
| ServerError                                  (* status 500 *)
| Coerced.
(** [Coerced]: [ready_to_compare] with truthy slots that are not a number,
    a string and a number; the comparison would then run on coerced values,
    which this model leaves out. *)

Section Handler.
Variable readFileSync : jsstring -> M jsstring.
Variable JSON_parse : jsstring -> M (list Partner).
(** The controller model: the content of its answer for a wizard and a
    message, or an exception; and [JSON.parse] on such a content. *)
Variable controller_completion :
  gmap jsstring json -> jsstring -> M (option jsstring).
Variable JSON_parse_value : jsstring -> M json.

Definition runWizardControllerLLM (wizard : gmap jsstring json)
  (message : jsstring) : M json :=
  content ← controller_completion wizard message;
  let parsed :=
    match JSON_parse_value (default (lit "{}") (setS content)) with
    | Ok v => v
    | Throw _ => JNull
    end in
  if negb (truthy parsed)
     || negb (isObject parsed)
     || negb (truthyO (prop parsed UPDATED_WIZARD))
     || negb (truthyO (prop parsed ACTION))
  then
    mret (JObj (<[UPDATED_WIZARD := JObj wizard]>
               (<[ACTION := JStr (lit "ask_more")]>
               (<[REPLY := JStr RIPROVIAMO]> ∅))))
  else mret parsed.

(** [{ ...wizard, ...(control.updatedWizard || {}) }] *)
Definition merged (wizard : gmap jsstring json) (control : json)
  : gmap jsstring json :=
  match prop control UPDATED_WIZARD with
  | Some u => if truthy u then spread u ∪ wizard else wizard
  | None => wizard
  end.

(** The branch of [ready_to_compare]. *)
Definition compare (count : Z) (updated : gmap jsstring json) (llmReply : json)
  : Session * Response :=
  let session := mkSession count updated in
  let budget := updated !! lit "budget" in
  let countryCode := updated !! lit "countryCode" in
  let weeks := updated !! lit "weeks" in
  let goal := updated !! lit "goal" in
  let cityHint := updated !! lit "city" in
  if negb (truthyO budget) || negb (truthyO countryCode)
     || negb (truthyO weeks) || negb (truthyO goal)
  then (session, Json OK_TYPE AlmostThere)
  else
    match budget, countryCode, weeks with
    | Some (JNum budget), Some (JStr countryCode), Some (JNum weeks) =>
        match comparePrograms readFileSync JSON_parse countryCode budget weeks with
        | Throw _ => (session, ServerError)
        | Ok programs =>
            if (length programs =? 0)%nat then
              (session, Json OK_TYPE (NoPrograms llmReply))
            else
              let cityNote : M bool :=
                if truthyO cityHint then
                  match cityHint with
                  | Some (JStr requestedCity) =>
                      partnersForCountry ← loadPartners readFileSync JSON_parse countryCode;
                      mret (negb (existsb
                              (fun p => bool_decide
                                 (toLowerCase (city p) = toLowerCase requestedCity))
                              partnersForCountry))
                  | _ => Throw (lit "city.toLowerCase is not a function")
                  end
                else mret false in
              match cityNote, llmReply with
              | Ok cityNote, JStr llmReply =>
                  (mkSession count ∅,
                   Json OK_TYPE (Results (trim llmReply) cityNote
                                         (cards programs budget)))
              | _, _ => (session, ServerError)
              end
        end
    | _, _, _ => (session, Coerced)
    end.

(** The handler from [session.count += 1] on. *)
Definition turn (session : Session) (message : jsstring) : Session * Response :=
  let count := (count session + 1)%Z in
  let text := trim message in
  let wizard := wizard session in
  match runWizardControllerLLM wizard text with
  | Throw _ => (mkSession count wizard, ServerError)
  | Ok control =>
      let updated := merged wizard control in
      let action := prop control ACTION in
      let llmReply :=
        match prop control REPLY with
        | Some r => if truthy r then r else JStr []
        | None => JStr []
        end in
      if isStr action (lit "off_topic") then
        (mkSession count updated, Json OK_TYPE (ModelReply llmReply))
      else if isStr action (lit "ask_more") then
        (mkSession count updated, Json OK_TYPE (ModelReply llmReply))
      else if isStr action (lit "ready_to_compare") then
        compare count updated llmReply
      else (mkSession count updated, Json OK_TYPE NeedMore)
  end.

Definition chat (sessions : gmap jsstring Session) (sessionId message : jsstring)
  : gmap jsstring Session * Response :=
  if (length sessionId =? 0)%nat || (length message =? 0)%nat then
    (sessions, BadRequest)
  else
    let '(sessions, session) :=
      match sessions !! sessionId with
      | Some session => (sessions, session)
      | None =>
          let session := mkSession 0 ∅ in
          (<[sessionId := session]> sessions, session)
      end in
    if (MAX_MESSAGES_FREE <=? count session)%Z then
      (sessions, Json LIMIT_REACHED LimitReply)
    else
      let '(session, response) := turn session message in
      (<[sessionId := session]> sessions, response).
End Handler.

End Part003.

(** * Further functions of the source *)

(** ** The score line of a card (src/server.js, lines 548-559) *)

(** [String.prototype.repeat]: a negative count is a [RangeError]. *)
Definition str_repeat (s : jsstring) (n : Z) : M jsstring :=
  if (n <? 0)%Z then Throw (lit "Invalid count value")
  else Ok (concat (replicate (Z.to_nat n) s)).

Definition STAR_FULL : N := 9733.     (* U+2605 *)
Definition STAR_EMPTY : N := 9734.    (* U+2606 *)
Definition BLOCK_FULL : N := 9648.    (* U+25B0 *)
Definition BLOCK_EMPTY : N := 9649.   (* U+25B1 *)

(** [stars(score)] *)
Definition stars (score : Q) : M jsstring :=
  let full := Qfloor score in
  let empty := (5 - full)%Z in
  a ← str_repeat [STAR_FULL] full;
  b ← str_repeat [STAR_EMPTY] empty;
  mret (a ++ b).

(** [Math.round]: the nearest integer, halves upwards. *)
Definition Math_round (x : Q) : Z := Qfloor (x + (1#2))%Q.

(** [bar(score)] *)
Definition bar (score : Q) : M jsstring :=
  let blocks := Math_round ((score / 5) * 10)%Q in
  filled ← str_repeat [BLOCK_FULL] blocks;
  empty ← str_repeat [BLOCK_EMPTY] (10 - blocks)%Z;
  mret (filled ++ empty).

(** ** [naturalJoin] (src/unnamed/part_002, lines 278-283) *)

(** [Array.prototype.join] on an array of strings. *)
Fixpoint array_join (sep : jsstring) (l : list jsstring) : jsstring :=
  match l with
  | [] => []
  | [x] => x
  | x :: l' => x ++ sep ++ array_join sep l'
  end.

Definition naturalJoin (l : list jsstring) : jsstring :=
  match l with
  | [] => []
  | [x] => x
  | _ => array_join (lit ", ") (removelast l) ++ lit " e " ++ List.last l []
  end.

(** ** The one-shot comparison of src/server.js (first revision, lines 1-270) *)

Module OneShot.

Record Intent : Type := mkIntent {
  budget : Z;
  countryCode : jsstring;
  weeks : Z
}.

(** [parseIntentForComparison(message)]: a budget and a country read in
    one message, for a semester of 24 weeks. *)
Definition parseIntentForComparison (message : jsstring) : option Intent :=
  let lower := toLowerCase message in
  let budget :=
    match exec budgetRegex lower with
    | Some (m0, _) => parseInt (stripNonDigits m0)
    | None => None
    end in
  let countryCode :=
    if includes lower (lit "usa")
       || includes lower (lit "stati uniti")
       || includes lower (lit "stato unito")
    then Some (lit "us")
    else if includes lower (lit "canada") || includes lower (lit "canad" ++ [A_GRAVE])
    then Some (lit "canada")
    else None in
  let weeks := 24%Z in
  if negb (truthyZ budget) || negb (truthyS countryCode) then None
  else
    match budget, countryCode with
    | Some budget, Some countryCode => Some (mkIntent budget countryCode weeks)
    | _, _ => None
    end.

Inductive Reply : Type :=
| LimitReply
| Results (countryCode : jsstring) (cards : list Card)
| GenericAnswer (content : jsstring)
| GenericProblem.

Inductive Response : Type :=
| BadRequest                                   (* status 400 *)
| Json (type : jsstring) (reply : Reply)
| ServerError.                                 (* status 500 *)

Section Handler.
Variable readFileSync : jsstring -> M jsstring.
Variable JSON_parse : jsstring -> M (list Partner).
Variable chat_completion : jsstring -> M (option jsstring).

(** "2) Altrimenti: risposta generica via LLM" *)
Definition generic (message : jsstring) : Response :=
  match chat_completion message with
  | Throw _ => ServerError
  | Ok content =>
      Json OK_TYPE (match setS content with
                    | Some reply => GenericAnswer reply
                    | None => GenericProblem
                    end)
  end.

(** [app.post("/chat", ...)]; the store maps a session to its count. *)
Definition chat (sessions : gmap jsstring Z) (sessionId message : jsstring)
  : gmap jsstring Z * Response :=
  if (length sessionId =? 0)%nat || (length message =? 0)%nat then
    (sessions, BadRequest)
  else
    let current := default 0%Z (setZ (sessions !! sessionId)) in
    if (MAX_MESSAGES_FREE <=? current)%Z then
      (sessions, Json LIMIT_REACHED LimitReply)
    else
      let sessions := <[sessionId := (current + 1)%Z]> sessions in
      match parseIntentForComparison message with
      | Some (mkIntent budget countryCode weeks) =>
          match comparePrograms readFileSync JSON_parse countryCode
                  (inject_Z budget) (inject_Z weeks) with
          | Throw _ => (sessions, ServerError)
          | Ok programs =>
              if negb (length programs =? 0)%nat then
                (sessions,
                 Json OK_TYPE (Results countryCode (cards programs (inject_Z budget))))
              else (sessions, generic message)
          end
      | None => (sessions, generic message)
      end.
End Handler.

End OneShot.

(** * Notions used in the statements *)

(** The order the comparator of [comparePrograms] induces. *)
Definition cheaper (a b : Program) : Prop := (total a <= total b)%Q.



(** The longest prefix that ends with a digit. *)
Fixpoint uptoLastDigit (l : jsstring) : jsstring :=
  match l with
  | [] => []
  | c :: l' =>
      match uptoLastDigit l' with
      | [] => if isDigit c then [c] else []
      | r => c :: r
      end
  end.

(** The first number written in a text: from its first digit, through the
    digits, dots and apostrophes that follow, up to the last digit among
    them. *)
Definition firstToken (s : jsstring) : option jsstring :=
  match dropWhile (fun c => negb (isDigit c)) s with
  | [] => None
  | d :: rest => Some (d :: uptoLastDigit (takeWhile isBudgetChar rest))
  end.

Definition firstNumber (lower : jsstring) : option Z :=
  tok ← firstToken lower; parseInt (stripNonDigits tok).

(** The markers [hasCurrency] looks for. *)
Definition currencyMarkers : list jsstring :=
  [[EURO]; lit "euro"; lit " eur"; lit " k"; lit " mila"].

(** Slots that are set in [w] have the same value in [w']. *)
Definition keeps (w w' : ServerJs.Wizard) : Prop :=
  (truthyZ (ServerJs.budget w) = true -> ServerJs.budget w' = ServerJs.budget w)
  /\ (truthyS (ServerJs.countryCode w) = true ->
      ServerJs.countryCode w' = ServerJs.countryCode w)
  /\ (truthyZ (ServerJs.weeks w) = true -> ServerJs.weeks w' = ServerJs.weeks w)
  /\ (truthyS (ServerJs.goal w) = true -> ServerJs.goal w' = ServerJs.goal w).

Definition keeps002 (w w' : Part002.Wizard) : Prop :=
  (truthyZ (Part002.budget w) = true -> Part002.budget w' = Part002.budget w)
  /\ (truthyS (Part002.countryCode w) = true ->
      Part002.countryCode w' = Part002.countryCode w)
  /\ (truthyZ (Part002.weeks w) = true -> Part002.weeks w' = Part002.weeks w)
  /\ (truthyS (Part002.goal w) = true -> Part002.goal w' = Part002.goal w).

(** What [runWizardControllerLLM] returns when it discards an answer. *)
Definition fallbackControl (wizard : gmap jsstring Part003.json) : Part003.json :=
  Part003.JObj
    (<[Part003.UPDATED_WIZARD := Part003.JObj wizard]>
    (<[Part003.ACTION := Part003.JStr (lit "ask_more")]>
    (<[Part003.REPLY := Part003.JStr Part003.RIPROVIAMO]> ∅))).

(** A text with a digit in it. *)
Definition hasDigit (s : jsstring) : Prop :=
  Exists (fun c => isDigit c = true) s.

(** What the extractors of src/server.js can leave in the slots: no
    negative number, and no country code but the two of the partner
    files.  The empty wizard is such a record. *)
Definition sane (w : ServerJs.Wizard) : Prop :=
  (forall b, ServerJs.budget w = Some b -> (0 <= b)%Z)
  /\ (forall c, ServerJs.countryCode w = Some c -> c = lit "us" \/ c = lit "canada")
  /\ (forall n, ServerJs.weeks w = Some n -> (0 <= n)%Z).

(** Every counter of the store is within the quota. *)
Definition counted (sessions : gmap jsstring ServerJs.Session) : Prop :=
  map_Forall (fun _ s => (0 <= ServerJs.count s <= MAX_MESSAGES_FREE)%Z) sessions.

(** [typeof v === "string"] *)
Definition isString (v : Part003.json) : bool :=
  match v with
  | Part003.JStr _ => true
  | _ => false
  end.


(** Units of [weeksRegex] that are whole words of the pattern. *)
Definition weekUnits : list jsstring := [lit "settimane"; lit "mesi"; lit "mese"].

(** The same for the slots of part_002. *)
Definition sane002 (w : Part002.Wizard) : Prop :=
  (forall b, Part002.budget w = Some b -> (0 <= b)%Z)
  /\ (forall c, Part002.countryCode w = Some c -> c = lit "us" \/ c = lit "canada")
  /\ (forall n, Part002.weeks w = Some n -> (0 <= n)%Z).

(** Units of the [weeksRegex] of part_002 that are whole words of it. *)
Definition weekUnits002 : list jsstring :=
  [lit "settimane"; lit "weeks"; lit "mesi"; lit "mese"; lit "months"].

(** * Sample data

    A small partner directory and a few sessions, used to run the
    definitions on concrete inputs. *)

Definition boston : Partner :=
  mkPartner (lit "Harbor School") (lit "Boston") 300 200 500 (lit "").
Definition toronto : Partner :=
  mkPartner (lit "Maple College") (lit "Toronto") 200 150 400 (lit "").
Definition san_diego : Partner :=
  mkPartner (lit "Pacific Institute") (lit "San Diego") 250 (301 # 2) 400 (lit "").
Definition new_york : Partner :=
  mkPartner (lit "Hudson Academy") (lit "New York") 350 250 600 (lit "").

(** Only [partners/us.json] exists. *)
Definition sample_disk (path : jsstring) : M jsstring :=
  if bool_decide (path = lit "partners/us.json") then Ok (lit "[4 partners]")
  else Throw (lit "ENOENT: no such file or directory").

Definition sample_parse (raw : jsstring) : M (list Partner) :=
  if bool_decide (raw = lit "[4 partners]")
  then Ok [new_york; boston; san_diego; toronto]
  else Throw (lit "Unexpected token").

Definition sample_responder (text : jsstring) : M (option jsstring) :=
  Ok (Some (lit "Edovia confronta programmi di studio all'estero.")).

Definition nearly_done : ServerJs.Session :=
  ServerJs.mkSession 3
    (ServerJs.mkWizard (Some 9000%Z) (Some (lit "canada")) (Some 24%Z) None).

Definition exhausted : ServerJs.Session :=
  ServerJs.mkSession 20
    (ServerJs.mkWizard (Some 9000%Z) (Some (lit "us")) None None).

Definition budget_known : ServerJs.Session :=
  ServerJs.mkSession 1 (ServerJs.mkWizard (Some 9000%Z) None None None).

(** A quoted JSON string. *)
Definition quoted (s : string) : jsstring := [34] ++ lit s ++ [34].

(** An answer of the controller model without [reply]:
    {"updatedWizard":{"budget":7000},"action":"ask_more"} *)
Definition answer_without_reply : jsstring :=
  lit "{" ++ quoted "updatedWizard" ++ lit ":{" ++ quoted "budget"
  ++ lit ":7000}," ++ quoted "action" ++ lit ":" ++ quoted "ask_more" ++ lit "}".

(** An answer with an action and a budget outside the contract:
    {"updatedWizard":{"budget":"tanto"},"action":"dance","reply":"ok"} *)
Definition answer_with_odd_action : jsstring :=
  lit "{" ++ quoted "updatedWizard" ++ lit ":{" ++ quoted "budget" ++ lit ":"
  ++ quoted "tanto" ++ lit "}," ++ quoted "action" ++ lit ":" ++ quoted "dance"
  ++ lit "," ++ quoted "reply" ++ lit ":" ++ quoted "ok" ++ lit "}".

Definition sample_controller (wizard : gmap jsstring Part003.json)
  (text : jsstring) : M (option jsstring) :=
  if bool_decide (text = lit "balliamo") then Ok (Some answer_with_odd_action)
  else if bool_decide (text = lit "boh") then Ok (Some (lit "{"))
  else Ok (Some answer_without_reply).

Definition sample_parse_value (raw : jsstring) : M Part003.json :=
  if bool_decide (raw = answer_without_reply) then
    Ok (Part003.JObj
          {[ lit "updatedWizard" :=
               Part003.JObj {[ lit "budget" := Part003.JNum 7000 ]};
             lit "action" := Part003.JStr (lit "ask_more") ]})
  else if bool_decide (raw = answer_with_odd_action) then
    Ok (Part003.JObj
          {[ lit "updatedWizard" :=
               Part003.JObj {[ lit "budget" := Part003.JStr (lit "tanto") ]};
             lit "action" := Part003.JStr (lit "dance");
             lit "reply" := Part003.JStr (lit "ok") ]})
  else if bool_decide (raw = lit "{}") then Ok (Part003.JObj ∅)
  else Throw (lit "Unexpected end of JSON input").

(** A directory in which two schools cost the same. *)
Definition boston_annex : Partner :=
  mkPartner (lit "Harbor School Annex") (lit "Boston") 200 300 500 (lit "").

Definition twin_disk (path : jsstring) : M jsstring := Ok (lit "[3 partners]").

Definition twin_parse (raw : jsstring) : M (list Partner) :=
  Ok [boston; toronto; boston_annex].

(** A responder and a controller model that are out of reach. *)
Definition failing_responder (text : jsstring) : M (option jsstring) :=
  Throw (lit "429 Too Many Requests").

Definition failing_controller (wizard : gmap jsstring Part003.json)
  (text : jsstring) : M (option jsstring) :=
  Throw (lit "429 Too Many Requests").

(** A disk with the same partner files and another file beside them. *)
Definition larger_disk (path : jsstring) : M jsstring :=
  if bool_decide (path = lit "partners/us.json") then Ok (lit "[4 partners]")
  else if bool_decide (path = lit "partners/../server.js") then Ok (lit "import express")
  else Throw (lit "ENOENT: no such file or directory").

Ltac split_truthy :=
  repeat match goal with
    | |- context [truthyZ ?v] => is_var v; destruct (truthyZ v) eqn:?; simpl
    | |- context [truthyS ?v] => is_var v; destruct (truthyS v) eqn:?; simpl
    end.

(** * Numbers as the code computes them

    A JavaScript number is an IEEE 754 binary64 value and [-], [*], [+]
    and [/] round to the nearest one, ties to even.  [spec_float] and the
    operations of the Standard Library's [SpecFloat] are the format and
    its arithmetic. *)

Module Binary64.

Definition prec : Z := 53.
Definition emax : Z := 1024.

Definition add : spec_float -> spec_float -> spec_float := SFadd prec emax.
Definition sub : spec_float -> spec_float -> spec_float := SFsub prec emax.
Definition mul : spec_float -> spec_float -> spec_float := SFmul prec emax.
Definition div : spec_float -> spec_float -> spec_float := SFdiv prec emax.

(** The number nearest to an integer: what [parseInt] gives for its
    digits, and what an integer literal denotes. *)
Definition of_Z (n : Z) : spec_float := binary_normalize prec emax n 0 false.

(** The number nearest to [num / den]: what a decimal literal such as
    [0.1] (= 1/10) or [4.5] (= 45/10) denotes. *)
Definition decimal (num den : Z) : spec_float := div (of_Z num) (of_Z den).

Definition zero : spec_float := S754_zero false.
Definition Infinity : spec_float := S754_infinity false.

(** The values of the format: mantissa and exponent in canonical form. *)
Definition valid : spec_float -> bool := valid_binary prec emax.

Definition finite (x : spec_float) : bool :=
  match x with
  | S754_zero _ | S754_finite _ _ _ => true
  | _ => false
  end.

(** A record of a partner file, its costs as numbers of the format. *)
Record Partner : Type := mkPartner {
  name : jsstring;
  city : jsstring;
  tuition_per_week : spec_float;
  housing_per_week : spec_float;
  fees : spec_float;
  notes : jsstring
}.

Record Program : Type := mkProgram {
  partner : Partner;
  total : spec_float;
  tuition : spec_float;
  housing : spec_float;
  fitsBudget : bool
}.

(** The callback of [partners.map] in [comparePrograms]
    (src/server.js:314-326). *)
Definition priced (budget weeks : spec_float) (p : Partner) : Program :=
  let tuition := mul (tuition_per_week p) weeks in
  let housing := mul (housing_per_week p) weeks in
  let total := add (add tuition housing) (fees p) in
  {| partner := p; total := total; tuition := tuition; housing := housing;
     fitsBudget := SFleb total budget |}.

(** [matchScore] (src/server.js:537-546). *)
Definition matchScore (total budget : spec_float) : spec_float :=
  let diff := sub total budget in
  if SFleb diff (of_Z 0) then decimal 50 10
  else
    let ratio := div diff budget in
    if SFltb ratio (decimal 1 10) then decimal 45 10
    else if SFltb ratio (decimal 2 10) then decimal 40 10
    else if SFltb ratio (decimal 3 10) then decimal 35 10
    else if SFltb ratio (decimal 5 10) then decimal 30 10
    else decimal 25 10.

(** [badgeArray] (src/server.js:561-596); [score >= 4.5] is
    [4.5 <= score]. *)
Definition badgeArray (p : Program) (score : spec_float) : list Tag :=
  let cityLower := toLowerCase (city (partner p)) in
  [if fitsBudget p then BudgetOk else SopraBudget]
  ++ (if includes cityLower (lit "boston") || includes cityLower (lit "new york")
      then [FocusAccademico] else [])
  ++ (if includes cityLower (lit "los angeles")
         || includes cityLower (lit "san diego")
         || includes cityLower (lit "vancouver")
      then [LifestyleOutdoor] else [])
  ++ (if includes cityLower (lit "toronto") then [GrandeCitta] else [])
  ++ [if SFleb (decimal 45 10) score then MatchMoltoAlto
      else if SFleb (decimal 40 10) score then BuonMatch
      else if SFleb (decimal 35 10) score then CompromessoBudget
      else UsaComeRiferimento].

(** The integer a finite number [(-1)^s * m * 2^e] denotes in units of
    [2^ez]. *)
Definition aligned (s : bool) (m : positive) (e ez : Z) : Z :=
  cond_Zopp s (Zpos m * 2 ^ (e - ez))%Z.

(** A number that is finite and not zero, or infinite, of sign [s]. *)
Definition signed (s : bool) (x : spec_float) : Prop :=
  match x with
  | S754_finite s' _ _ | S754_infinity s' => s' = s
  | _ => False
  end.

End Binary64.

(** * Partner files of any content

    [JSON.parse] returns whatever value the file holds and nothing in
    [loadPartners] checks that it is an array of partner records.  The
    definitions of this module follow the code on every value [JSON.parse]
    can return, except arrays with an entry that is neither [null] nor a
    partner record: there the outcome depends on JavaScript's conversions
    between types, which are not followed, and the definitions give no
    answer ([None]). *)

Module AnyFile.

(** An entry of a parsed array: a partner record (texts [name], [city]
    and [notes], numbers [tuition_per_week], [housing_per_week] and
    [fees]), or [null]. *)
Inductive Entry : Type :=
| Rec (p : Partner)
| Null.

(** What [JSON.parse] returns.  Of an object only its property [length]
    matters to the code ([VObj None]: it has none); [VArrOther] is an
    array with an entry of another kind than the two of [Entry]. *)
#[warnings="-register-all"]
Inductive Value : Type :=
| VNull
| VBool (b : bool)
| VNum (q : Q)
| VStr (s : jsstring)
| VObj (length : option Value)
| VArr (entries : list Entry)
| VArrOther.

Definition truthy (v : Value) : bool :=
  match v with
  | VNull => false
  | VBool b => b
  | VNum q => negb (Qeq_bool q 0)
  | VStr s => negb (length s =? 0)%nat
  | VObj _ | VArr _ | VArrOther => true
  end.

(** [Array.prototype.map] with a callback that can throw. *)
Fixpoint array_map {A B} (f : A -> M B) (l : list A) : M (list B) :=
  match l with
  | [] => mret []
  | x :: l' => y ← f x; ys ← array_map f l'; mret (y :: ys)
  end.

Section Comparator.
Variable readFileSync : jsstring -> M jsstring.
Variable JSON_parse : jsstring -> M Value.

(** [loadPartners] (src/server.js:298-307): the [try] covers the read and
    the parse, nothing else. *)
Definition loadPartners (countryCode : jsstring) : M Value :=
  try_catch
    (raw ← readFileSync (partnersPath countryCode);
     JSON_parse raw)
    (fun _ => mret (VArr [])).

(** The callback of [partners.map]: [p.tuition_per_week] on [null]
    throws. *)
Definition price (budget weeks : Q) (p : Entry) : M Program :=
  match p with
  | Rec p => mret (priced budget weeks p)
  | Null => Throw (lit "Cannot read properties of null (reading 'tuition_per_week')")
  end.

(** [comparePrograms] (src/server.js:309-328).  [partners.length] throws
    on [null] and is [undefined] on a boolean, a number and an object
    without that property; [partners.map] is a function on arrays only. *)
Definition comparePrograms (countryCode : jsstring) (budget weeks : Q)
  : option (M (list Program)) :=
  match loadPartners countryCode with
  | Throw err => Some (Throw err)
  | Ok VNull =>
      Some (Throw (lit "Cannot read properties of null (reading 'length')"))
  | Ok (VBool _) | Ok (VNum _) => Some (mret [])
  | Ok (VStr s) =>
      Some (if (length s =? 0)%nat then mret []
            else Throw (lit "partners.map is not a function"))
  | Ok (VObj length) =>
      Some (if negb (from_option truthy false length) then mret []
            else Throw (lit "partners.map is not a function"))
  | Ok (VArr entries) =>
      Some (if (length entries =? 0)%nat then mret []
            else
              programs ← array_map (price budget weeks) entries;
              mret (array_sort byTotal programs))
  | Ok VArrOther => None
  end.

(** [partnersForCountry.some((p) => (p.city || "").toLowerCase() === requestedCityLower)] *)
Fixpoint array_some_city (requestedCityLower : jsstring) (l : list Entry) : M bool :=
  match l with
  | [] => mret false
  | Rec p :: l' =>
      if bool_decide (toLowerCase (city p) = requestedCityLower) then mret true
      else array_some_city requestedCityLower l'
  | Null :: _ => Throw (lit "Cannot read properties of null (reading 'city')")
  end.

Definition hasExactCity (requestedCity : jsstring) (partnersForCountry : Value)
  : option (M bool) :=
  match partnersForCountry with
  | VArr entries => Some (array_some_city (toLowerCase requestedCity) entries)
  | VArrOther => None
  | VNull => Some (Throw (lit "Cannot read properties of null (reading 'some')"))
  | _ => Some (Throw (lit "partnersForCountry.some is not a function"))
  end.
End Comparator.

Section Handlers.
Variable readFileSync : jsstring -> M jsstring.
Variable JSON_parse : jsstring -> M Value.
Variable chat_completion : jsstring -> M (option jsstring).
Variable controller_completion :
  gmap jsstring Part003.json -> jsstring -> M (option jsstring).
Variable JSON_parse_value : jsstring -> M Part003.json.

(** The handler of src/server.js (lines 420-655) from
    [session.count += 1] on. *)
Definition turn (session : ServerJs.Session) (message : jsstring)
  : option (ServerJs.Session * ServerJs.Response) :=
  let count := (ServerJs.count session + 1)%Z in
  let text := trim message in
  let wizard := ServerJs.populate (ServerJs.wizard session) text in
  let session := ServerJs.mkSession count wizard in
  if negb (ServerJs.wizardActive wizard) && negb (ServerJs.isProgramIntent text) then
    match chat_completion text with
    | Throw _ => Some (session, ServerJs.ServerError)
    | Ok content =>
        Some (session,
              ServerJs.Json OK_TYPE (match setS content with
                                     | Some reply => ServerJs.GenericAnswer reply
                                     | None => ServerJs.GenericProblem
                                     end))
    end
  else
    match setZ (ServerJs.budget wizard), setS (ServerJs.countryCode wizard),
          setZ (ServerJs.weeks wizard), setS (ServerJs.goal wizard) with
    | None, _, _, _ => Some (session, ServerJs.Json OK_TYPE ServerJs.AskBudget)
    | Some b, None, _, _ =>
        Some (session, ServerJs.Json OK_TYPE (ServerJs.AskCountry b))
    | Some _, Some _, None, _ =>
        Some (session, ServerJs.Json OK_TYPE ServerJs.AskWeeks)
    | Some _, Some _, Some _, None =>
        Some (session, ServerJs.Json OK_TYPE ServerJs.AskGoal)
    | Some b, Some c, Some w, Some g =>
        match comparePrograms readFileSync JSON_parse c (inject_Z b) (inject_Z w) with
        | None => None
        | Some (Throw _) => Some (session, ServerJs.ServerError)
        | Some (Ok programs) =>
            if negb (length programs =? 0)%nat then
              Some (ServerJs.mkSession count ServerJs.emptyWizard,
                    ServerJs.Json OK_TYPE
                      (ServerJs.Results (trim g) b w c
                                        (cards programs (inject_Z b))))
            else Some (session, ServerJs.Json OK_TYPE ServerJs.NoPartners)
        end
    end.

(** The branch [ready_to_compare] of src/unnamed/part_003 (lines
    279-440).  The comparison is followed when the slots hold a number, a
    text and a number; for slots of other types the outcome depends on
    JavaScript's conversions and there is no answer.  Nor is there one
    when no program is found and the reply of the model is an array or an
    object, which [+] would have to convert to a text. *)
Definition compare003 (count : Z) (updated : gmap jsstring Part003.json)
  (llmReply : Part003.json) : option (Part003.Session * Part003.Response) :=
  let session := Part003.mkSession count updated in
  let budget := updated !! lit "budget" in
  let countryCode := updated !! lit "countryCode" in
  let weeks := updated !! lit "weeks" in
  let goal := updated !! lit "goal" in
  let cityHint := updated !! lit "city" in
  if negb (Part003.truthyO budget) || negb (Part003.truthyO countryCode)
     || negb (Part003.truthyO weeks) || negb (Part003.truthyO goal)
  then Some (session, Part003.Json OK_TYPE Part003.AlmostThere)
  else
    match budget, countryCode, weeks with
    | Some (Part003.JNum budget), Some (Part003.JStr countryCode),
      Some (Part003.JNum weeks) =>
        match comparePrograms readFileSync JSON_parse countryCode budget weeks with
        | None => None
        | Some (Throw _) => Some (session, Part003.ServerError)
        | Some (Ok programs) =>
            if (length programs =? 0)%nat then
              (* [llmReply + "\n\n" + ...] *)
              match llmReply with
              | Part003.JArr _ | Part003.JObj _ => None
              | _ => Some (session,
                           Part003.Json OK_TYPE (Part003.NoPrograms llmReply))
              end
            else
              let cityNote : option (M bool) :=
                if Part003.truthyO cityHint then
                  match cityHint with
                  | Some (Part003.JStr requestedCity) =>
                      match loadPartners readFileSync JSON_parse countryCode with
                      | Throw err => Some (Throw err)
                      | Ok partnersForCountry =>
                          match hasExactCity requestedCity partnersForCountry with
                          | None => None
                          | Some hasExactCity =>
                              Some (hasExactCity ← hasExactCity;
                                    mret (negb hasExactCity))
                          end
                      end
                  | _ => Some (Throw (lit "city.toLowerCase is not a function"))
                  end
                else Some (mret false) in
              match cityNote, llmReply with
              | None, _ => None
              | Some (Ok cityNote), Part003.JStr llmReply =>
                  Some (Part003.mkSession count ∅,
                        Part003.Json OK_TYPE
                          (Part003.Results (trim llmReply) cityNote
                                           (cards programs budget)))
              | Some _, _ => Some (session, Part003.ServerError)
              end
        end
    | _, _, _ => None
    end.

(** The handler of src/unnamed/part_003 (lines 217-451) from
    [session.count += 1] on. *)
Definition turn003 (session : Part003.Session) (message : jsstring)
  : option (Part003.Session * Part003.Response) :=
  let count := (Part003.count session + 1)%Z in
  let text := trim message in
  let wizard := Part003.wizard session in
  match Part003.runWizardControllerLLM controller_completion JSON_parse_value
          wizard text with
  | Throw _ => Some (Part003.mkSession count wizard, Part003.ServerError)
  | Ok control =>
      let updated := Part003.merged wizard control in
      let action := Part003.prop control Part003.ACTION in
      let llmReply :=
        match Part003.prop control Part003.REPLY with
        | Some r => if Part003.truthy r then r else Part003.JStr []
        | None => Part003.JStr []
        end in
      if Part003.isStr action (lit "off_topic") then
        Some (Part003.mkSession count updated,
              Part003.Json OK_TYPE (Part003.ModelReply llmReply))
      else if Part003.isStr action (lit "ask_more") then
        Some (Part003.mkSession count updated,
              Part003.Json OK_TYPE (Part003.ModelReply llmReply))
      else if Part003.isStr action (lit "ready_to_compare") then
        compare003 count updated llmReply
      else Some (Part003.mkSession count updated,
                 Part003.Json OK_TYPE Part003.NeedMore)
  end.
End Handlers.

End AnyFile.

(** ** Vocabulary for partner files *)

(** The value of a file that holds an array of partner records. *)
Definition records (partners : list Partner) : AnyFile.Value :=
  AnyFile.VArr (map AnyFile.Rec partners).

(** A parser that only ever returns arrays of partner records. *)
Definition typed (JSON_parse : jsstring -> M (list Partner)) (raw : jsstring)
  : M AnyFile.Value :=
  partners ← JSON_parse raw; mret (records partners).

(** The values on which [partners.length] or [partners.map(...)]
    throws: [null], a text that is not empty, an object with a truthy
    [length], an array with a [null] in it. *)
Definition malformed (v : AnyFile.Value) : bool :=
  match v with
  | AnyFile.VNull => true
  | AnyFile.VBool _ | AnyFile.VNum _ => false
  | AnyFile.VStr s => negb (length s =? 0)%nat
  | AnyFile.VObj length => from_option AnyFile.truthy false length
  | AnyFile.VArr entries =>
      existsb (fun p => match p with AnyFile.Null => true | _ => false end) entries
  | AnyFile.VArrOther => false
  end.

(** ** Sample data for partner files of any content *)

(** A directory in which every partner file holds the text [null]. *)
Definition null_disk (path : jsstring) : M jsstring := Ok (lit "null").

(** A directory in which every partner file is cut short. *)
Definition corrupt_disk (path : jsstring) : M jsstring := Ok (lit "[{ name:").

Definition sample_JSON_parse (raw : jsstring) : M AnyFile.Value :=
  if bool_decide (raw = lit "null") then Ok AnyFile.VNull
  else typed sample_parse raw.

(** A controller that has its four slots and asks for the comparison. *)
Definition ready_controller (wizard : gmap jsstring Part003.json)
  (text : jsstring) : M (option jsstring) :=
  Ok (Some (lit "READY")).

Definition ready_parse_value (raw : jsstring) : M Part003.json :=
  Ok (Part003.JObj
        {[ lit "updatedWizard" :=
             Part003.JObj {[ lit "budget" := Part003.JNum 9000;
                             lit "countryCode" := Part003.JStr (lit "us");
                             lit "weeks" := Part003.JNum 24;
                             lit "goal" := Part003.JStr (lit "inglese") ]};
           lit "action" := Part003.JStr (lit "ready_to_compare");
           lit "reply" := Part003.JStr (lit "Ecco") ]}).

(** A partner whose costs are numbers of the format. *)
Definition toronto64 : Binary64.Partner :=
  Binary64.mkPartner (lit "Maple College") (lit "Toronto")
    (Binary64.of_Z 200) (Binary64.of_Z 150) (Binary64.of_Z 400) (lit "").

(** The slots the comparison computes with are a number, a text and a
    number, when all four slots are set. *)
Definition comparable (w : gmap jsstring Part003.json) : Prop :=
  Part003.truthyO (w !! lit "budget") = true ->
  Part003.truthyO (w !! lit "countryCode") = true ->
  Part003.truthyO (w !! lit "weeks") = true ->
  Part003.truthyO (w !! lit "goal") = true ->
  exists budget countryCode weeks,
    w !! lit "budget" = Some (Part003.JNum budget)
    /\ w !! lit "countryCode" = Some (Part003.JStr countryCode)
    /\ w !! lit "weeks" = Some (Part003.JNum weeks).

(** A value that [+] turns into a text without running a method of the
    value: anything but an array or an object. *)
Definition primitive (v : Part003.json) : bool :=
  match v with
  | Part003.JArr _ | Part003.JObj _ => false
  | _ => true
  end.

(** * The comparison engine *)

Section EngineFacts.
Local Open Scope Q_scope.

Lemma Qltb_true x y : Qltb x y = true <-> x < y.
Proof.
  unfold Qltb. rewrite negb_true_iff. split.
  - intros H. apply Qnot_le_lt. intros Hle.
    apply Qle_bool_iff in Hle. congruence.
  - intros H. destruct (Qle_bool y x) eqn:E; [|reflexivity].
    apply Qle_bool_iff in E. exfalso. eapply Qlt_not_le; eauto.
Qed.

Lemma Qltb_false x y : Qltb x y = false <-> y <= x.
Proof. unfold Qltb. rewrite negb_false_iff. apply Qle_bool_iff. Qed.

Lemma Qle_bool_false x y : Qle_bool x y = false <-> y < x.
Proof.
  rewrite <- Qltb_true. unfold Qltb. rewrite negb_true_iff. reflexivity.
Qed.



#[local] Instance cheaper_trans : Transitive cheaper.
Proof. intros a b c. unfold cheaper. apply Qle_trans. Qed.

Lemma sort_insert_perm {A} (compare : A -> A -> Q) x l :
  sort_insert compare x l ≡ₚ x :: l.
Proof.
  induction l as [|y l IH]; simpl; [reflexivity|].
  destruct (Qle_bool (compare x y) 0); [reflexivity|].
  rewrite IH. apply perm_swap.
Qed.

Lemma array_sort_perm {A} (compare : A -> A -> Q) l :
  array_sort compare l ≡ₚ l.
Proof.
  induction l as [|x l IH]; simpl; [reflexivity|].
  rewrite sort_insert_perm. by rewrite IH.
Qed.








Lemma ratio_pos_gt t b : 0 < b -> 0 < (t - b) / b -> b < t.
Proof.
  intros Hb Hr. apply Qnot_le_lt. intros Hle.
  apply (Qlt_not_le _ _ Hr). apply Qle_shift_div_r; [assumption|]. lra.
Qed.

Lemma matchScore_over t b :
  0 < b -> b < t ->
  matchScore t b =
    let ratio := (t - b) / b in
    if Qltb ratio (1#10) then 9#2
    else if Qltb ratio (2#10) then 4
    else if Qltb ratio (3#10) then 7#2
    else if Qltb ratio (5#10) then 3
    else 5#2.
Proof.
  intros Hb Ht. unfold matchScore.
  assert (Qle_bool (t - b) 0 = false) as ->
    by (apply Qle_bool_false; lra).
  assert (Qeq_bool b 0 = false) as ->; [|reflexivity].
  destruct (Qeq_bool b 0) eqn:E; [|reflexivity].
  apply Qeq_bool_eq in E. lra.
Qed.

Variable readFileSync : jsstring -> M jsstring.
Variable JSON_parse : jsstring -> M (list Partner).

Lemma loadPartners_returns countryCode :
  exists partners, loadPartners readFileSync JSON_parse countryCode = Ok partners.
Proof.
  unfold loadPartners.
  destruct (readFileSync (partnersPath countryCode)) as [raw|msg]; simpl;
    [|by eexists].
  destruct (JSON_parse raw); simpl; by eexists.
Qed.

Lemma comparePrograms_loaded countryCode budget weeks partners :
  loadPartners readFileSync JSON_parse countryCode = Ok partners ->
  comparePrograms readFileSync JSON_parse countryCode budget weeks
  = Ok (array_sort byTotal (map (priced budget weeks) partners)).
Proof.
  unfold comparePrograms. intros ->. simpl.
  destruct partners; reflexivity.
Qed.

Lemma comparePrograms_entries countryCode budget weeks programs e :
  comparePrograms readFileSync JSON_parse countryCode budget weeks = Ok programs ->
  e ∈ programs ->
  exists p, e = priced budget weeks p.
Proof.
  destruct (loadPartners_returns countryCode) as [partners Hload].
  rewrite (comparePrograms_loaded _ _ _ _ Hload). intros [= <-] He.
  rewrite array_sort_perm in He.
  change (map (priced budget weeks) partners)
    with (priced budget weeks <$> partners) in He.
  apply list_elem_of_fmap in He as (p & -> & _). by exists p.
Qed.



End EngineFacts.

(** The sample directory, cheapest first; Hudson Academy is left out. *)
Example sample_cards :
  (programs ← comparePrograms sample_disk sample_parse (lit "us") 9000 24;
   mret (map (fun c => (partner (shown c), score c)) (cards programs 9000)))
  = Ok [(toronto, 5%Q); (san_diego, 4%Q); (boston, 3%Q)].
Proof. reflexivity. Qed.

(** * The budget pattern *)

Lemma isDigit_budget c : isDigit c = true -> isBudgetChar c = true.
Proof. unfold isBudgetChar. by intros ->. Qed.

Lemma head_starC p s : head (starC p s) = Some (takeWhile p s, dropWhile p s).
Proof.
  induction s as [|c s IH]; simpl; [reflexivity|].
  destruct (p c); [|reflexivity].
  destruct (starC p s) as [|[m r] l]; [discriminate|].
  simpl in *. by injection IH as -> ->.
Qed.

(** The tail of the first alternative, [[\d\.'’]*\d]. *)
Lemma run_tail_stop c rest :
  isBudgetChar c = false ->
  run (Cat (Star isBudgetChar) (Cls isDigit)) (c :: rest) = [].
Proof.
  intros E. simpl. rewrite E. simpl.
  destruct (isDigit c) eqn:D; [|reflexivity].
  apply isDigit_budget in D. congruence.
Qed.

Lemma run_tail_cons c rest :
  isBudgetChar c = true ->
  run (Cat (Star isBudgetChar) (Cls isDigit)) (c :: rest)
  = map (fun a : attempt => (c :: a.1.1, a.1.2, a.2))
        (run (Cat (Star isBudgetChar) (Cls isDigit)) rest)
    ++ (if isDigit c then [([c], [], rest)] else []).
Proof.
  intros E. simpl. rewrite E.
  rewrite map_app, flat_map_app. simpl. rewrite app_nil_r.
  f_equal; [|by destruct (isDigit c)].
  induction (starC isBudgetChar rest) as [|[m s] l IH]; simpl; [reflexivity|].
  rewrite map_app, IH. f_equal.
  destruct s as [|x s]; simpl; [reflexivity|].
  by destruct (isDigit x).
Qed.

Lemma head_run_tail rest :
  match uptoLastDigit (takeWhile isBudgetChar rest) with
  | [] => run (Cat (Star isBudgetChar) (Cls isDigit)) rest = []
  | r => exists s l,
           run (Cat (Star isBudgetChar) (Cls isDigit)) rest = (r, [], s) :: l
  end.
Proof.
  induction rest as [|c rest IH].
  - reflexivity.
  - cbn [takeWhile]. destruct (isBudgetChar c) eqn:E.
    + rewrite (run_tail_cons _ _ E). cbn [uptoLastDigit].
      destruct (uptoLastDigit (takeWhile isBudgetChar rest)) as [|x r].
      * rewrite IH. simpl. destruct (isDigit c); [by eexists _, _|reflexivity].
      * destruct IH as (s & l & ->). simpl. by eexists _, _.
    + simpl. by apply run_tail_stop.
Qed.

Lemma run_budget_nondigit c s : isDigit c = false -> run budgetRegex (c :: s) = [].
Proof. intros E. simpl. by rewrite E. Qed.

Lemma run_budget_digit d rest :
  isDigit d = true ->
  exists s l,
    run budgetRegex (d :: rest)
    = (d :: uptoLastDigit (takeWhile isBudgetChar rest),
       [(1%nat, d :: uptoLastDigit (takeWhile isBudgetChar rest))], s) :: l.
Proof.
  intros E.
  change (run budgetRegex (d :: rest)) with
    (map (fun a : attempt => let '(m, c, rest) := a in (m, (1%nat, m) :: c, rest))
       (flat_map
          (fun a1 : attempt =>
             let '(m1, c1, s1) := a1 in
             map (fun a2 : attempt =>
                    let '(m2, c2, s2) := a2 in (m1 ++ m2, c1 ++ c2, s2))
                 (run (Cat (Star isBudgetChar) (Cls isDigit)) s1))
          (run (Cls isDigit) (d :: rest))
        ++ run (Plus isDigit) (d :: rest))).
  simpl. rewrite E. simpl. rewrite app_nil_r.
  pose proof (head_run_tail rest) as H.
  change (flat_map _ (map _ (starC isBudgetChar rest)))
    with (run (Cat (Star isBudgetChar) (Cls isDigit)) rest).
  destruct (uptoLastDigit (takeWhile isBudgetChar rest)) as [|x r] eqn:U.
  - rewrite H. simpl.
    pose proof (head_starC isDigit rest) as Hd.
    destruct (starC isDigit rest) as [|[m s] l]; [discriminate|].
    injection Hd as -> ->. simpl.
    assert (takeWhile isDigit rest = []) as ->; [|by eexists _, _].
    destruct rest as [|c rest]; [reflexivity|]. simpl.
    destruct (isDigit c) eqn:D; [|reflexivity].
    exfalso. simpl in U. rewrite (isDigit_budget _ D) in U. simpl in U.
    rewrite D in U. by destruct (uptoLastDigit _).
  - destruct H as (s & l & ->). simpl. by eexists _, _.
Qed.

(** What the budget pattern matches is the first number of the text. *)
Lemma exec_budgetRegex s :
  exec budgetRegex s = (fun m => (m, [(1%nat, m)])) <$> firstToken s.
Proof.
  unfold firstToken. induction s as [|c s IH]; [reflexivity|].
  cbn [exec dropWhile]. destruct (isDigit c) eqn:D.
  - destruct (run_budget_digit c s D) as (s' & l & ->). reflexivity.
  - rewrite (run_budget_nondigit _ _ D). simpl. exact IH.
Qed.

(** The matcher on some texts: grouped digits, a dot that ends a sentence
    (the pattern gives it back), a single digit, no digit. *)
Example budget_matches :
  fst <$> exec budgetRegex (lit "circa 10.000,50 euro") = Some (lit "10.000")
  /\ fst <$> exec budgetRegex (lit "sono 10. poi vediamo") = Some (lit "10")
  /\ fst <$> exec budgetRegex (lit "resto 3 mesi") = Some (lit "3")
  /\ exec budgetRegex (lit "non saprei") = None.
Proof. repeat split; reflexivity. Qed.

Lemma parseBudget_firstNumber text :
  Part002.parseBudget text
  = (v ← firstNumber (toLowerCase text);
     if negb (Part002.hasCurrency (toLowerCase text)) && (v <? 100)%Z
     then None else Some v).
Proof.
  unfold Part002.parseBudget, firstNumber. cbv zeta.
  rewrite exec_budgetRegex.
  destruct (firstToken (toLowerCase text)) as [tok|]; simpl; [|reflexivity].
  by destruct (parseInt (stripNonDigits tok)).
Qed.

Lemma startsWith_app m b : startsWith (m ++ b) m = true.
Proof.
  induction m as [|c m IH]; simpl; [reflexivity|].
  by rewrite N.eqb_refl.
Qed.

Lemma includes_app a m b : includes (a ++ m ++ b) m = true.
Proof.
  induction a as [|c a IH]; simpl.
  - destruct (m ++ b) eqn:E; simpl; rewrite <- E, startsWith_app; reflexivity.
  - rewrite IH. apply orb_true_r.
Qed.

Lemma hasCurrency_anywhere a m b :
  m ∈ currencyMarkers -> Part002.hasCurrency (a ++ m ++ b) = true.
Proof.
  unfold currencyMarkers, Part002.hasCurrency. intros Hm.
  repeat (apply elem_of_cons in Hm as [->|Hm];
          [rewrite includes_app; by rewrite ?orb_true_r|]).
  by apply elem_of_nil in Hm.
Qed.

Ltac split_units :=
  repeat match goal with
    | |- context [N.leb ?a ?b] => destruct (N.leb_spec a b)
    | |- context [N.eqb ?a ?b] => destruct (N.eqb_spec a b)
    end; simpl; try reflexivity; try discriminate; try lia.

Lemma lowerUnit_digit c : isDigit (lowerUnit c) = isDigit c.
Proof.
  unfold lowerUnit, isDigit.
  destruct (N.leb_spec 65 c), (N.leb_spec c 90), (N.leb_spec 192 c),
    (N.leb_spec c 222), (N.eqb_spec c 215); simpl; split_units.
Qed.

Lemma lowerUnit_fixes_digit c : isDigit c = true -> lowerUnit c = c.
Proof.
  unfold lowerUnit, isDigit.
  destruct (N.leb_spec 48 c), (N.leb_spec c 57); try discriminate.
  intros _. split_units.
Qed.

Lemma lowerUnit_budgetChar c : isBudgetChar (lowerUnit c) = isBudgetChar c.
Proof.
  unfold isBudgetChar, isDigit, lowerUnit, RSQUO.
  destruct (N.leb_spec 65 c), (N.leb_spec c 90), (N.leb_spec 192 c),
    (N.leb_spec c 222), (N.eqb_spec c 215); simpl; split_units.
Qed.

Lemma toLowerCase_digits ds :
  Forall (fun c => isDigit c = true) ds -> toLowerCase ds = ds.
Proof.
  induction 1 as [|c ds Hc _ IH]; simpl; [reflexivity|].
  by rewrite (lowerUnit_fixes_digit _ Hc), IH.
Qed.

Lemma dropWhile_app_all {A} (p : A -> bool) pre l :
  Forall (fun c => p c = true) pre -> dropWhile p (pre ++ l) = dropWhile p l.
Proof. induction 1 as [|c pre Hc _ IH]; simpl; [reflexivity|]. by rewrite Hc. Qed.

Lemma takeWhile_app_stop {A} (p : A -> bool) ds x l :
  Forall (fun c => p c = true) ds -> p x = false ->
  takeWhile p (ds ++ x :: l) = ds.
Proof.
  intros H Hx. induction H as [|c ds Hc _ IH]; simpl.
  - by rewrite Hx.
  - by rewrite Hc, IH.
Qed.

Lemma uptoLastDigit_digits ds :
  Forall (fun c => isDigit c = true) ds -> uptoLastDigit ds = ds.
Proof.
  induction 1 as [|c ds Hc _ IH]; simpl; [reflexivity|].
  rewrite IH, Hc. by destruct ds.
Qed.

Lemma stripNonDigits_digits ds :
  Forall (fun c => isDigit c = true) ds -> stripNonDigits ds = ds.
Proof.
  unfold stripNonDigits.
  induction 1 as [|c ds Hc _ IH]; simpl; [reflexivity|].
  by rewrite Hc, IH.
Qed.

Lemma firstToken_first_digits pre ds x rest :
  Forall (fun c => isDigit c = false) pre ->
  ds <> [] ->
  Forall (fun c => isDigit c = true) ds ->
  isBudgetChar x = false ->
  firstToken (pre ++ ds ++ x :: rest) = Some ds.
Proof.
  intros Hpre Hne Hds Hx. unfold firstToken.
  rewrite dropWhile_app_all
    by (eapply Forall_impl; [exact Hpre|]; by intros c ->).
  destruct ds as [|d ds]; [done|]. simpl.
  apply Forall_cons in Hds as [Hd Hds].
  rewrite Hd. simpl.
  rewrite takeWhile_app_stop;
    [|eapply Forall_impl; [exact Hds|]; apply isDigit_budget|exact Hx].
  by rewrite uptoLastDigit_digits.
Qed.

(** C10.  The value [parseBudget] returns is the first number written in
    the lower-cased text (its first digits, with the dots and apostrophes
    that group them): when the first run of digits is followed by anything
    but a digit, a dot or an apostrophe, the value is that run, whatever
    comes later.  The marker is looked for in the whole text: it counts
    wherever it stands.  So in "3 mesi con 9000 euro" the marker belongs to
    the 9000 and the budget returned is 3. *)
Theorem budget_is_first_number :
  (forall text v,
     Part002.parseBudget text = Some v -> firstNumber (toLowerCase text) = Some v)
  /\ (forall pre ds x rest v,
        Forall (fun c => isDigit c = false) pre ->
        ds <> [] ->
        Forall (fun c => isDigit c = true) ds ->
        isBudgetChar x = false ->
        Part002.parseBudget (pre ++ ds ++ x :: rest) = Some v ->
        parseInt ds = Some v)
  /\ (forall a m b,
        m ∈ currencyMarkers -> Part002.hasCurrency (a ++ m ++ b) = true)
  /\ firstNumber (toLowerCase (lit "3 mesi con 9000 euro")) = Some 3%Z
  /\ Part002.hasCurrency (toLowerCase (lit "3 mesi con 9000 euro")) = true
  /\ Part002.parseBudget (lit "3 mesi con 9000 euro") = Some 3%Z.
Proof.
  split; [|split; [|split; [|repeat split; reflexivity]]].
  - intros text v. rewrite parseBudget_firstNumber.
    destruct (firstNumber (toLowerCase text)) as [n|]; simpl; [|done].
    by case_match.
  - intros pre ds x rest v Hpre Hne Hds Hx.
    rewrite parseBudget_firstNumber. unfold firstNumber, toLowerCase.
    rewrite !map_app. cbn [map].
    change (map lowerUnit ds) with (toLowerCase ds).
    rewrite (toLowerCase_digits _ Hds).
    rewrite firstToken_first_digits; try assumption.
    + simpl. rewrite (stripNonDigits_digits _ Hds).
      destruct (parseInt ds) as [n|]; simpl; [|done]. by case_match.
    + clear -Hpre. induction Hpre as [|c pre Hc _ IH]; simpl; constructor.
      * by rewrite lowerUnit_digit.
      * exact IH.
    + by rewrite lowerUnit_budgetChar.
  - apply hasCurrency_anywhere.
Qed.

Lemma budget_is_first_number_witness :
  Part002.parseBudget (lit "ho 3 mesi e 9000 euro") = Some 3%Z
  /\ parseInt (lit "3") = Some 3%Z.
Proof.
  split; [reflexivity|].
  apply (proj1 (proj2 budget_is_first_number)
           (lit "ho ") (lit "3") 32 (lit "mesi e 9000 euro") 3%Z).
  - repeat constructor.
  - discriminate.
  - repeat constructor.
  - reflexivity.
  - reflexivity.
Defined.

(** * The deterministic controller of src/server.js *)

Section ServerJsFacts.
Import ServerJs.

Lemma populate_keeps wizard text : keeps wizard (populate wizard text).
Proof.
  unfold keeps, populate. destruct wizard as [b c w g]. simpl.
  generalize (parseBudget text) (parseCountryCode text) (parseWeeks text).
  intros db dc dw. split_truthy; repeat split; congruence.
Qed.

Lemma populate_fallback wizard text :
  truthyZ (budget wizard) = true ->
  truthyS (countryCode wizard) = true ->
  truthyZ (weeks wizard) = true ->
  truthyS (goal wizard) = false ->
  truthyZ (parseBudget text) = false ->
  truthyS (parseCountryCode text) = false ->
  truthyZ (parseWeeks text) = false ->
  populate wizard text
  = mkWizard (budget wizard) (countryCode wizard) (weeks wizard) (Some text).
Proof.
  unfold populate. destruct wizard as [b c w g]. simpl.
  intros Hb Hc Hw Hg Hdb Hdc Hdw.
  rewrite Hdb. simpl. rewrite Hdc. simpl. rewrite Hdw. simpl.
  by rewrite Hb, Hc, Hw, Hg.
Qed.

Variable readFileSync : jsstring -> M jsstring.
Variable JSON_parse : jsstring -> M (list Partner).
Variable chat_completion : jsstring -> M (option jsstring).

Abbreviation turn := (turn readFileSync JSON_parse chat_completion).
Abbreviation chat := (chat readFileSync JSON_parse chat_completion).

(** A turn either leaves the populated wizard in the session, or it has
    shown results and the wizard is empty again. *)
Lemma turn_wizard session message :
  (turn session message).1.(wizard) = populate (wizard session) (trim message)
  \/ ((turn session message).1.(wizard) = emptyWizard
      /\ exists g b w c cs,
           (turn session message).2 = Json OK_TYPE (Results g b w c cs)).
Proof.
  unfold ServerJs.turn. cbv zeta.
  repeat case_match; simpl; try by left.
  right. split; [reflexivity|]. by repeat eexists.
Qed.

Lemma turn_count session message :
  (turn session message).1.(count) = (count session + 1)%Z.
Proof. unfold ServerJs.turn. cbv zeta. by repeat case_match. Qed.

(** The turn that finds all four slots filled. *)
Lemma turn_ready session message b c w g :
  populate (wizard session) (trim message)
  = mkWizard (Some b) (Some c) (Some w) (Some g) ->
  b <> 0%Z -> c <> [] -> w <> 0%Z -> g <> [] ->
  turn session message =
    match comparePrograms readFileSync JSON_parse c (inject_Z b) (inject_Z w) with
    | Throw _ =>
        (mkSession (count session + 1) (mkWizard (Some b) (Some c) (Some w) (Some g)),
         ServerError)
    | Ok programs =>
        if negb (length programs =? 0)%nat then
          (mkSession (count session + 1) emptyWizard,
           Json OK_TYPE (Results (trim g) b w c (cards programs (inject_Z b))))
        else
          (mkSession (count session + 1) (mkWizard (Some b) (Some c) (Some w) (Some g)),
           Json OK_TYPE NoPartners)
    end.
Proof.
  intros Hp Hb Hc Hw Hg. unfold ServerJs.turn. rewrite Hp.
  assert (truthyZ (Some b) = true) as Tb
    by (simpl; apply negb_true_iff; by apply Z.eqb_neq).
  assert (truthyZ (Some w) = true) as Tw
    by (simpl; apply negb_true_iff; by apply Z.eqb_neq).
  assert (truthyS (Some c) = true) as Tc by (by destruct c).
  assert (truthyS (Some g) = true) as Tg by (by destruct g).
  unfold wizardActive, setZ, setS. cbn [budget countryCode weeks goal].
  rewrite Tb, Tw, Tc, Tg. reflexivity.
Qed.

Lemma turn_keeps session message :
  keeps (wizard session) (turn session message).1.(wizard)
  \/ ((turn session message).1.(wizard) = emptyWizard
      /\ exists g b w c cs,
           (turn session message).2 = Json OK_TYPE (Results g b w c cs)).
Proof.
  destruct (turn_wizard session message) as [->|H]; [left|by right].
  apply populate_keeps.
Qed.

(** A well-formed request below the quota runs [turn] on the session of
    the store (a fresh one when there is none) and stores the result. *)
Lemma chat_runs_turn (sessions : gmap jsstring Session)
  (sessionId message : jsstring) :
  let session := default (mkSession 0 emptyWizard) (sessions !! sessionId) in
  sessionId <> [] -> message <> [] ->
  (count session < 20)%Z ->
  chat sessions sessionId message
  = (<[sessionId := (turn session message).1]> sessions,
     (turn session message).2).
Proof.
  intros session Hid Hmsg Hcount. unfold ServerJs.chat.
  assert ((length sessionId =? 0)%nat || (length message =? 0)%nat = false) as ->
    by (by destruct sessionId, message).
  subst session.
  destruct (sessions !! sessionId) as [s|]; cbv [default from_option id] in *.
  - assert ((MAX_MESSAGES_FREE <=? count s)%Z = false) as ->
      by (apply Z.leb_gt; exact Hcount).
    by destruct (turn s message).
  - cbn [count]. change (MAX_MESSAGES_FREE <=? 0)%Z with false. cbv iota.
    destruct (turn (mkSession 0 emptyWizard) message) as [s' r]. cbn [fst snd].
    by rewrite insert_insert_eq.
Qed.

(** C3.  A session whose counter has reached [MAX_MESSAGES_FREE] (20) gets
    the reply of type "limit_reached", and the store is what it was: no
    slot of the wizard has changed and the counter has not moved. *)
Theorem quota_blocks (sessions : gmap jsstring Session)
  (sessionId message : jsstring) (session : Session) :
  sessionId <> [] -> message <> [] ->
  sessions !! sessionId = Some session ->
  (20 <= count session)%Z ->
  chat sessions sessionId message = (sessions, Json (lit "limit_reached") LimitReply).
Proof.
  intros Hid Hmsg Hs Hcount. unfold ServerJs.chat.
  assert ((length sessionId =? 0)%nat || (length message =? 0)%nat = false) as ->
    by (by destruct sessionId, message).
  rewrite Hs.
  assert ((MAX_MESSAGES_FREE <=? count session)%Z = true) as ->
    by (apply Z.leb_le; exact Hcount).
  reflexivity.
Qed.

(** C5.  When budget, country and duration are set, the goal is not, and
    the text of the turn gives no budget, no country and no duration, the
    whole text becomes the goal.  The text of a turn is the message as the
    handler reads it, [trim message]; the turn then ends with that goal
    in the wizard, unless the comparison it triggers shows results for
    that goal and empties the wizard. *)
Theorem verbatim_goal (session : Session) (message : jsstring) :
  let text := trim message in
  let w := wizard session in
  truthyZ (budget w) = true ->
  truthyS (countryCode w) = true ->
  truthyZ (weeks w) = true ->
  truthyS (goal w) = false ->
  parseBudget text = None ->
  parseCountryCode text = None ->
  parseWeeks text = None ->
  populate w text = mkWizard (budget w) (countryCode w) (weeks w) (Some text)
  /\ ((turn session message).1.(wizard)
      = mkWizard (budget w) (countryCode w) (weeks w) (Some text)
      \/ ((turn session message).1.(wizard) = emptyWizard
          /\ exists b wk c cs,
               (turn session message).2
               = Json OK_TYPE (Results (trim text) b wk c cs))).
Proof.
  intros text w Hb Hc Hw Hg Hdb Hdc Hdw.
  assert (populate w text
          = mkWizard (budget w) (countryCode w) (weeks w) (Some text)) as Hp.
  { apply populate_fallback; try assumption.
    - by rewrite Hdb.
    - by rewrite Hdc.
    - by rewrite Hdw. }
  split; [exact Hp|].
  destruct (turn_wizard session message) as [Hkept|[Hreset Hres]].
  { left. by rewrite Hkept. }
  right. split; [exact Hreset|].
  destruct (budget w) as [b|] eqn:Eb; [|discriminate].
  destruct (countryCode w) as [c|] eqn:Ec; [|discriminate].
  destruct (weeks w) as [wk|] eqn:Ew; [|discriminate].
  assert (b <> 0%Z) as Hb0 by (simpl in Hb; by destruct b).
  assert (wk <> 0%Z) as Hw0 by (simpl in Hw; by destruct wk).
  assert (c <> []) as Hc0 by (by destruct c).
  destruct (decide (text = [])) as [Ht|Ht].
  - exfalso. revert Hreset. unfold ServerJs.turn. cbv zeta.
    fold text. fold w. rewrite Hp, Ht.
    cbn [budget countryCode weeks goal].
    replace (setS (Some [])) with (@None jsstring) by reflexivity.
    repeat case_match; discriminate.
  - rewrite (turn_ready session message b c wk text Hp Hb0 Hc0 Hw0 Ht) in Hreset |- *.
    destruct (comparePrograms _ _ _ _ _) as [programs|]; [|discriminate].
    destruct programs; [discriminate|]. by repeat eexists.
Qed.

(** C7, as the code has it.  In a turn that finds all four slots filled
    once the message has been read: when the comparison returns
    candidates, the reply shows them and all four slots are unset
    afterwards; when it returns none, the reply says so and the wizard is
    the filled one, that is, every slot set before the turn has its value
    and the slots filled by this turn keep what the turn gave them. *)
Theorem ready_resets_or_keeps (session : Session) (message : jsstring)
  (b w : Z) (c g : jsstring) (programs : list Program) :
  populate (wizard session) (trim message)
  = mkWizard (Some b) (Some c) (Some w) (Some g) ->
  b <> 0%Z -> c <> [] -> w <> 0%Z -> g <> [] ->
  comparePrograms readFileSync JSON_parse c (inject_Z b) (inject_Z w) = Ok programs ->
  (programs <> [] ->
     (turn session message).1.(wizard) = mkWizard None None None None
     /\ (turn session message).2
        = Json OK_TYPE (Results (trim g) b w c (cards programs (inject_Z b))))
  /\ (programs = [] ->
       (turn session message).1.(wizard)
       = mkWizard (Some b) (Some c) (Some w) (Some g)
       /\ (turn session message).2 = Json OK_TYPE NoPartners
       /\ keeps (wizard session) (turn session message).1.(wizard)).
Proof.
  intros Hp Hb Hc Hw Hg Hcmp.
  rewrite (turn_ready session message b c w g Hp Hb Hc Hw Hg), Hcmp.
  split.
  - intros Hne. destruct programs; [done|]. by split.
  - intros ->. cbn [length Nat.eqb negb fst snd wizard].
    repeat split; try reflexivity; rewrite <- Hp; apply populate_keeps.
Qed.
End ServerJsFacts.

Lemma quota_blocks_witness :
  ServerJs.chat sample_disk sample_parse sample_responder
    {[ lit "s1" := exhausted ]} (lit "s1") (lit "un anno")
  = ({[ lit "s1" := exhausted ]},
     ServerJs.Json (lit "limit_reached") ServerJs.LimitReply).
Proof.
  apply (quota_blocks sample_disk sample_parse sample_responder
           {[ lit "s1" := exhausted ]} (lit "s1") (lit "un anno") exhausted).
  - discriminate.
  - discriminate.
  - reflexivity.
  - simpl. lia.
Defined.

Lemma verbatim_goal_witness :
  ServerJs.populate (ServerJs.wizard nearly_done)
                    (trim (lit " crescita personale "))
  = ServerJs.mkWizard (Some 9000%Z) (Some (lit "canada")) (Some 24%Z)
                      (Some (lit "crescita personale")).
Proof.
  apply (verbatim_goal sample_disk sample_parse sample_responder
           nearly_done (lit " crescita personale ")); reflexivity.
Defined.

(** C7 as stated fails: here the turn fills the goal, finds all four
    slots set and gets no candidate (there is no file for Canada); the
    goal slot then holds the text of the turn, not the value it had
    before the turn. *)
Lemma ready_keeps_pre_turn_counterexample :
  let after := ServerJs.turn sample_disk sample_parse sample_responder
                             nearly_done (lit "crescita personale") in
  ServerJs.populate (ServerJs.wizard nearly_done) (trim (lit "crescita personale"))
  = ServerJs.mkWizard (Some 9000%Z) (Some (lit "canada")) (Some 24%Z)
                      (Some (lit "crescita personale"))
  /\ comparePrograms sample_disk sample_parse (lit "canada") 9000 24 = Ok []
  /\ after.2 = ServerJs.Json OK_TYPE ServerJs.NoPartners
  /\ ServerJs.goal (ServerJs.wizard nearly_done) = None
  /\ ServerJs.goal (ServerJs.wizard after.1) = Some (lit "crescita personale")
  /\ ServerJs.wizard after.1 <> ServerJs.wizard nearly_done.
Proof. repeat split; try reflexivity. discriminate. Qed.

Lemma ready_resets_or_keeps_witness :
  let after := ServerJs.turn sample_disk sample_parse sample_responder
                             nearly_done (lit "crescita personale") in
  ServerJs.wizard after.1
  = ServerJs.mkWizard (Some 9000%Z) (Some (lit "canada")) (Some 24%Z)
                      (Some (lit "crescita personale"))
  /\ after.2 = ServerJs.Json OK_TYPE ServerJs.NoPartners
  /\ keeps (ServerJs.wizard nearly_done) (ServerJs.wizard after.1).
Proof.
  apply (ready_resets_or_keeps sample_disk sample_parse sample_responder
           nearly_done (lit "crescita personale")
           9000 24 (lit "canada") (lit "crescita personale") []);
    try reflexivity; discriminate.
Defined.

(** With results the wizard is empty again. *)
Example sample_reset :
  ServerJs.wizard
    (ServerJs.turn sample_disk sample_parse sample_responder
       (ServerJs.mkSession 3
          (ServerJs.mkWizard (Some 9000%Z) (Some (lit "us")) (Some 24%Z) None))
       (lit "crescita personale")).1
  = ServerJs.mkWizard None None None None.
Proof. reflexivity. Qed.

(** * The revision with the monetary context (src/unnamed/part_002) *)

Section Part002Facts.
Import Part002.

Lemma populate_keeps002 wizard text : keeps002 wizard (populate wizard text).
Proof.
  unfold keeps002, populate. destruct wizard as [s b c w g]. simpl.
  generalize (parseBudget text) (parseCountryCode text) (parseWeeks text)
    (parseGoal text).
  intros db dc dw dg. split_truthy; repeat split; congruence.
Qed.


Lemma turn_keeps002
  (readFileSync : jsstring -> M jsstring)
  (JSON_parse : jsstring -> M (list Partner))
  (chat_completion : jsstring -> M (option jsstring))
  session message :
  let after := turn readFileSync JSON_parse chat_completion session message in
  keeps002 (wizard session) (wizard after.1)
  \/ (wizard after.1 = emptyWizard
      /\ exists g b w c cs, after.2 = Json OK_TYPE (Results g b w c cs)).
Proof.
  pose proof (populate_keeps002 (wizard session) (trim message)) as Hk.
  unfold Part002.turn. cbv zeta.
  repeat case_match; simpl; try (by left).
  right. split; [reflexivity|]. by repeat eexists.
Qed.





End Part002Facts.



(** The marker test of src/unnamed/part_002 looks for character
    sequences, not for words: "Europa" has "euro" in it, and the 3 of a
    duration becomes the budget, which the comment of the function rules
    out. *)
Remark marker_inside_a_word :
  Part002.hasCurrency (toLowerCase (lit "3 mesi in Europa")) = true
  /\ Part002.parseBudget (lit "3 mesi in Europa") = Some 3%Z
  /\ Part002.budget (Part002.populate Part002.emptyWizard (lit "3 mesi in Europa"))
     = Some 3%Z.
Proof. repeat split; reflexivity. Qed.

(** The example of the handler's own prompt. *)
Example sample_sentence :
  Part002.populate Part002.emptyWizard (lit "Ho 9000 euro per un anno negli USA")
  = Part002.mkWizard false (Some 9000%Z) (Some (lit "us")) (Some 48%Z) None.
Proof. reflexivity. Qed.

(** C6.  First write wins, in both deterministic handlers: after a turn,
    each of budget, country, duration and goal that was set before the turn
    has the value it had, unless the turn showed results and emptied the
    wizard.  A slot is set when its value is truthy, which is how the
    handlers test it. *)
Theorem first_write_wins
  (readFileSync : jsstring -> M jsstring)
  (JSON_parse : jsstring -> M (list Partner))
  (chat_completion : jsstring -> M (option jsstring)) :
  (forall (session : ServerJs.Session) (message : jsstring),
     let before := ServerJs.wizard session in
     let after := ServerJs.turn readFileSync JSON_parse chat_completion
                                session message in
     ((truthyZ (ServerJs.budget before) = true ->
       ServerJs.budget (ServerJs.wizard after.1) = ServerJs.budget before)
      /\ (truthyS (ServerJs.countryCode before) = true ->
          ServerJs.countryCode (ServerJs.wizard after.1) = ServerJs.countryCode before)
      /\ (truthyZ (ServerJs.weeks before) = true ->
          ServerJs.weeks (ServerJs.wizard after.1) = ServerJs.weeks before)
      /\ (truthyS (ServerJs.goal before) = true ->
          ServerJs.goal (ServerJs.wizard after.1) = ServerJs.goal before))
     \/ (ServerJs.wizard after.1 = ServerJs.emptyWizard
         /\ exists g b w c cs,
              after.2 = ServerJs.Json OK_TYPE (ServerJs.Results g b w c cs)))
  /\ (forall (session : Part002.Session) (message : jsstring),
        let before := Part002.wizard session in
        let after := Part002.turn readFileSync JSON_parse chat_completion
                                  session message in
        ((truthyZ (Part002.budget before) = true ->
          Part002.budget (Part002.wizard after.1) = Part002.budget before)
         /\ (truthyS (Part002.countryCode before) = true ->
             Part002.countryCode (Part002.wizard after.1) = Part002.countryCode before)
         /\ (truthyZ (Part002.weeks before) = true ->
             Part002.weeks (Part002.wizard after.1) = Part002.weeks before)
         /\ (truthyS (Part002.goal before) = true ->
             Part002.goal (Part002.wizard after.1) = Part002.goal before))
        \/ (Part002.wizard after.1 = Part002.emptyWizard
            /\ exists g b w c cs,
                 after.2 = Part002.Json OK_TYPE (Part002.Results g b w c cs))).
Proof.
  split; intros session message.
  - apply turn_keeps.
  - apply turn_keeps002.
Qed.

Lemma first_write_wins_witness :
  let after := ServerJs.turn sample_disk sample_parse sample_responder
                             budget_known (lit "anzi 5000 euro in Canada") in
  truthyZ (ServerJs.budget (ServerJs.wizard budget_known)) = true
  /\ ServerJs.parseBudget (lit "anzi 5000 euro in Canada") = Some 5000%Z
  /\ ServerJs.budget (ServerJs.wizard after.1) = Some 9000%Z.
Proof.
  split; [reflexivity|]. split; [reflexivity|].
  destruct (proj1 (first_write_wins sample_disk sample_parse sample_responder)
              budget_known (lit "anzi 5000 euro in Canada"))
    as [Hkeep|[Hreset _]].
  - apply (proj1 Hkeep). reflexivity.
  - vm_compute in Hreset. discriminate Hreset.
Defined.

(** * The delegated controller (src/unnamed/part_003) *)

Section Part003Facts.
Import Part003.
Variable readFileSync : jsstring -> M jsstring.
Variable JSON_parse : jsstring -> M (list Partner).
Variable controller_completion : gmap jsstring json -> jsstring -> M (option jsstring).
Variable JSON_parse_value : jsstring -> M json.

Lemma turn_fallback session message :
  runWizardControllerLLM controller_completion JSON_parse_value
    (wizard session) (trim message)
  = Ok (fallbackControl (wizard session)) ->
  turn readFileSync JSON_parse controller_completion JSON_parse_value
       session message
  = (mkSession (count session + 1) (wizard session),
     Json OK_TYPE (ModelReply (JStr RIPROVIAMO))).
Proof.
  intros H. unfold Part003.turn. cbv zeta. rewrite H.
  unfold merged, fallbackControl, prop.
  rewrite lookup_insert_eq.
  rewrite lookup_insert_ne by done. rewrite lookup_insert_eq.
  rewrite lookup_insert_ne by done. rewrite lookup_insert_ne by done.
  rewrite lookup_insert_eq.
  cbn [truthy spread].
  rewrite (map_union_idemp (wizard session)).
  reflexivity.
Qed.

(** C8, as the code has it.  An answer of the controller model that does
    not parse, or parses to something falsy, to something that is not an
    object, or to an object without a truthy [updatedWizard] or without a
    truthy [action], is discarded whole: the wizard is what it was and the
    reply is the generic re-prompt of [ask_more].  (An answer that passes
    this test is used as it is, whatever its [reply], its [action] and the
    types of its slots.) *)
Theorem invalid_answer_is_discarded (session : Session) (message : jsstring)
  (content : option jsstring) :
  controller_completion (wizard session) (trim message) = Ok content ->
  (exists msg, JSON_parse_value (default (lit "{}") (setS content)) = Throw msg)
  \/ (exists parsed,
        JSON_parse_value (default (lit "{}") (setS content)) = Ok parsed
        /\ (truthy parsed = false
            \/ isObject parsed = false
            \/ truthyO (prop parsed (lit "updatedWizard")) = false
            \/ truthyO (prop parsed (lit "action")) = false)) ->
  runWizardControllerLLM controller_completion JSON_parse_value
    (wizard session) (trim message)
  = Ok (JObj (<[lit "updatedWizard" := JObj (wizard session)]>
             (<[lit "action" := JStr (lit "ask_more")]>
             (<[lit "reply" := JStr RIPROVIAMO]> ∅))))
  /\ turn readFileSync JSON_parse controller_completion JSON_parse_value
          session message
     = (mkSession (count session + 1) (wizard session),
        Json OK_TYPE (ModelReply (JStr RIPROVIAMO))).
Proof.
  intros Hc Hbad.
  assert (runWizardControllerLLM controller_completion JSON_parse_value
            (wizard session) (trim message)
          = Ok (fallbackControl (wizard session))) as Hrun.
  { unfold Part003.runWizardControllerLLM. rewrite Hc. simpl.
    destruct Hbad as [[msg Hthrow]|[parsed [Hparsed Hbad]]].
    { by rewrite Hthrow. }
    rewrite Hparsed.
    change (lit "updatedWizard") with UPDATED_WIZARD in Hbad.
    change (lit "action") with ACTION in Hbad.
    destruct Hbad as [-> | [-> | [-> | ->]]]; simpl;
      rewrite ?orb_true_r; reflexivity. }
  split; [exact Hrun|]. by apply turn_fallback.
Qed.
End Part003Facts.

Lemma invalid_answer_is_discarded_witness :
  Part003.turn sample_disk sample_parse sample_controller sample_parse_value
    (Part003.mkSession 2 {[ lit "budget" := Part003.JNum 9000 ]}) (lit "boh")
  = (Part003.mkSession 3 {[ lit "budget" := Part003.JNum 9000 ]},
     Part003.Json OK_TYPE (Part003.ModelReply (Part003.JStr Part003.RIPROVIAMO))).
Proof.
  refine (proj2 (invalid_answer_is_discarded sample_disk sample_parse
                   sample_controller sample_parse_value
                   (Part003.mkSession 2 {[ lit "budget" := Part003.JNum 9000 ]})
                   (lit "boh") (Some (lit "{")) _ _)).
  - reflexivity.
  - left. eexists. reflexivity.
Defined.

(** C8 as stated fails: this answer has no [reply], yet its budget goes
    into the wizard, and what the user gets is its (missing) reply, not the
    re-prompt. *)
Lemma partial_answer_is_merged_counterexample :
  let before := Part003.mkSession 2 ∅ in
  let after := Part003.turn sample_disk sample_parse sample_controller
                            sample_parse_value before (lit "non saprei") in
  sample_controller (Part003.wizard before) (lit "non saprei")
  = Ok (Some answer_without_reply)
  /\ (exists parsed, sample_parse_value answer_without_reply = Ok parsed
                     /\ Part003.prop parsed (lit "reply") = None)
  /\ Part003.wizard after.1 = {[ lit "budget" := Part003.JNum 7000 ]}
  /\ Part003.wizard after.1 <> Part003.wizard before
  /\ after.2 = Part003.Json OK_TYPE (Part003.ModelReply (Part003.JStr []))
  /\ after.2 <> Part003.Json OK_TYPE
                  (Part003.ModelReply (Part003.JStr Part003.RIPROVIAMO)).
Proof.
  repeat split; try reflexivity.
  - eexists. split; reflexivity.
  - vm_compute. discriminate.
  - discriminate.
Qed.

(** An action outside the contract and a budget that is no number do not
    make the test fail either: the budget is merged, and the reply is the
    handler's last fallback. *)
Remark odd_answer_is_merged :
  Part003.turn sample_disk sample_parse sample_controller sample_parse_value
    (Part003.mkSession 2 ∅) (lit "balliamo")
  = (Part003.mkSession 3 {[ lit "budget" := Part003.JStr (lit "tanto") ]},
     Part003.Json OK_TYPE Part003.NeedMore).
Proof. reflexivity. Qed.

(** * More on the comparison engine *)

Section EngineMore.
Local Open Scope Q_scope.

Lemma matchScore_values t b : matchScore t b ∈ [5; 9#2; 4; 7#2; 3; 5#2].
Proof.
  unfold matchScore. cbv zeta.
  repeat case_match; rewrite !elem_of_cons; auto 10.
Qed.

Lemma matchScore_fits t b : 0 < b -> (matchScore t b = 5 <-> t <= b).
Proof.
  intros Hb. split.
  - intros H. apply Qnot_lt_le. intros Hlt.
    rewrite matchScore_over in H by assumption. simpl in H.
    repeat case_match; discriminate.
  - intros Ht. unfold matchScore.
    assert (Qle_bool (t - b) 0 = true) as ->; [|reflexivity].
    apply Qle_bool_iff. lra.
Qed.

Lemma matchScore_le_5 t b : matchScore t b <= 5.
Proof.
  pose proof (matchScore_values t b) as Hv.
  repeat (apply elem_of_cons in Hv as [-> | Hv]; [discriminate|]).
  by apply elem_of_nil in Hv.
Qed.

Lemma matchScore_steps_down t1 b1 t2 b2 :
  0 < b1 -> 0 < b2 -> b1 < t1 -> b2 < t2 ->
  (t1 - b1) / b1 <= (t2 - b2) / b2 ->
  matchScore t2 b2 <= matchScore t1 b1.
Proof.
  intros Hb1 Hb2 H1 H2 Hr.
  rewrite !matchScore_over by assumption. cbv zeta.
  destruct (Qltb ((t1 - b1) / b1) (1#10)) eqn:A1,
           (Qltb ((t1 - b1) / b1) (2#10)) eqn:A2,
           (Qltb ((t1 - b1) / b1) (3#10)) eqn:A3,
           (Qltb ((t1 - b1) / b1) (5#10)) eqn:A5,
           (Qltb ((t2 - b2) / b2) (1#10)) eqn:B1,
           (Qltb ((t2 - b2) / b2) (2#10)) eqn:B2,
           (Qltb ((t2 - b2) / b2) (3#10)) eqn:B3,
           (Qltb ((t2 - b2) / b2) (5#10)) eqn:B5;
    try discriminate;
    rewrite ?Qltb_true, ?Qltb_false in *; try lra.
Qed.

Lemma matchScore_total_down t1 t2 b :
  0 < b -> t1 <= t2 -> matchScore t2 b <= matchScore t1 b.
Proof.
  intros Hb Ht. destruct (Qlt_le_dec b t1) as [H1|H1].
  - apply matchScore_steps_down; try assumption; [lra|].
    unfold Qdiv. apply Qmult_le_compat_r; [lra|].
    apply Qlt_le_weak. by apply Qinv_lt_0_compat.
  - apply (matchScore_fits t1 b Hb) in H1 as ->. apply matchScore_le_5.
Qed.

Lemma matchScore_budget_up t b1 b2 :
  0 < b1 -> b1 <= b2 -> matchScore t b1 <= matchScore t b2.
Proof.
  intros Hb Hle. assert (0 < b2) as Hb2 by lra.
  destruct (Qlt_le_dec b2 t) as [H2|H2].
  - apply matchScore_steps_down; try assumption; [lra|].
    apply Qle_shift_div_l; [assumption|].
    unfold Qdiv. rewrite <- Qmult_assoc, (Qmult_comm (/ b2)), Qmult_assoc.
    apply Qle_shift_div_r; [assumption|]. nra.
  - apply (matchScore_fits t b2 Hb2) in H2 as ->. apply matchScore_le_5.
Qed.

(** X1.  The score follows the price and the budget: a total that is not
    higher, on a budget that is not lower, never gets a lower score. *)
Theorem matchScore_monotone (t1 t2 b1 b2 : Q) :
  0 < b1 -> b1 <= b2 -> t1 <= t2 ->
  matchScore t2 b1 <= matchScore t1 b2.
Proof.
  intros Hb Hle Ht.
  apply Qle_trans with (matchScore t1 b1).
  - by apply matchScore_total_down.
  - by apply matchScore_budget_up.
Qed.



Lemma card_in_cards programs budget card :
  card ∈ cards programs budget ->
  exists p, p ∈ programs
    /\ shown card = p
    /\ score card = matchScore (total p) budget
    /\ tags card = badgeArray p (matchScore (total p) budget).
Proof.
  unfold cards. intros H.
  apply elem_of_lookup_imap_1 in H as (i & p & -> & Hp).
  exists p. repeat split.
  apply list_elem_of_lookup_2 in Hp. by apply (subseteq_take 3).
Qed.

Lemma BudgetOk_in_badgeArray p s :
  (BudgetOk ∈ badgeArray p s <-> fitsBudget p = true)
  /\ (SopraBudget ∈ badgeArray p s <-> fitsBudget p = false)
  /\ (MatchMoltoAlto ∈ badgeArray p s <-> (9#2) <= s).
Proof.
  unfold badgeArray. cbv zeta. rewrite <- Qle_bool_iff.
  repeat case_match;
    rewrite ?elem_of_app, ?elem_of_cons, ?elem_of_nil; intuition congruence.
Qed.
End EngineMore.

Lemma matchScore_monotone_witness :
  (matchScore 11500 10000 <= matchScore 11000 12000)%Q.
Proof.
  apply (matchScore_monotone 11000 11500 10000 12000);
    [reflexivity | discriminate | discriminate].
Defined.

Section EngineOnDisk.
Local Open Scope Q_scope.
Variable readFileSync : jsstring -> M jsstring.
Variable JSON_parse : jsstring -> M (list Partner).




End EngineOnDisk.

(** X4.  The score line never fails and has a fixed width: for every
    score [matchScore] can give, [stars] returns five stars and [bar] ten
    blocks; no count passed to [repeat] is negative. *)
Theorem stars_and_bar_fit (total budget : Q) :
  exists s r,
    stars (matchScore total budget) = Ok s /\ length s = 5%nat
    /\ bar (matchScore total budget) = Ok r /\ length r = 10%nat.
Proof.
  pose proof (matchScore_values total budget) as Hv.
  repeat (apply elem_of_cons in Hv as [-> | Hv];
          [eexists _, _; repeat split; reflexivity|]).
  by apply elem_of_nil in Hv.
Qed.



(** The twins of the sample directory: the cheaper school first, then
    the two that cost 12500, as the file has them. *)
Example sample_twins :
  (programs ← comparePrograms twin_disk twin_parse (lit "us") 9000 24;
   mret (map partner programs))
  = Ok [toronto; boston; boston_annex].
Proof. reflexivity. Qed.

(** * More on the deterministic controller of src/server.js *)

Lemma fold_digits_nonneg ds acc :
  (0 <= acc)%Z ->
  (0 <= fold_left (fun acc c => (10 * acc + digitVal c)%Z) ds acc)%Z.
Proof.
  revert acc. induction ds as [|c ds IH]; intros acc Hacc; simpl; [exact Hacc|].
  apply IH. unfold digitVal. pose proof (N2Z.is_nonneg (c - 48)). lia.
Qed.

Lemma parseInt_nonneg s v : parseInt s = Some v -> (0 <= v)%Z.
Proof.
  unfold parseInt. destruct (takeWhile isDigit s) as [|d ds]; [discriminate|].
  intros [= <-]. by apply (fold_digits_nonneg (d :: ds)).
Qed.

Lemma parseInt_digit d s : isDigit d = true -> is_Some (parseInt (d :: s)).
Proof. intros Hd. unfold parseInt. simpl. rewrite Hd. by eexists. Qed.

Lemma firstToken_digit s :
  hasDigit s -> exists d tok, firstToken s = Some (d :: tok) /\ isDigit d = true.
Proof.
  unfold firstToken. induction 1 as [c s Hc|c s _ IH]; simpl.
  - rewrite Hc. simpl. by eexists _, _.
  - destruct (isDigit c) eqn:Hc; simpl; [by eexists _, _|exact IH].
Qed.

Lemma hasDigit_toLowerCase s : hasDigit (toLowerCase s) <-> hasDigit s.
Proof.
  unfold hasDigit. induction s as [|c s IH]; [split; inversion 1|].
  change (toLowerCase (c :: s)) with (lowerUnit c :: toLowerCase s).
  by rewrite !Exists_cons, IH, lowerUnit_digit.
Qed.

Lemma parseBudget_digit text :
  hasDigit text -> exists v, ServerJs.parseBudget text = Some v /\ (0 <= v)%Z.
Proof.
  intros H. apply hasDigit_toLowerCase, firstToken_digit in H as (d & tok & Htok & Hd).
  unfold ServerJs.parseBudget. rewrite exec_budgetRegex, Htok. simpl.
  unfold stripNonDigits. simpl. rewrite Hd.
  destruct (parseInt_digit d (List.filter isDigit tok) Hd) as [v Hv].
  exists v. split; [exact Hv|]. by apply parseInt_nonneg in Hv.
Qed.

Lemma parseBudget_nonneg text v : ServerJs.parseBudget text = Some v -> (0 <= v)%Z.
Proof.
  unfold ServerJs.parseBudget. destruct (exec _ _) as [[m0 ?]|]; [|discriminate].
  apply parseInt_nonneg.
Qed.

Lemma parseCountryCode_codes text c :
  ServerJs.parseCountryCode text = Some c -> c = lit "us" \/ c = lit "canada".
Proof.
  unfold ServerJs.parseCountryCode. cbv zeta.
  repeat case_match; intros [= <-]; auto.
Qed.

Lemma parseWeeks_nonneg text n : ServerJs.parseWeeks text = Some n -> (0 <= n)%Z.
Proof.
  unfold ServerJs.parseWeeks. cbv zeta.
  repeat case_match; try discriminate; try (intros [= <-]; lia).
  all: match goal with
       | |- context [parseInt ?m] => destruct (parseInt m) as [num|] eqn:E
       end.
  all: try discriminate.
  all: apply parseInt_nonneg in E; simpl.
  all: intros [= <-]; lia.
Qed.

Lemma truthyZ_pos v n : truthyZ v = true -> v = Some n -> (0 <= n)%Z -> (0 < n)%Z.
Proof.
  intros Ht -> Hn. simpl in Ht. apply negb_true_iff, Z.eqb_neq in Ht. lia.
Qed.

Lemma setZ_Some v n : setZ v = Some n -> v = Some n /\ truthyZ v = true.
Proof. unfold setZ. by destruct (truthyZ v) eqn:E; [intros ->|]. Qed.

Lemma setS_Some v s : setS v = Some s -> v = Some s /\ s <> [].
Proof.
  unfold setS. destruct (truthyS v) eqn:E; [intros ->|done].
  split; [reflexivity|]. by destruct s.
Qed.

Lemma populate_sane wizard text : sane wizard -> sane (ServerJs.populate wizard text).
Proof.
  intros (Hb & Hc & Hw). unfold ServerJs.populate. cbv zeta.
  pose proof (parseBudget_nonneg text) as Pb.
  pose proof (parseCountryCode_codes text) as Pc.
  pose proof (parseWeeks_nonneg text) as Pw.
  destruct wizard as [b c w g].
  cbn [ServerJs.budget ServerJs.countryCode ServerJs.weeks ServerJs.goal] in *.
  repeat case_match;
    cbn [ServerJs.budget ServerJs.countryCode ServerJs.weeks ServerJs.goal];
    repeat split;
    cbn [ServerJs.budget ServerJs.countryCode ServerJs.weeks ServerJs.goal]; auto.
Qed.

Section ServerJsMore.
Import ServerJs.
Variable readFileSync : jsstring -> M jsstring.
Variable JSON_parse : jsstring -> M (list Partner).
Variable chat_completion : jsstring -> M (option jsstring).

(** X6.  What reaches the comparison is sane.  From a wizard that holds
    only what the extractors can give (the empty one does), a turn leaves
    such a wizard; and when results are shown, they are for a positive
    budget, a positive number of weeks and one of the two country codes,
    on one to three cards.  So [matchScore] never divides by zero. *)
Theorem comparison_inputs_are_sane (session : Session) (message : jsstring) :
  sane (wizard session) ->
  sane (wizard (turn readFileSync JSON_parse chat_completion session message).1)
  /\ forall type g b w c cs,
       (turn readFileSync JSON_parse chat_completion session message).2
       = Json type (Results g b w c cs) ->
       (0 < b)%Z /\ (0 < w)%Z /\ (c = lit "us" \/ c = lit "canada")
       /\ (1 <= length cs <= 3)%nat.
Proof.
  intros Hs. apply (populate_sane _ (trim message)) in Hs.
  split.
  - destruct (turn_wizard readFileSync JSON_parse chat_completion session message)
      as [-> | [-> _]]; [exact Hs|].
    repeat split; intros ?; discriminate.
  - destruct Hs as (Hb & Hc & Hw).
    unfold turn. cbv zeta. intros type g b w c cs.
    repeat case_match; cbn [snd]; try discriminate.
    intros [= <- <- <- <- <- <-].
    repeat match goal with
      | H : setZ _ = Some _ |- _ => apply setZ_Some in H as [? ?]
      | H : setS _ = Some _ |- _ => apply setS_Some in H as [? ?]
      end.
    split; [eapply (truthyZ_pos (budget _)); eauto|].
    split; [eapply (truthyZ_pos (weeks _)); eauto|].
    split; [eauto|].
    unfold cards. rewrite length_imap, length_take.
    match goal with H : negb (length ?l =? 0)%nat = true |- _ =>
      apply negb_true_iff, Nat.eqb_neq in H end.
    lia.
Qed.

Lemma comparePrograms_same_file (other_disk : jsstring -> M jsstring) c b w :
  readFileSync (partnersPath c) = other_disk (partnersPath c) ->
  comparePrograms readFileSync JSON_parse c b w
  = comparePrograms other_disk JSON_parse c b w.
Proof. unfold comparePrograms, loadPartners. by intros ->. Qed.

(** X7.  The text of the user never chooses the file that is read: a turn
    on a sane wizard depends on the file system through
    [partners/us.json] and [partners/canada.json] only. *)
Theorem only_partner_files_are_read (session : Session) (message : jsstring)
  (other_disk : jsstring -> M jsstring) :
  sane (wizard session) ->
  readFileSync (partnersPath (lit "us")) = other_disk (partnersPath (lit "us")) ->
  readFileSync (partnersPath (lit "canada")) = other_disk (partnersPath (lit "canada")) ->
  turn readFileSync JSON_parse chat_completion session message
  = turn other_disk JSON_parse chat_completion session message.
Proof.
  intros Hs Hus Hca. apply (populate_sane _ (trim message)) in Hs as (_ & Hc & _).
  unfold turn. cbv zeta.
  destruct (negb _ && negb (isProgramIntent _)); [reflexivity|].
  destruct (setZ (budget _)) as [b|]; [|reflexivity].
  destruct (setS (countryCode _)) as [c|] eqn:Ec; [|reflexivity].
  destruct (setZ (weeks _)) as [w|]; [|reflexivity].
  destruct (setS (goal _)) as [g|]; [|reflexivity].
  apply setS_Some in Ec as [Ec _].
  rewrite (comparePrograms_same_file other_disk c); [reflexivity|].
  by destruct (Hc c Ec) as [-> | ->].
Qed.

(** X9.  In this revision any number starts the wizard: a message with a
    digit in it is never passed to the generic responder (the turn is the
    same whatever the responder is), so it does not get the responder's
    answer. *)
Theorem numbers_start_the_wizard (session : Session) (message : jsstring)
  (other_responder : jsstring -> M (option jsstring)) :
  hasDigit (trim message) ->
  turn readFileSync JSON_parse chat_completion session message
  = turn readFileSync JSON_parse other_responder session message
  /\ (forall type content,
        (turn readFileSync JSON_parse chat_completion session message).2
        <> Json type (GenericAnswer content))
  /\ (forall type,
        (turn readFileSync JSON_parse chat_completion session message).2
        <> Json type GenericProblem).
Proof.
  intros Hd. destruct (parseBudget_digit _ Hd) as (v & Hv & _).
  assert (isProgramIntent (trim message) = true) as Hi.
  { unfold isProgramIntent. cbv zeta. rewrite Hv.
    rewrite !orb_true_iff. right. by apply bool_decide_eq_true. }
  split; [|split].
  - unfold turn. cbv zeta. by rewrite Hi, andb_false_r.
  - intros type content. unfold turn. cbv zeta. rewrite Hi, andb_false_r.
    repeat case_match; discriminate.
  - intros type. unfold turn. cbv zeta. rewrite Hi, andb_false_r.
    repeat case_match; discriminate.
Qed.

(** X10.  The counter counts every turn once, whatever the turn answers
    (a status 500 included), and stops at the quota: a store whose
    counters are between 0 and 20 stays such a store, and the counter of
    the session of the request becomes the smaller of 20 and one more than
    it was. *)
Theorem chat_counts_turns (sessions : gmap jsstring Session)
  (sessionId message : jsstring) :
  sessionId <> [] -> message <> [] ->
  counted sessions ->
  counted (chat readFileSync JSON_parse chat_completion sessions sessionId message).1
  /\ (count <$> (chat readFileSync JSON_parse chat_completion
                   sessions sessionId message).1 !! sessionId)
     = Some (Z.min MAX_MESSAGES_FREE
                   (from_option count 0 (sessions !! sessionId) + 1))%Z.
Proof.
  intros Hid Hmsg Hc. unfold chat.
  assert ((length sessionId =? 0)%nat || (length message =? 0)%nat = false) as ->
    by (by destruct sessionId, message).
  unfold counted, MAX_MESSAGES_FREE in *.
  destruct (sessions !! sessionId) as [s|] eqn:Es; cbn [from_option].
  - pose proof (Hc _ _ Es) as Hs. cbn beta in Hs.
    destruct (Z.leb_spec 20 (count s)).
    + cbn [fst]. split; [exact Hc|]. rewrite Es. simpl. f_equal. lia.
    + pose proof (turn_count readFileSync JSON_parse chat_completion s message) as Ht.
      destruct (turn _ _ _ s message) as [s' r]. cbn [fst] in *.
      split.
      * apply map_Forall_insert_2; [lia|exact Hc].
      * rewrite lookup_insert_eq. simpl. f_equal. lia.
  - cbn [count]. change (20 <=? 0)%Z with false. cbv iota.
    pose proof (turn_count readFileSync JSON_parse chat_completion
                  (mkSession 0 emptyWizard) message) as Ht.
    destruct (turn _ _ _ (mkSession 0 emptyWizard) message) as [s' r].
    cbn [fst count] in *. split.
    + apply map_Forall_insert_2; [lia|].
      apply map_Forall_insert_2; [simpl; lia|exact Hc].
    + rewrite lookup_insert_eq. simpl. f_equal. lia.
Qed.
End ServerJsMore.

Lemma comparison_inputs_are_sane_witness :
  let session := ServerJs.mkSession 3
                   (ServerJs.mkWizard (Some 9000%Z) (Some (lit "us")) (Some 24%Z) None) in
  let after := ServerJs.turn sample_disk sample_parse sample_responder
                             session (lit "crescita personale") in
  sane (ServerJs.wizard after.1)
  /\ forall type g b w c cs,
       after.2 = ServerJs.Json type (ServerJs.Results g b w c cs) ->
       (0 < b)%Z /\ (0 < w)%Z /\ (c = lit "us" \/ c = lit "canada")
       /\ (1 <= length cs <= 3)%nat.
Proof.
  intros session after.
  apply (comparison_inputs_are_sane sample_disk sample_parse sample_responder
           session (lit "crescita personale")).
  repeat split; simpl; intros ? [= <-]; auto; lia.
Defined.

Lemma only_partner_files_are_read_witness :
  ServerJs.turn sample_disk sample_parse sample_responder
    nearly_done (lit "crescita personale")
  = ServerJs.turn larger_disk sample_parse sample_responder
      nearly_done (lit "crescita personale").
Proof.
  apply (only_partner_files_are_read sample_disk sample_parse sample_responder
           nearly_done (lit "crescita personale") larger_disk).
  - repeat split; simpl; intros ? [= <-]; auto; lia.
  - reflexivity.
  - reflexivity.
Defined.

Lemma numbers_start_the_wizard_witness :
  let session := ServerJs.mkSession 0 ServerJs.emptyWizard in
  ServerJs.turn sample_disk sample_parse sample_responder session (lit "3 mesi")
  = ServerJs.turn sample_disk sample_parse failing_responder session (lit "3 mesi").
Proof.
  intros session.
  refine (proj1 (numbers_start_the_wizard sample_disk sample_parse sample_responder
                   session (lit "3 mesi") failing_responder _)).
  apply Exists_cons_hd. reflexivity.
Defined.

Lemma chat_counts_turns_witness :
  let sessions : gmap jsstring ServerJs.Session := {[ lit "s1" := nearly_done ]} in
  let after := ServerJs.chat sample_disk sample_parse failing_responder
                             sessions (lit "s1") (lit "crescita personale") in
  counted after.1
  /\ ServerJs.count <$> after.1 !! lit "s1" = Some 4%Z.
Proof.
  intros sessions after.
  apply (chat_counts_turns sample_disk sample_parse failing_responder
           sessions (lit "s1") (lit "crescita personale")).
  - discriminate.
  - discriminate.
  - apply map_Forall_singleton. simpl. unfold MAX_MESSAGES_FREE. lia.
Defined.

(** * The session store of the three revisions *)

Section Stores.
Variable readFileSync : jsstring -> M jsstring.
Variable JSON_parse : jsstring -> M (list Partner).
Variable chat_completion : jsstring -> M (option jsstring).
Variable controller_completion :
  gmap jsstring Part003.json -> jsstring -> M (option jsstring).
Variable JSON_parse_value : jsstring -> M Part003.json.

(** X11.  A request touches the session it names and no other: in the
    three revisions with a wizard, the entry of every other session id is
    after the request what it was before, whatever the request is. *)
Theorem chat_touches_one_session (sessionId message other : jsstring) :
  other <> sessionId ->
  (forall sessions,
     (ServerJs.chat readFileSync JSON_parse chat_completion
        sessions sessionId message).1 !! other = sessions !! other)
  /\ (forall sessions,
        (Part002.chat readFileSync JSON_parse chat_completion
           sessions sessionId message).1 !! other = sessions !! other)
  /\ (forall sessions,
        (Part003.chat readFileSync JSON_parse controller_completion JSON_parse_value
           sessions sessionId message).1 !! other = sessions !! other).
Proof.
  intros Hne. repeat split; intros sessions.
  - unfold ServerJs.chat.
    repeat case_match; cbn [fst]; simplify_eq; by rewrite ?lookup_insert_ne.
  - unfold Part002.chat.
    repeat case_match; cbn [fst]; simplify_eq; by rewrite ?lookup_insert_ne.
  - unfold Part003.chat.
    repeat case_match; cbn [fst]; simplify_eq; by rewrite ?lookup_insert_ne.
Qed.
End Stores.

Lemma chat_touches_one_session_witness :
  (ServerJs.chat sample_disk sample_parse sample_responder
     {[ lit "s2" := exhausted ]} (lit "s1") (lit "un anno")).1 !! lit "s2"
  = Some exhausted.
Proof.
  pose proof (chat_touches_one_session sample_disk sample_parse sample_responder
                sample_controller sample_parse_value
                (lit "s1") (lit "un anno") (lit "s2")) as H.
  destruct H as (H & _ & _); [discriminate|].
  rewrite H. reflexivity.
Defined.

(** * More on the wizard of src/unnamed/part_002 *)

Lemma includes_nil_r s : includes s [] = true.
Proof. by destruct s. Qed.

Lemma includes_here a m : includes (m ++ a) m = true.
Proof.
  destruct m; simpl; [by destruct a|]. by rewrite N.eqb_refl, startsWith_app.
Qed.

Lemma includes_prefix p s x : includes s x = true -> includes (p ++ s) x = true.
Proof.
  intros H. induction p as [|c p IH]; [exact H|].
  simpl. rewrite IH. apply orb_true_r.
Qed.

Lemma startsWith_suffix s q x :
  startsWith s x = true -> startsWith (s ++ q) x = true.
Proof.
  revert s. induction x as [|c x IH]; intros [|d s]; simpl; try done.
  intros [-> Hx]%andb_true_iff. by rewrite IH.
Qed.

Lemma includes_suffix s q x : includes s x = true -> includes (s ++ q) x = true.
Proof.
  induction s as [|c s IH]; simpl.
  - rewrite orb_false_r. destruct x; [|done]. intros _. apply includes_nil_r.
  - intros [H | H]%orb_true_iff.
    + apply (startsWith_suffix _ q) in H. simpl in H. by rewrite H.
    + rewrite IH by exact H. apply orb_true_r.
Qed.

Lemma includes_array_join sep l x :
  x ∈ l -> includes (array_join sep l) x = true.
Proof.
  induction l as [|y l IH]; [by intros ?%elem_of_nil|].
  intros [Heq | Hx]%elem_of_cons.
  - subst y. destruct l; simpl array_join.
    + rewrite <- (app_nil_r x) at 1. apply includes_here.
    + apply includes_here.
  - destruct l as [|z l]; [by apply elem_of_nil in Hx|].
    change (array_join sep (y :: z :: l))
      with (y ++ sep ++ array_join sep (z :: l)).
    rewrite app_assoc. by apply includes_prefix, IH.
Qed.

(** X12.  Nothing gets lost in the sentence of [naturalJoin]: every part
    of the list is in the text it returns. *)
Theorem naturalJoin_mentions_every_part (l : list jsstring) (x : jsstring) :
  x ∈ l -> includes (naturalJoin l) x = true.
Proof.
  intros Hx. destruct l as [|y [|z l]].
  - by apply elem_of_nil in Hx.
  - apply list_elem_of_singleton in Hx as ->. simpl.
    rewrite <- (app_nil_r y) at 1. apply includes_here.
  - unfold naturalJoin.
    destruct (exists_last (l := y :: z :: l)) as (front & final & E); [done|].
    rewrite E in *. rewrite removelast_last, last_last.
    apply elem_of_app in Hx as [Hx | Hx].
    + apply includes_suffix, includes_array_join, Hx.
    + apply list_elem_of_singleton in Hx as ->.
      rewrite app_assoc. apply includes_prefix.
      rewrite <- (app_nil_r final) at 1. apply includes_here.
Qed.

Section Part002More.
Import Part002.
Variable readFileSync : jsstring -> M jsstring.
Variable JSON_parse : jsstring -> M (list Partner).
Variable chat_completion : jsstring -> M (option jsstring).

(** X13.  The guard of part_002 only rejects: its [parseBudget] returns a
    value exactly when the [parseBudget] of src/server.js returns that
    value and the text has a currency marker or the value is at least
    100.  It never reads another number than the older revision. *)
Theorem guard_only_rejects (text : jsstring) (v : Z) :
  Part002.parseBudget text = Some v
  <-> ServerJs.parseBudget text = Some v
      /\ (hasCurrency (toLowerCase text) = true \/ (100 <= v)%Z).
Proof.
  unfold Part002.parseBudget, ServerJs.parseBudget. cbv zeta.
  destruct (exec budgetRegex (toLowerCase text)) as [[m0 caps]|];
    [|split; [discriminate|by intros [? _]]].
  destruct (parseInt (stripNonDigits m0)) as [value|];
    [|split; [discriminate|by intros [? _]]].
  destruct (hasCurrency (toLowerCase text)); cbn [negb andb].
  - split; [intros [= ->]|intros [[= ->] _]]; auto.
  - destruct (Z.ltb_spec value 100).
    + split; [discriminate|]. intros [[= ->] [? | ?]]; [discriminate|lia].
    + split; [intros [= ->]|intros [[= ->] _]]; auto.
Qed.

(** X14.  In part_002 the goal needs a keyword: while the goal is unset,
    a message in which [parseGoal] finds none of its keywords leaves the
    goal unset and is never answered with results, whatever else it
    says. *)
Theorem goal_needs_a_keyword (session : Session) (message : jsstring) :
  truthyS (goal (wizard session)) = false ->
  parseGoal (trim message) = None ->
  let after := turn readFileSync JSON_parse chat_completion session message in
  goal (wizard after.1) = goal (wizard session)
  /\ forall type g b w c cs, after.2 <> Json type (Results g b w c cs).
Proof.
  intros Hg Hp after. subst after.
  assert (goal (populate (wizard session) (trim message)) = goal (wizard session))
    as Hgoal.
  { unfold populate. cbv zeta. rewrite Hp. cbn [truthyS andb].
    repeat case_match; reflexivity. }
  unfold turn. cbv zeta.
  destruct (negb _ && negb (isProgramIntent _)).
  - destruct (chat_completion _); cbn [fst snd wizard]; (split; [exact Hgoal|]);
      intros; discriminate.
  - cbn [budget countryCode weeks goal]. rewrite Hgoal.
    assert (setS (goal (wizard session)) = None) as ->
      by (unfold setS; by rewrite Hg).
    repeat case_match; cbn [fst snd wizard goal]; (split; [reflexivity|]);
      intros; discriminate.
Qed.
End Part002More.

Lemma naturalJoin_mentions_every_part_witness :
  includes (naturalJoin [lit "destinazione: USA"; lit "durata: circa 24 settimane";
                         lit "budget indicativo: circa 9000"])
           (lit "durata: circa 24 settimane") = true.
Proof.
  apply (naturalJoin_mentions_every_part
           [lit "destinazione: USA"; lit "durata: circa 24 settimane";
            lit "budget indicativo: circa 9000"]
           (lit "durata: circa 24 settimane")).
  apply elem_of_cons. right. apply elem_of_cons. left. reflexivity.
Defined.

Example sample_sentence_of_parts :
  naturalJoin [lit "destinazione: USA"; lit "durata: circa 24 settimane";
               lit "budget indicativo: circa 9000"]
  = lit "destinazione: USA, durata: circa 24 settimane e budget indicativo: circa 9000".
Proof. reflexivity. Qed.

Lemma goal_needs_a_keyword_witness :
  let session := Part002.mkSession 3
                   (Part002.mkWizard true (Some 9000%Z) (Some (lit "us"))
                                     (Some 24%Z) None) in
  let after := Part002.turn sample_disk sample_parse sample_responder
                            session (lit "voglio divertirmi") in
  Part002.goal (Part002.wizard after.1) = None
  /\ forall type g b w c cs,
       after.2 <> Part002.Json type (Part002.Results g b w c cs).
Proof.
  intros session after.
  apply (goal_needs_a_keyword sample_disk sample_parse sample_responder
           session (lit "voglio divertirmi")); reflexivity.
Defined.

(** * More on the delegated controller (src/unnamed/part_003) *)

Section Part003More.
Import Part003.
Variable readFileSync : jsstring -> M jsstring.
Variable JSON_parse : jsstring -> M (list Partner).
Variable controller_completion : gmap jsstring json -> jsstring -> M (option jsstring).
Variable JSON_parse_value : jsstring -> M json.

Lemma compare_wizard count updated llmReply :
  (compare readFileSync JSON_parse count updated llmReply).1
  = mkSession count updated
  \/ ((compare readFileSync JSON_parse count updated llmReply).1
      = mkSession count ∅
      /\ exists r n cs,
           (compare readFileSync JSON_parse count updated llmReply).2
           = Json OK_TYPE (Results r n cs)).
Proof.
  unfold compare. cbv zeta.
  repeat case_match; cbn [fst snd]; try by left.
  all: right; split; [reflexivity|]; by repeat eexists.
Qed.

Lemma turn_merges session message control :
  runWizardControllerLLM controller_completion JSON_parse_value
    (wizard session) (trim message) = Ok control ->
  (turn readFileSync JSON_parse controller_completion JSON_parse_value
     session message).1
  = mkSession (count session + 1) (merged (wizard session) control)
  \/ ((turn readFileSync JSON_parse controller_completion JSON_parse_value
         session message).1 = mkSession (count session + 1) ∅
      /\ exists r n cs,
           (turn readFileSync JSON_parse controller_completion JSON_parse_value
              session message).2 = Json OK_TYPE (Results r n cs)).
Proof.
  intros H. unfold turn. cbv zeta. rewrite H.
  repeat case_match; cbn [fst snd]; try by left.
  all: apply compare_wizard.
Qed.

(** X15.  Under the delegated controller the model's values win: when the
    answer that is used has an object as [updatedWizard], then after the
    turn every key of that object holds the model's value, also where the
    wizard had a value before, and every other key is what it was; unless
    the turn showed results, which empties the wizard. *)
Theorem model_values_override (session : Session) (message : jsstring)
  (control : json) (fields : gmap jsstring json) :
  runWizardControllerLLM controller_completion JSON_parse_value
    (wizard session) (trim message) = Ok control ->
  prop control UPDATED_WIZARD = Some (JObj fields) ->
  let after := turn readFileSync JSON_parse controller_completion JSON_parse_value
                 session message in
  (forall key,
     wizard after.1 !! key
     = match fields !! key with
       | Some value => Some value
       | None => wizard session !! key
       end)
  \/ (wizard after.1 = ∅
      /\ exists r n cs, after.2 = Json OK_TYPE (Results r n cs)).
Proof.
  intros Hrun Hu after. subst after.
  destruct (turn_merges session message control Hrun) as [-> | [-> Hr]];
    [left|right; by split].
  intros key. cbn [wizard]. unfold merged. rewrite Hu. cbn [truthy spread].
  rewrite lookup_union. by destruct (fields !! key), (wizard session !! key).
Qed.

End Part003More.

Lemma model_values_override_witness :
  let before := Part003.mkSession 2 {[ lit "budget" := Part003.JNum 9000 ]} in
  let after := Part003.turn sample_disk sample_parse sample_controller
                            sample_parse_value before (lit "non saprei") in
  Part003.wizard before !! lit "budget" = Some (Part003.JNum 9000)
  /\ Part003.wizard after.1 !! lit "budget" = Some (Part003.JNum 7000).
Proof.
  intros before after. split; [reflexivity|].
  pose proof (model_values_override sample_disk sample_parse sample_controller
                sample_parse_value before (lit "non saprei")
                (Part003.JObj
                   {[ lit "updatedWizard" :=
                        Part003.JObj {[ lit "budget" := Part003.JNum 7000 ]};
                      lit "action" := Part003.JStr (lit "ask_more") ]})
                {[ lit "budget" := Part003.JNum 7000 ]}
                eq_refl eq_refl) as [H | [_ (r & n & cs & H)]].
  - exact (H (lit "budget")).
  - discriminate H.
Defined.

(** * The one-shot comparison (src/server.js, first revision) *)

Section OneShotFacts.
Import OneShot.
Variable readFileSync : jsstring -> M jsstring.
Variable JSON_parse : jsstring -> M (list Partner).
Variable chat_completion : jsstring -> M (option jsstring).

Lemma intent_shape message intent :
  parseIntentForComparison message = Some intent ->
  weeks intent = 24%Z
  /\ (countryCode intent = lit "us" \/ countryCode intent = lit "canada").
Proof.
  unfold parseIntentForComparison. cbv zeta.
  repeat case_match; try discriminate; intros [= <-]; auto.
Qed.

(** X17.  The one-shot revision reads a message as the wizard does: when
    [parseIntentForComparison] finds an intent, its budget is the positive
    number [parseBudget] of the wizard revision reads, its duration is 24
    weeks, and its country is the one [parseCountryCode] reads; but for a
    message that names Canada and says "america" without naming the USA,
    which the one-shot takes for Canada and the wizard for the USA. *)
Theorem one_shot_reads_like_the_wizard (message : jsstring) (intent : Intent) :
  parseIntentForComparison message = Some intent ->
  ServerJs.parseBudget message = Some (budget intent)
  /\ (0 < budget intent)%Z
  /\ weeks intent = 24%Z
  /\ (ServerJs.parseCountryCode message = Some (countryCode intent)
      \/ (includes (toLowerCase message) (lit "america") = true
          /\ countryCode intent = lit "canada"
          /\ ServerJs.parseCountryCode message = Some (lit "us"))).
Proof.
  unfold parseIntentForComparison. cbv zeta.
  fold (ServerJs.parseBudget message).
  pose proof (parseBudget_nonneg message) as Hnn.
  destruct (ServerJs.parseBudget message) as [b|] eqn:Eb; [|discriminate].
  destruct (truthyZ (Some b)) eqn:Tb; [|discriminate].
  assert (0 < b)%Z as Hb by (eapply truthyZ_pos; eauto).
  unfold ServerJs.parseCountryCode. cbv zeta.
  destruct (includes _ (lit "usa") || includes _ (lit "stati uniti")
            || includes _ (lit "stato unito")) eqn:Eus.
  - cbn [orb negb truthyS lit]. intros [= <-]. cbn [budget countryCode weeks].
    repeat split; auto.
  - destruct (includes _ (lit "canada") || includes _ (lit "canad" ++ [A_GRAVE]));
      [|discriminate].
    intros [= <-]. cbn [budget countryCode weeks orb].
    repeat split; auto.
    destruct (includes (toLowerCase message) (lit "america")); auto.
Qed.

(** X18.  The one-shot revision never shows an empty comparison: a reply
    with results has one to three cards, for the country and the budget
    read in the message and 24 weeks.  (An intent without partners goes
    to the generic responder.) *)
Theorem one_shot_shows_cards (sessions : gmap jsstring Z)
  (sessionId message : jsstring) (type : jsstring) (c : jsstring) (cs : list Card) :
  (chat readFileSync JSON_parse chat_completion sessions sessionId message).2
  = Json type (Results c cs) ->
  (1 <= length cs <= 3)%nat
  /\ (c = lit "us" \/ c = lit "canada")
  /\ exists intent programs,
       parseIntentForComparison message = Some intent
       /\ countryCode intent = c
       /\ comparePrograms readFileSync JSON_parse c
            (inject_Z (budget intent)) 24 = Ok programs
       /\ cs = cards programs (inject_Z (budget intent)).
Proof.
  unfold chat. cbv zeta.
  destruct (_ || _); [discriminate|].
  destruct (MAX_MESSAGES_FREE <=? _)%Z; [discriminate|].
  destruct (parseIntentForComparison message) as [[b c' w]|] eqn:Ei;
    [|unfold generic; repeat case_match; discriminate].
  pose proof (intent_shape _ _ Ei) as (Hw & Hc).
  cbn [budget countryCode weeks] in *. subst w.
  destruct (comparePrograms _ _ _ _ _) as [programs|] eqn:Ec; [|discriminate].
  destruct (negb _) eqn:En;
    [|unfold generic; repeat case_match; discriminate].
  cbn [snd]. intros [= <- <- <-].
  apply negb_true_iff, Nat.eqb_neq in En.
  split; [unfold cards; rewrite length_imap, length_take; lia|].
  split; [exact Hc|].
  exists (mkIntent b c' 24), programs. repeat split; [exact Ec].
Qed.
End OneShotFacts.

Lemma one_shot_reads_like_the_wizard_witness :
  ServerJs.parseBudget (lit "Ho 9.000 euro per il Canada") = Some 9000%Z
  /\ ServerJs.parseCountryCode (lit "Ho 9.000 euro per il Canada")
     = Some (lit "canada").
Proof.
  pose proof (one_shot_reads_like_the_wizard (lit "Ho 9.000 euro per il Canada")
                (OneShot.mkIntent 9000 (lit "canada") 24) eq_refl)
    as (Hb & _ & _ & [Hc | (Ha & _)]).
  - split; [exact Hb|exact Hc].
  - discriminate Ha.
Defined.

(** The message on which the two revisions part. *)
Example america_or_canada :
  OneShot.countryCode
    <$> OneShot.parseIntentForComparison (lit "America o Canada con 9000 euro")
  = Some (lit "canada")
  /\ ServerJs.parseCountryCode (lit "America o Canada con 9000 euro")
     = Some (lit "us").
Proof. split; reflexivity. Qed.

Lemma one_shot_shows_cards_witness :
  let reply := (OneShot.chat sample_disk sample_parse sample_responder
                  ∅ (lit "s1") (lit "9000 euro negli USA")).2 in
  exists cs, reply = OneShot.Json OK_TYPE (OneShot.Results (lit "us") cs)
             /\ (1 <= length cs <= 3)%nat.
Proof.
  intros reply.
  exists (cards (array_sort byTotal
                   (map (priced 9000 24) [new_york; boston; san_diego; toronto]))
                9000).
  split; [reflexivity|].
  apply (one_shot_shows_cards sample_disk sample_parse sample_responder
           ∅ (lit "s1") (lit "9000 euro negli USA") OK_TYPE (lit "us")).
  reflexivity.
Defined.

(** * The duration pattern of src/server.js *)

Lemma run_Cat_head r1 r2 s m1 c1 s1 l1 m2 c2 s2 l2 :
  run r1 s = (m1, c1, s1) :: l1 ->
  run r2 s1 = (m2, c2, s2) :: l2 ->
  exists l, run (Cat r1 r2) s = (m1 ++ m2, c1 ++ c2, s2) :: l.
Proof.
  intros H1 H2. cbn [run]. rewrite H1. cbn [flat_map]. rewrite H2. by eexists.
Qed.

Lemma run_Grp_head g r s m c s' l :
  run r s = (m, c, s') :: l ->
  exists l', run (Grp g r) s = (m, (g, m) :: c, s') :: l'.
Proof. intros H. cbn [run]. rewrite H. by eexists. Qed.

Lemma run_Star_head p s :
  exists l, run (Star p) s = (takeWhile p s, [], dropWhile p s) :: l.
Proof.
  cbn [run]. pose proof (head_starC p s) as H.
  destruct (starC p s) as [|[m r] l]; [discriminate|].
  injection H as -> ->. by eexists.
Qed.

Lemma dropWhile_app_stop {A} (p : A -> bool) ds x l :
  Forall (fun c => p c = true) ds -> p x = false ->
  dropWhile p (ds ++ x :: l) = x :: l.
Proof.
  intros H Hx. induction H as [|c ds Hc _ IH]; simpl.
  - by rewrite Hx.
  - by rewrite Hc, IH.
Qed.

Lemma run_Plus_head p d ds x tail :
  p d = true -> Forall (fun c => p c = true) ds -> p x = false ->
  exists l, run (Plus p) (d :: ds ++ x :: tail) = (d :: ds, [], x :: tail) :: l.
Proof.
  intros Hd Hds Hx. unfold Plus.
  destruct (run_Star_head p (ds ++ x :: tail)) as [l Hl].
  rewrite (takeWhile_app_stop _ _ _ _ Hds Hx), (dropWhile_app_stop _ _ _ _ Hds Hx) in Hl.
  eapply (run_Cat_head (Cls p) (Star p) _ [d] [] _ []); [|exact Hl].
  simpl. by rewrite Hd.
Qed.

Lemma exec_skip r pre s :
  Forall (fun c => forall rest, run r (c :: rest) = []) pre ->
  exec r (pre ++ s) = exec r s.
Proof.
  induction 1 as [|c pre Hc _ IH]; [reflexivity|].
  cbn [app exec]. by rewrite Hc.
Qed.

Lemma run_unit unit rest :
  unit ∈ weekUnits ->
  exists l,
    run (Grp 2 (Alt (Str (lit "settimane"))
               (Alt (Cat (Str (lit "sett")) (Opt (Chr 46)))
               (Alt (Str (lit "mesi")) (Str (lit "mese")))))) (unit ++ rest)
    = (unit, [(2%nat, unit)], rest) :: l.
Proof.
  unfold weekUnits. rewrite !elem_of_cons, elem_of_nil.
  intros [-> | [-> | [-> | []]]]; by eexists.
Qed.

Lemma isSpace_not_digit c : isSpace c = true -> isDigit c = false.
Proof.
  unfold isSpace, isDigit. intros H.
  destruct (N.leb_spec 48 c), (N.leb_spec c 57); try reflexivity.
  exfalso. revert H. split_units.
Qed.

Lemma unit_head unit :
  unit ∈ weekUnits ->
  exists u unit', unit = u :: unit' /\ isDigit u = false /\ isSpace u = false.
Proof.
  unfold weekUnits. rewrite !elem_of_cons, elem_of_nil.
  intros [-> | [-> | [-> | []]]]; by eexists _, _.
Qed.

Lemma run_weeksRegex_nondigit c rest :
  isDigit c = false -> run ServerJs.weeksRegex (c :: rest) = [].
Proof. intros H. unfold ServerJs.weeksRegex, Plus. cbn [run]. by rewrite H. Qed.

Lemma exec_weeksRegex pre d ds sp unit rest :
  Forall (fun c => isDigit c = false) pre ->
  isDigit d = true -> Forall (fun c => isDigit c = true) ds ->
  Forall (fun c => isSpace c = true) sp ->
  unit ∈ weekUnits ->
  exec ServerJs.weeksRegex (pre ++ (d :: ds) ++ sp ++ unit ++ rest)
  = Some ((d :: ds) ++ sp ++ unit, [(1%nat, d :: ds); (2%nat, unit)]).
Proof.
  intros Hpre Hd Hds Hsp Hunit.
  rewrite exec_skip
    by (eapply Forall_impl; [exact Hpre|]; intros c Hc rest';
        by apply run_weeksRegex_nondigit).
  destruct (unit_head unit Hunit) as (u & unit' & Eu & Hud & Hus).
  destruct (run_unit unit rest Hunit) as [l3 H3].
  subst unit.
  destruct (run_Star_head isSpace (sp ++ (u :: unit') ++ rest)) as [l2 H2].
  cbn [app] in H2, H3.
  rewrite (takeWhile_app_stop _ _ _ _ Hsp Hus),
    (dropWhile_app_stop _ _ _ _ Hsp Hus) in H2.
  destruct (run_Cat_head _ _ _ _ _ _ _ _ _ _ _ H2 H3) as [l23 H23].
  assert (exists x tail, sp ++ (u :: unit') ++ rest = x :: tail /\ isDigit x = false)
    as (x & tail & Ex & Hx).
  { destruct sp as [|s sp'].
    - by eexists _, _.
    - apply Forall_cons in Hsp as [Hs _]. exists s, (sp' ++ (u :: unit') ++ rest).
      split; [reflexivity|]. by apply isSpace_not_digit. }
  destruct (run_Plus_head isDigit d ds x tail Hd Hds Hx) as [l1 H1].
  rewrite <- Ex in H1.
  destruct (run_Grp_head 1 _ _ _ _ _ _ H1) as [l1' H1'].
  destruct (run_Cat_head _ _ _ _ _ _ _ _ _ _ _ H1' H23) as [l H].
  cbn [app] in *.
  unfold ServerJs.weeksRegex.
  destruct ds; cbn [exec app]; cbn [app] in H; rewrite H; reflexivity.
Qed.

(** X19.  Durations written with a number: when the first number of the
    lower-cased text is followed, after optional white space, by
    "settimane", "mesi" or "mese", and the text has none of the words
    "estate", "semestre" and "anno", then [parseWeeks] returns that number
    for weeks and four times that number for months. *)
Theorem months_are_four_weeks (text pre ds sp unit rest : jsstring) :
  toLowerCase text = pre ++ ds ++ sp ++ unit ++ rest ->
  Forall (fun c => isDigit c = false) pre ->
  ds <> [] -> Forall (fun c => isDigit c = true) ds ->
  Forall (fun c => isSpace c = true) sp ->
  unit ∈ weekUnits ->
  includes (toLowerCase text) (lit "estate") = false ->
  includes (toLowerCase text) (lit "semestre") = false ->
  includes (toLowerCase text) (lit "anno") = false ->
  exists n,
    parseInt ds = Some n
    /\ ServerJs.parseWeeks text
       = Some (if bool_decide (unit = lit "settimane") then n else n * 4)%Z.
Proof.
  intros E Hpre Hne Hds Hsp Hunit H1 H2 H3.
  unfold ServerJs.parseWeeks. cbv zeta. rewrite H1, H2, H3, E.
  destruct ds as [|d ds]; [done|].
  apply Forall_cons in Hds as [Hd Hds].
  rewrite (exec_weeksRegex pre d ds sp unit rest Hpre Hd Hds Hsp Hunit).
  cbn [capture Nat.eqb].
  destruct (parseInt_digit d ds Hd) as [n Hn]. exists n. split; [exact Hn|].
  rewrite Hn. cbn [mbind option_bind].
  unfold weekUnits in Hunit. rewrite !elem_of_cons, elem_of_nil in Hunit.
  destruct Hunit as [-> | [-> | [-> | []]]]; reflexivity.
Qed.

Lemma months_are_four_weeks_witness :
  ServerJs.parseWeeks (lit "Per 3 Mesi a Boston") = Some 12%Z.
Proof.
  destruct (months_are_four_weeks (lit "Per 3 Mesi a Boston")
              (lit "per ") (lit "3") (lit " ") (lit "mesi") (lit " a boston"))
    as (n & Hn & H).
  - reflexivity.
  - repeat constructor.
  - discriminate.
  - repeat constructor.
  - repeat constructor.
  - apply elem_of_cons. right. apply elem_of_cons. left. reflexivity.
  - reflexivity.
  - reflexivity.
  - reflexivity.
  - injection Hn as <-. exact H.
Defined.

(** * More on the extractors of src/unnamed/part_002 *)

Lemma parseBudget_nonneg002 text v : Part002.parseBudget text = Some v -> (0 <= v)%Z.
Proof.
  unfold Part002.parseBudget. cbv zeta.
  destruct (exec _ _) as [[m0 ?]|]; [|discriminate].
  destruct (parseInt _) as [value|] eqn:E; [|discriminate].
  apply parseInt_nonneg in E. case_match; [discriminate|]. by intros [= <-].
Qed.

Lemma parseCountryCode_codes002 text c :
  Part002.parseCountryCode text = Some c -> c = lit "us" \/ c = lit "canada".
Proof.
  unfold Part002.parseCountryCode. cbv zeta.
  repeat case_match; intros [= <-]; auto.
Qed.

Lemma parseWeeks_nonneg002 text n : Part002.parseWeeks text = Some n -> (0 <= n)%Z.
Proof.
  unfold Part002.parseWeeks. cbv zeta.
  repeat case_match; try discriminate; try (intros [= <-]; lia).
  all: match goal with
       | |- context [parseInt ?m] => destruct (parseInt m) as [num|] eqn:E
       end.
  all: try discriminate.
  all: apply parseInt_nonneg in E; simpl.
  all: repeat case_match; intros [= <-]; lia.
Qed.

Lemma populate_sane002 wizard text :
  sane002 wizard -> sane002 (Part002.populate wizard text).
Proof.
  intros (Hb & Hc & Hw). unfold Part002.populate. cbv zeta.
  pose proof (parseBudget_nonneg002 text) as Pb.
  pose proof (parseCountryCode_codes002 text) as Pc.
  pose proof (parseWeeks_nonneg002 text) as Pw.
  destruct wizard as [st b c w g].
  cbn [Part002.budget Part002.countryCode Part002.weeks Part002.goal Part002.started] in *.
  repeat case_match;
    cbn [Part002.budget Part002.countryCode Part002.weeks Part002.goal];
    repeat split;
    cbn [Part002.budget Part002.countryCode Part002.weeks Part002.goal]; auto.
Qed.

Section Part002Sane.
Import Part002.
Variable readFileSync : jsstring -> M jsstring.
Variable JSON_parse : jsstring -> M (list Partner).
Variable chat_completion : jsstring -> M (option jsstring).

(** X20.  The same holds in part_002, where a city can stand for the
    country: from a wizard that holds only what the extractors can give, a
    turn leaves such a wizard; results are for a positive budget, a
    positive number of weeks and the code us or canada, on one to three
    cards; and the turn depends on the file system through the two partner
    files only. *)
Theorem city_names_choose_no_file (session : Session) (message : jsstring) :
  sane002 (wizard session) ->
  let after := turn readFileSync JSON_parse chat_completion session message in
  sane002 (wizard after.1)
  /\ (forall type g b w c cs,
        after.2 = Json type (Results g b w c cs) ->
        (0 < b)%Z /\ (0 < w)%Z /\ (c = lit "us" \/ c = lit "canada")
        /\ (1 <= length cs <= 3)%nat)
  /\ (forall other_disk : jsstring -> M jsstring,
        readFileSync (partnersPath (lit "us")) = other_disk (partnersPath (lit "us")) ->
        readFileSync (partnersPath (lit "canada"))
        = other_disk (partnersPath (lit "canada")) ->
        after = turn other_disk JSON_parse chat_completion session message).
Proof.
  intros Hs after. subst after.
  apply (populate_sane002 _ (trim message)) in Hs.
  destruct Hs as (Hb & Hc & Hw).
  split; [|split].
  - unfold turn. cbv zeta.
    repeat case_match; cbn [fst wizard];
      repeat split; cbn [budget countryCode weeks emptyWizard]; auto;
      intros ?; discriminate.
  - unfold turn. cbv zeta. intros type g b w c cs.
    repeat case_match; cbn [snd]; try discriminate.
    intros [= <- <- <- <- <- <-].
    cbn [budget countryCode weeks goal] in *.
    repeat match goal with
      | H : setZ _ = Some _ |- _ => apply setZ_Some in H as [? ?]
      | H : setS _ = Some _ |- _ => apply setS_Some in H as [? ?]
      end.
    split; [eapply (truthyZ_pos (budget _)); eauto|].
    split; [eapply (truthyZ_pos (weeks _)); eauto|].
    split; [eauto|].
    unfold cards. rewrite length_imap, length_take.
    match goal with H : negb (length ?l =? 0)%nat = true |- _ =>
      apply negb_true_iff, Nat.eqb_neq in H end.
    lia.
  - intros other_disk Hus Hca. unfold turn. cbv zeta.
    destruct (negb _ && negb (isProgramIntent _)); [reflexivity|].
    cbn [budget countryCode weeks goal].
    destruct (setZ (budget _)) as [b|]; [|reflexivity].
    destruct (setS (countryCode _)) as [c|] eqn:Ec; [|reflexivity].
    destruct (setZ (weeks _)) as [w|]; [|reflexivity].
    destruct (setS (goal _)) as [g|]; [|reflexivity].
    apply setS_Some in Ec as [Ec _].
    rewrite (comparePrograms_same_file readFileSync JSON_parse other_disk c);
      [reflexivity|].
    by destruct (Hc c Ec) as [-> | ->].
Qed.
End Part002Sane.

Lemma run_unit002 unit rest :
  unit ∈ weekUnits002 ->
  exists l,
    run (Grp 2 (Alt (Str (lit "settimane"))
               (Alt (Cat (Str (lit "sett")) (Opt (Chr 46)))
               (Alt (Cat (Str (lit "week")) (Opt (Chr 115)))
               (Alt (Str (lit "mesi"))
               (Alt (Str (lit "mese"))
                    (Cat (Str (lit "month")) (Opt (Chr 115))))))))) (unit ++ rest)
    = (unit, [(2%nat, unit)], rest) :: l.
Proof.
  unfold weekUnits002. rewrite !elem_of_cons, elem_of_nil.
  intros [-> | [-> | [-> | [-> | [-> | []]]]]]; by eexists.
Qed.

Lemma unit_head002 unit :
  unit ∈ weekUnits002 ->
  exists u unit', unit = u :: unit' /\ isDigit u = false /\ isSpace u = false.
Proof.
  unfold weekUnits002. rewrite !elem_of_cons, elem_of_nil.
  intros [-> | [-> | [-> | [-> | [-> | []]]]]]; by eexists _, _.
Qed.

Lemma run_weeksRegex_nondigit002 c rest :
  isDigit c = false -> run Part002.weeksRegex (c :: rest) = [].
Proof. intros H. unfold Part002.weeksRegex, Plus. cbn [run]. by rewrite H. Qed.

Lemma exec_weeksRegex002 pre d ds sp unit rest :
  Forall (fun c => isDigit c = false) pre ->
  isDigit d = true -> Forall (fun c => isDigit c = true) ds ->
  Forall (fun c => isSpace c = true) sp ->
  unit ∈ weekUnits002 ->
  exec Part002.weeksRegex (pre ++ (d :: ds) ++ sp ++ unit ++ rest)
  = Some ((d :: ds) ++ sp ++ unit, [(1%nat, d :: ds); (2%nat, unit)]).
Proof.
  intros Hpre Hd Hds Hsp Hunit.
  rewrite exec_skip
    by (eapply Forall_impl; [exact Hpre|]; intros c Hc rest';
        by apply run_weeksRegex_nondigit002).
  destruct (unit_head002 unit Hunit) as (u & unit' & Eu & Hud & Hus).
  destruct (run_unit002 unit rest Hunit) as [l3 H3].
  subst unit.
  destruct (run_Star_head isSpace (sp ++ (u :: unit') ++ rest)) as [l2 H2].
  cbn [app] in H2, H3.
  rewrite (takeWhile_app_stop _ _ _ _ Hsp Hus),
    (dropWhile_app_stop _ _ _ _ Hsp Hus) in H2.
  destruct (run_Cat_head _ _ _ _ _ _ _ _ _ _ _ H2 H3) as [l23 H23].
  assert (exists x tail, sp ++ (u :: unit') ++ rest = x :: tail /\ isDigit x = false)
    as (x & tail & Ex & Hx).
  { destruct sp as [|s sp'].
    - by eexists _, _.
    - apply Forall_cons in Hsp as [Hs _]. exists s, (sp' ++ (u :: unit') ++ rest).
      split; [reflexivity|]. by apply isSpace_not_digit. }
  destruct (run_Plus_head isDigit d ds x tail Hd Hds Hx) as [l1 H1].
  rewrite <- Ex in H1.
  destruct (run_Grp_head 1 _ _ _ _ _ _ H1) as [l1' H1'].
  destruct (run_Cat_head _ _ _ _ _ _ _ _ _ _ _ H1' H23) as [l H].
  cbn [app] in *.
  unfold Part002.weeksRegex.
  destruct ds; cbn [exec app]; cbn [app] in H; rewrite H; reflexivity.
Qed.

(** X21.  Durations with a number in part_002, in Italian and in
    English: when the first number of the lower-cased text is followed,
    after optional white space, by "settimane", "weeks", "mesi", "mese" or
    "months", and the text has none of the six words for summer, semester
    and year, [parseWeeks] returns that number for weeks and four times
    that number for months. *)
Theorem months_in_two_languages (text pre ds sp unit rest : jsstring) :
  toLowerCase text = pre ++ ds ++ sp ++ unit ++ rest ->
  Forall (fun c => isDigit c = false) pre ->
  ds <> [] -> Forall (fun c => isDigit c = true) ds ->
  Forall (fun c => isSpace c = true) sp ->
  unit ∈ weekUnits002 ->
  Forall (fun word => includes (toLowerCase text) word = false)
         [lit "estate"; lit "summer"; lit "semestre"; lit "semester";
          lit "anno"; lit "year"] ->
  exists n,
    parseInt ds = Some n
    /\ Part002.parseWeeks text
       = Some (if bool_decide (unit ∈ [lit "settimane"; lit "weeks"])
               then n else n * 4)%Z.
Proof.
  intros E Hpre Hne Hds Hsp Hunit Hwords.
  repeat (apply Forall_cons in Hwords as [? Hwords]).
  unfold Part002.parseWeeks. cbv zeta.
  repeat match goal with H : includes _ _ = false |- _ => rewrite H; clear H end.
  rewrite E. cbn [orb].
  destruct ds as [|d ds]; [done|].
  apply Forall_cons in Hds as [Hd Hds].
  rewrite (exec_weeksRegex002 pre d ds sp unit rest Hpre Hd Hds Hsp Hunit).
  cbn [capture Nat.eqb].
  destruct (parseInt_digit d ds Hd) as [n Hn]. exists n. split; [exact Hn|].
  rewrite Hn. cbn [mbind option_bind].
  unfold weekUnits002 in Hunit. rewrite !elem_of_cons, elem_of_nil in Hunit.
  destruct Hunit as [-> | [-> | [-> | [-> | [-> | []]]]]]; reflexivity.
Qed.

Lemma city_names_choose_no_file_witness :
  let session := Part002.mkSession 1
                   (Part002.mkWizard true (Some 9000%Z) None (Some 24%Z)
                                     (Some (lit "inglese"))) in
  (Part002.turn sample_disk sample_parse sample_responder session (lit "Boston")).2
  = (Part002.turn larger_disk sample_parse sample_responder session (lit "Boston")).2.
Proof.
  intros session.
  pose proof (city_names_choose_no_file sample_disk sample_parse sample_responder
                session (lit "Boston")) as H.
  destruct H as (_ & _ & H).
  - repeat split; simpl; intros ? [= <-]; auto; lia.
  - rewrite (H larger_disk eq_refl eq_refl). reflexivity.
Defined.

(** A city is enough for the comparison to run. *)
Example sample_city :
  exists cs,
    (Part002.turn sample_disk sample_parse sample_responder
       (Part002.mkSession 1
          (Part002.mkWizard true (Some 9000%Z) None (Some 24%Z)
                            (Some (lit "inglese"))))
       (lit "Boston")).2
    = Part002.Json OK_TYPE
        (Part002.Results (lit "inglese") 9000 24 (lit "us") cs).
Proof. eexists. reflexivity. Qed.

Lemma months_in_two_languages_witness :
  Part002.parseWeeks (lit "For 6 Months in Toronto") = Some 24%Z.
Proof.
  destruct (months_in_two_languages (lit "For 6 Months in Toronto")
              (lit "for ") (lit "6") (lit " ") (lit "months") (lit " in toronto"))
    as (n & Hn & H).
  - reflexivity.
  - repeat constructor.
  - discriminate.
  - repeat constructor.
  - repeat constructor.
  - do 4 (apply elem_of_cons; right). apply elem_of_cons. left. reflexivity.
  - repeat constructor.
  - injection Hn as <-. exact H.
Defined.

(** * Numbers of the format: comparison and difference *)

Section Binary64Facts.
Import Binary64.
Local Open Scope Z_scope.

Lemma digits2_bounds m :
  2 ^ (Zpos (digits2_pos m) - 1) <= Zpos m < 2 ^ Zpos (digits2_pos m).
Proof.
  induction m as [p IH|p IH|]; cbn [digits2_pos].
  - rewrite Pos2Z.inj_succ. unfold Z.succ.
    replace (Zpos (digits2_pos p) + 1 - 1) with (Z.succ (Zpos (digits2_pos p) - 1)) by lia.
    replace (Zpos (digits2_pos p) + 1) with (Z.succ (Zpos (digits2_pos p))) by lia.
    rewrite !Z.pow_succ_r by lia. lia.
  - rewrite Pos2Z.inj_succ. unfold Z.succ.
    replace (Zpos (digits2_pos p) + 1 - 1) with (Z.succ (Zpos (digits2_pos p) - 1)) by lia.
    replace (Zpos (digits2_pos p) + 1) with (Z.succ (Zpos (digits2_pos p))) by lia.
    rewrite !Z.pow_succ_r by lia. lia.
  - simpl. lia.
Qed.

Lemma shl_align_fst m e e' :
  e' <= e -> Zpos (fst (shl_align m e e')) = Zpos m * 2 ^ (e - e').
Proof.
  intros H. unfold shl_align.
  destruct (e' - e) as [|d|d] eqn:E; try lia.
  - replace (e - e') with 0 by lia. simpl. lia.
  - cbn [fst]. change (Pos.iter xO m d) with (shift_pos d m).
    rewrite shift_pos_correct, Z.pow_pos_fold.
    replace (e - e') with (Zpos d) by lia. lia.
Qed.

Lemma shl_align_snd m e e' : snd (shl_align m e e') = Z.min e e'.
Proof.
  unfold shl_align. destruct (e' - e) as [|d|d] eqn:E; cbn [snd]; lia.
Qed.

Lemma canonical_facts m e :
  canonical_mantissa prec emax m e = true ->
  -1074 <= e /\ Zpos (digits2_pos m) <= 53
  /\ (-1074 < e -> Zpos (digits2_pos m) = 53).
Proof.
  unfold canonical_mantissa, fexp, SpecFloat.emin, prec, emax.
  intros H. apply Z.eqb_eq in H. lia.
Qed.

Lemma canonical_lt m1 e1 m2 e2 :
  canonical_mantissa prec emax m1 e1 = true ->
  canonical_mantissa prec emax m2 e2 = true ->
  e1 < e2 -> Zpos m1 < Zpos m2 * 2 ^ (e2 - e1).
Proof.
  intros (L1 & D1 & _)%canonical_facts (L2 & _ & D2)%canonical_facts He.
  specialize (D2 ltac:(lia)).
  pose proof (digits2_bounds m1) as [_ B1].
  pose proof (digits2_bounds m2) as [B2 _]. rewrite D2 in B2.
  assert (Zpos m1 < 2 ^ 53).
  { eapply Z.lt_le_trans; [exact B1|]. apply Z.pow_le_mono_r; lia. }
  assert (2 ^ 1 <= 2 ^ (e2 - e1)) by (apply Z.pow_le_mono_r; lia).
  change (2 ^ 1) with 2 in *. change (53 - 1) with 52 in *.
  change (2 ^ 53) with (2 ^ 52 * 2) in *. nia.
Qed.

Lemma aligned_pos m e ez : 0 < Zpos m * 2 ^ (e - ez) \/ e < ez.
Proof.
  destruct (Z.lt_ge_cases e ez); [by right|left].
  assert (0 < 2 ^ (e - ez)) by (apply Z.pow_pos_nonneg; lia). nia.
Qed.

(** Comparing two numbers in canonical form is comparing the integers
    they denote at their smaller exponent. *)
Lemma SFcompare_aligned sx mx ex sy my ey :
  canonical_mantissa prec emax mx ex = true ->
  canonical_mantissa prec emax my ey = true ->
  SFcompare (S754_finite sx mx ex) (S754_finite sy my ey)
  = Some (aligned sx mx ex (Z.min ex ey) ?= aligned sy my ey (Z.min ex ey)).
Proof.
  intros Cx Cy. unfold aligned. cbn [SFcompare]. f_equal.
  assert ((ex ?= ey) = Lt ->
          Zpos mx * 2 ^ (ex - Z.min ex ey) < Zpos my * 2 ^ (ey - Z.min ex ey)) as HLt.
  { intros H. change (ex < ey) in H. rewrite Z.min_l by lia.
    replace (ex - ex) with 0 by lia. rewrite Z.pow_0_r, Z.mul_1_r.
    apply canonical_lt; [done|done|lia]. }
  assert ((ex ?= ey) = Gt ->
          Zpos my * 2 ^ (ey - Z.min ex ey) < Zpos mx * 2 ^ (ex - Z.min ex ey)) as HGt.
  { intros H. change (ex > ey) in H. rewrite Z.min_r by lia.
    replace (ey - ey) with 0 by lia. rewrite Z.pow_0_r, Z.mul_1_r.
    apply canonical_lt; [done|done|lia]. }
  assert ((ex ?= ey) = Eq ->
          Zpos mx * 2 ^ (ex - Z.min ex ey) = Zpos mx
          /\ Zpos my * 2 ^ (ey - Z.min ex ey) = Zpos my) as HEq.
  { intros H. apply Z.compare_eq_iff in H. subst ey. rewrite Z.min_id.
    replace (ex - ex) with 0 by lia. rewrite Z.pow_0_r. lia. }
  destruct (aligned_pos mx ex (Z.min ex ey)) as [Px|]; [|lia].
  destruct (aligned_pos my ey (Z.min ex ey)) as [Py|]; [|lia].
  rewrite Pos.compare_cont_spec. cbn [Pos.switch_Eq].
  destruct sx, sy; cbn [cond_Zopp].
  - destruct (ex ?= ey) eqn:E.
    + destruct (HEq eq_refl) as [-> ->].
      rewrite Z.compare_opp. change (Zpos my ?= Zpos mx) with (my ?= mx)%positive.
      rewrite (Pos.compare_antisym mx my). by destruct (mx ?= my)%positive.
    + specialize (HLt eq_refl). symmetry. apply Z.compare_gt_iff. lia.
    + specialize (HGt eq_refl). symmetry. apply Z.compare_lt_iff. lia.
  - symmetry. apply Z.compare_lt_iff. lia.
  - symmetry. apply Z.compare_gt_iff. lia.
  - destruct (ex ?= ey) eqn:E.
    + destruct (HEq eq_refl) as [-> ->].
      change (Zpos mx ?= Zpos my) with (mx ?= my)%positive.
      by destruct (mx ?= my)%positive.
    + specialize (HLt eq_refl). symmetry. by apply Z.compare_lt_iff.
    + specialize (HGt eq_refl). symmetry. by apply Z.compare_gt_iff.
Qed.

Lemma shr_1_m mrs :
  0 <= shr_m mrs -> shr_m (shr_1 mrs) = shr_m mrs / 2.
Proof.
  destruct mrs as [m r s]. cbn [shr_m]. intros Hm.
  rewrite <- Z.div2_div. destruct m as [|[p|p|]|p]; try reflexivity; lia.
Qed.

Lemma pow_xI n : 2 ^ Zpos n~1 = 2 * (2 ^ Zpos n * 2 ^ Zpos n).
Proof.
  rewrite (Pos2Z.inj_xI n). rewrite Z.pow_add_r by lia. rewrite Z.pow_twice_r.
  change (2 ^ 1) with 2. lia.
Qed.

Lemma pow_xO n : 2 ^ Zpos n~0 = 2 ^ Zpos n * 2 ^ Zpos n.
Proof. rewrite (Pos2Z.inj_xO n). by rewrite Z.pow_twice_r. Qed.

Lemma iter_shr_1 n mrs :
  0 <= shr_m mrs ->
  shr_m (SpecFloat.iter_pos shr_1 n mrs) = shr_m mrs / 2 ^ Zpos n.
Proof.
  revert mrs. induction n as [n IH|n IH|]; intros mrs Hm; cbn [SpecFloat.iter_pos].
  - assert (0 <= shr_m (shr_1 mrs)) as H1
      by (rewrite shr_1_m by done; apply Z.div_pos; lia).
    assert (0 < 2 ^ Zpos n) as Hp by (apply Z.pow_pos_nonneg; lia).
    assert (0 <= shr_m (SpecFloat.iter_pos shr_1 n (shr_1 mrs))) as H2
      by (rewrite IH by done; apply Z.div_pos; lia).
    rewrite IH, IH, shr_1_m by done.
    rewrite !Z.div_div by lia.
    f_equal. rewrite pow_xI. lia.
  - assert (0 < 2 ^ Zpos n) as Hp by (apply Z.pow_pos_nonneg; lia).
    assert (0 <= shr_m (SpecFloat.iter_pos shr_1 n mrs)) as H2
      by (rewrite IH by done; apply Z.div_pos; lia).
    rewrite IH, IH by done.
    rewrite !Z.div_div by lia.
    f_equal. rewrite pow_xO. lia.
  - by apply shr_1_m.
Qed.

Lemma shr_record_of_loc_m m l : shr_m (shr_record_of_loc m l) = m.
Proof. by destruct l as [|[]]. Qed.

Lemma shr_fexp_pos m e l :
  -1074 <= e ->
  0 < shr_m (fst (shr_fexp prec emax (Zpos m) e l))
  /\ -1074 <= snd (shr_fexp prec emax (Zpos m) e l).
Proof.
  intros He. unfold shr_fexp, shr. cbn [Zdigits2].
  pose proof (digits2_bounds m) as [B _].
  set (d := Zpos (digits2_pos m)) in *.
  destruct (fexp prec emax (d + e) - e) as [|n|n] eqn:E; cbn [fst snd].
  - rewrite shr_record_of_loc_m. lia.
  - rewrite iter_shr_1 by (rewrite shr_record_of_loc_m; lia).
    rewrite shr_record_of_loc_m. split; [|lia].
    apply Z.div_str_pos. split; [apply Z.pow_pos_nonneg; lia|].
    eapply Z.le_trans; [|exact B].
    apply Z.pow_le_mono_r; [lia|].
    unfold fexp, SpecFloat.emin, prec, emax in E. subst d. lia.
  - rewrite shr_record_of_loc_m. lia.
Qed.

Lemma round_nearest_even_le m l : m <= round_nearest_even m l.
Proof.
  unfold round_nearest_even. destruct l as [|[]]; try lia.
  destruct (Z.even m); lia.
Qed.

(** Rounding a positive integer at an exponent in range gives a finite
    number or an infinity of the same sign: never a zero, never NaN. *)
Lemma binary_round_aux_signed s m e l :
  -1074 <= e -> signed s (binary_round_aux prec emax s (Zpos m) e l).
Proof.
  intros He. unfold binary_round_aux.
  pose proof (shr_fexp_pos m e l He) as [P1 E1].
  destruct (shr_fexp prec emax (Zpos m) e l) as [mrs' e']. cbn [fst snd] in *.
  pose proof (round_nearest_even_le (shr_m mrs') (loc_of_shr_record mrs')) as Hr.
  destruct (round_nearest_even (shr_m mrs') (loc_of_shr_record mrs'))
    as [|m'|m'] eqn:Er; try lia.
  pose proof (shr_fexp_pos m' e' loc_Exact E1) as [P2 _].
  destruct (shr_fexp prec emax (Zpos m') e' loc_Exact) as [mrs'' e''].
  cbn [fst] in P2.
  destruct (shr_m mrs'') as [|m''|m'']; try lia.
  by destruct (e'' <=? emax - prec).
Qed.

Lemma binary_round_signed s m e :
  -1074 <= e -> signed s (binary_round prec emax s m e).
Proof.
  intros He. unfold binary_round.
  pose proof (shl_align_snd m e (fexp prec emax (Zpos (digits2_pos m) + e))) as Hs.
  destruct (shl_align m e _) as [mz ez]. cbn [snd] in Hs.
  apply binary_round_aux_signed.
  unfold fexp, SpecFloat.emin, prec, emax in Hs. lia.
Qed.

Lemma leb_zero_normalize c e :
  -1074 <= e ->
  SFleb (binary_normalize prec emax c e false) zero = (c <=? 0).
Proof.
  intros He. unfold binary_normalize. destruct c as [|p|p].
  - reflexivity.
  - pose proof (binary_round_signed false p e He) as H.
    destruct (binary_round prec emax false p e) as [s|s| |s m' e'];
      simpl in H; try done; subst s; reflexivity.
  - pose proof (binary_round_signed true p e He) as H.
    destruct (binary_round prec emax true p e) as [s|s| |s m' e'];
      simpl in H; try done; subst s; reflexivity.
Qed.

Lemma leb_compare x y c :
  SFcompare x y = Some c -> SFleb x y = match c with Gt => false | _ => true end.
Proof. unfold SFleb. intros ->. by destruct c. Qed.

(** The rounded difference of two finite numbers is at most zero exactly
    when the first is at most the second: rounding keeps the sign. *)
Lemma sub_nonpos x y :
  valid x = true -> valid y = true ->
  finite x = true -> finite y = true ->
  SFleb (sub x y) zero = SFleb x y.
Proof.
  intros Vx Vy Fx Fy.
  destruct x as [sx| | |sx mx ex], y as [sy| | |sy my ey]; try discriminate.
  - by destruct sx, sy.
  - by destruct sx, sy.
  - by destruct sx, sy.
  - unfold valid, valid_binary, bounded in Vx, Vy.
    apply andb_true_iff in Vx as [Cx _], Vy as [Cy _].
    rewrite (leb_compare _ _ _ (SFcompare_aligned sx mx ex sy my ey Cx Cy)).
    unfold sub, SFsub.
    pose proof (canonical_facts _ _ Cx) as (Lx & _).
    pose proof (canonical_facts _ _ Cy) as (Ly & _).
    rewrite leb_zero_normalize by lia.
    rewrite !shl_align_fst by lia.
    fold (aligned sx mx ex (Z.min ex ey)). fold (aligned sy my ey (Z.min ex ey)).
    destruct (Z.compare_spec (aligned sx mx ex (Z.min ex ey))
                (aligned sy my ey (Z.min ex ey))); lia.
Qed.

Ltac compare_cases :=
  repeat match goal with
    | H : context [Pos.compare_cont Eq ?a ?b] |- _ =>
        rewrite (Pos.compare_cont_spec a b Eq) in H; cbn [Pos.switch_Eq] in H
    | |- context [Pos.compare_cont Eq ?a ?b] =>
        rewrite (Pos.compare_cont_spec a b Eq); cbn [Pos.switch_Eq]
    end;
  repeat match goal with
    | H : context [Z.compare ?a ?b] |- _ =>
        destruct (Z.compare_spec a b); try discriminate H
    | |- context [Z.compare ?a ?b] => destruct (Z.compare_spec a b)
    | H : context [Pos.compare ?a ?b] |- _ =>
        destruct (Pos.compare_spec a b); try discriminate H
    | |- context [Pos.compare ?a ?b] => destruct (Pos.compare_spec a b)
    end;
  simpl in *; try reflexivity; try discriminate; try lia.

Lemma SFltb_trans x y z :
  SFltb x y = true -> SFltb y z = true -> SFltb x z = true.
Proof.
  unfold SFltb.
  destruct x as [sx|sx| |sx mx ex], y as [sy|sy| |sy my ey],
           z as [sz|sz| |sz mz ez]; cbn [SFcompare]; try discriminate;
    destruct sx; try discriminate; destruct sy; try discriminate;
    destruct sz; try discriminate; try reflexivity; intros H1 H2;
    compare_cases.
Qed.

Lemma SFleb_not_ltb x y : SFleb x y = true -> SFltb y x = false.
Proof.
  unfold SFltb, SFleb.
  destruct x as [sx|sx| |sx mx ex], y as [sy|sy| |sy my ey];
    cbn [SFcompare]; try discriminate; try reflexivity;
    try destruct sx; try destruct sy; try discriminate; try reflexivity;
    intros H1; compare_cases.
Qed.

(** Below a bound, below every larger bound; at or above a bound, not
    below a smaller one. *)
Lemma not_below_smaller r lo hi :
  SFltb lo hi = true -> SFleb hi r = true -> SFltb r lo = false.
Proof.
  intros Hlt Hle. destruct (SFltb r lo) eqn:E; [|reflexivity].
  pose proof (SFltb_trans _ _ _ E Hlt) as H.
  by rewrite (SFleb_not_ltb _ _ Hle) in H.
Qed.

(** The score is 5 exactly when the first branch of [matchScore] is
    taken. *)
Lemma matchScore_top total budget :
  matchScore total budget = decimal 50 10
  <-> SFleb (sub total budget) zero = true.
Proof.
  unfold matchScore. change (of_Z 0) with zero. cbv zeta.
  destruct (SFleb (sub total budget) zero); [done|].
  split; [|done].
  repeat match goal with
         | |- context [if ?c then _ else _] => destruct c
         end; intros H; vm_compute in H; discriminate H.
Qed.

Lemma matchScore_fits64 total budget :
  valid total = true -> valid budget = true ->
  finite total = true -> finite budget = true ->
  matchScore total budget = decimal 50 10 <-> SFleb total budget = true.
Proof.
  intros Vt Vb Ft Fb. by rewrite matchScore_top, sub_nonpos.
Qed.

End Binary64Facts.

(** * The score as the code computes it *)

Section ScoreFacts.
Import Binary64.

(** C1.  For finite numbers [t] and [b] of the format: [fitsBudget] is
    [t <= b]; the score is 5.0 when [t <= b]; otherwise, with [r] the
    number the code computes for the ratio (the rounded quotient of the
    rounded difference by [b]), the score is 4.5 when [r < 0.1], 4.0 when
    [0.1 <= r < 0.2], 3.5 when [0.2 <= r < 0.3], 3.0 when
    [0.3 <= r < 0.5] and 2.5 when [r < 0.5] does not hold, the bounds
    being the numbers the decimal literals denote; 10000 on 10000 fits
    and scores 5.0, 11500 on 10000 scores 4.0. *)
Theorem matchScore_steps (t b : spec_float) :
  valid t = true -> valid b = true -> finite t = true -> finite b = true ->
  let r := div (sub t b) b in
  (forall weeks p,
     fitsBudget (priced b weeks p) = SFleb (total (priced b weeks p)) b)
  /\ (SFleb t b = true -> matchScore t b = decimal 50 10)
  /\ (SFleb t b = false ->
      (SFltb r (decimal 1 10) = true -> matchScore t b = decimal 45 10)
      /\ (SFleb (decimal 1 10) r = true -> SFltb r (decimal 2 10) = true ->
          matchScore t b = decimal 40 10)
      /\ (SFleb (decimal 2 10) r = true -> SFltb r (decimal 3 10) = true ->
          matchScore t b = decimal 35 10)
      /\ (SFleb (decimal 3 10) r = true -> SFltb r (decimal 5 10) = true ->
          matchScore t b = decimal 30 10)
      /\ (SFltb r (decimal 5 10) = false -> matchScore t b = decimal 25 10))
  /\ SFleb (of_Z 10000) (of_Z 10000) = true
  /\ matchScore (of_Z 10000) (of_Z 10000) = decimal 50 10
  /\ matchScore (of_Z 11500) (of_Z 10000) = decimal 40 10.
Proof.
  intros Vt Vb Ft Fb r.
  assert (SFltb (decimal 1 10) (decimal 2 10) = true) as H12 by reflexivity.
  assert (SFltb (decimal 2 10) (decimal 3 10) = true) as H23 by reflexivity.
  assert (SFltb (decimal 3 10) (decimal 5 10) = true) as H35 by reflexivity.
  pose proof (SFltb_trans _ _ _ H12 H23) as H13.
  pose proof (SFltb_trans _ _ _ H23 H35) as H25.
  pose proof (SFltb_trans _ _ _ H12 H25) as H15.
  split; [reflexivity|].
  split; [by intros H; apply matchScore_fits64|].
  split; [|by repeat split].
  intros Hgt.
  assert (forall score other : spec_float,
            (if SFleb (sub t b) (of_Z 0) then other else score) = score) as Hdiff.
  { intros score other. change (of_Z 0) with zero.
    by rewrite sub_nonpos, Hgt. }
  unfold matchScore. cbv zeta. rewrite Hdiff. fold r.
  repeat split.
  - by intros ->.
  - intros Hlo Hhi. by rewrite (SFleb_not_ltb _ _ Hlo), Hhi.
  - intros Hlo Hhi.
    by rewrite (not_below_smaller r _ _ H12 Hlo), (SFleb_not_ltb _ _ Hlo), Hhi.
  - intros Hlo Hhi.
    by rewrite (not_below_smaller r _ _ H13 Hlo), (not_below_smaller r _ _ H23 Hlo),
         (SFleb_not_ltb _ _ Hlo), Hhi.
  - intros Hhi.
    assert (forall lo, SFltb lo (decimal 5 10) = true -> SFltb r lo = false) as Hlow.
    { intros lo Hlt. destruct (SFltb r lo) eqn:E; [|reflexivity].
      by rewrite (SFltb_trans _ _ _ E Hlt) in Hhi. }
    by rewrite (Hlow _ H15), (Hlow _ H25), (Hlow _ H35), Hhi.
Qed.

(** C1 as stated fails on the code.  Both integers are numbers of the
    format; their ratio [(t - b) / b] lies between 0.20 and 0.30, the
    step the claim scores 3.5, and the code scores 3.0: the quotient it
    computes is the number the literal [0.3] denotes.  And a budget and a
    total that are both [Infinity] (what [parseInt] gives for 309 digits
    or more) are within budget and score 2.5, not 5.0. *)
Lemma matchScore_steps_counterexample :
  let t := 6500000000000009%Z in
  let b := 5000000000000007%Z in
  (0 < b)%Z
  /\ of_Z t = S754_finite false 6500000000000009 0
  /\ of_Z b = S754_finite false 5000000000000007 0
  /\ (2 # 10 <= inject_Z (t - b) / inject_Z b)%Q
  /\ (inject_Z (t - b) / inject_Z b < 3 # 10)%Q
  /\ div (sub (of_Z t) (of_Z b)) (of_Z b) = decimal 3 10
  /\ matchScore (of_Z t) (of_Z b) = decimal 30 10
  /\ decimal 30 10 <> decimal 35 10
  /\ SFltb zero Infinity = true
  /\ SFleb Infinity Infinity = true
  /\ matchScore Infinity Infinity = decimal 25 10
  /\ decimal 25 10 <> decimal 50 10.
Proof.
  cbv zeta. repeat split; try reflexivity; try (vm_compute; discriminate).
Qed.

Lemma matchScore_steps_witness :
  let t := of_Z 11500 in
  let b := of_Z 10000 in
  let r := div (sub t b) b in
  (forall weeks p,
     fitsBudget (priced b weeks p) = SFleb (total (priced b weeks p)) b)
  /\ (SFleb t b = true -> matchScore t b = decimal 50 10)
  /\ (SFleb t b = false ->
      (SFltb r (decimal 1 10) = true -> matchScore t b = decimal 45 10)
      /\ (SFleb (decimal 1 10) r = true -> SFltb r (decimal 2 10) = true ->
          matchScore t b = decimal 40 10)
      /\ (SFleb (decimal 2 10) r = true -> SFltb r (decimal 3 10) = true ->
          matchScore t b = decimal 35 10)
      /\ (SFleb (decimal 3 10) r = true -> SFltb r (decimal 5 10) = true ->
          matchScore t b = decimal 30 10)
      /\ (SFltb r (decimal 5 10) = false -> matchScore t b = decimal 25 10))
  /\ SFleb (of_Z 10000) (of_Z 10000) = true
  /\ matchScore (of_Z 10000) (of_Z 10000) = decimal 50 10
  /\ matchScore (of_Z 11500) (of_Z 10000) = decimal 40 10.
Proof.
  apply (matchScore_steps (of_Z 11500) (of_Z 10000)); reflexivity.
Defined.

(** The ratio of the sample is in the second step. *)
Example sample_ratio :
  let r := div (sub (of_Z 11500) (of_Z 10000)) (of_Z 10000) in
  SFleb (of_Z 11500) (of_Z 10000) = false
  /\ SFleb (decimal 1 10) r = true /\ SFltb r (decimal 2 10) = true.
Proof. repeat split; reflexivity. Qed.

Lemma BudgetOk_in_badgeArray64 (p : Program) (score : spec_float) :
  (BudgetOk ∈ badgeArray p score <-> fitsBudget p = true)
  /\ (SopraBudget ∈ badgeArray p score <-> fitsBudget p = false)
  /\ (MatchMoltoAlto ∈ badgeArray p score <-> SFleb (decimal 45 10) score = true).
Proof.
  unfold badgeArray. cbv zeta.
  destruct (fitsBudget p), (_ || _), (_ || _ || _), (includes _ (lit "toronto")),
    (SFleb (decimal 45 10) score), (SFleb (decimal 40 10) score),
    (SFleb (decimal 35 10) score); cbn [app];
    repeat split; intros H; try done;
    repeat (apply elem_of_cons in H as [H|H]; try discriminate H);
    try (by apply elem_of_nil in H);
    repeat (first [by apply list_elem_of_here | apply list_elem_of_further]).
Qed.

(** X3.  On a card whose total and budget are finite numbers, the budget
    tag and the score say the same thing: "Budget ok" is there exactly
    when the total is within the budget, which is exactly when the score
    is 5.0; it then comes with "Match molto alto"; and "Sopra budget" is
    there exactly when "Budget ok" is not.  Not so when total and budget
    are both [Infinity]: the card then has "Budget ok" with the score
    2.5. *)
Theorem budget_tag_means_top_score (budget weeks : spec_float) (q : Partner) :
  let p := priced budget weeks q in
  let tags := badgeArray p (matchScore (total p) budget) in
  (valid (total p) = true -> valid budget = true ->
   finite (total p) = true -> finite budget = true ->
   (BudgetOk ∈ tags <-> SFleb (total p) budget = true)
   /\ (BudgetOk ∈ tags <-> matchScore (total p) budget = decimal 50 10)
   /\ (BudgetOk ∈ tags -> MatchMoltoAlto ∈ tags)
   /\ (SopraBudget ∈ tags <-> ~ BudgetOk ∈ tags))
  /\ (total p = Infinity -> budget = Infinity ->
      BudgetOk ∈ tags /\ matchScore (total p) budget = decimal 25 10).
Proof.
  intros p tags. subst tags.
  destruct (BudgetOk_in_badgeArray64 p (matchScore (total p) budget))
    as (Hok & Hsopra & Htop).
  split.
  - intros Vt Vb Ft Fb.
    pose proof (matchScore_fits64 _ _ Vt Vb Ft Fb) as Hfit.
    rewrite Hok, Hsopra, Htop, Hfit.
    change (fitsBudget p) with (SFleb (total p) budget).
    repeat split; try done.
    + intros H. apply Hfit in H as ->. reflexivity.
    + intros ->. discriminate.
    + by destruct (SFleb (total p) budget).
  - intros Ht Hb. rewrite Hok.
    change (fitsBudget p) with (SFleb (total p) budget).
    rewrite Ht, Hb. split; reflexivity.
Qed.

Lemma budget_tag_means_top_score_witness :
  let p := priced (of_Z 9000) (of_Z 24) toronto64 in
  let tags := badgeArray p (matchScore (total p) (of_Z 9000)) in
  total p = of_Z 8800
  /\ (BudgetOk ∈ tags <-> SFleb (total p) (of_Z 9000) = true)
  /\ (BudgetOk ∈ tags <-> matchScore (total p) (of_Z 9000) = decimal 50 10)
  /\ (BudgetOk ∈ tags -> MatchMoltoAlto ∈ tags)
  /\ (SopraBudget ∈ tags <-> ~ BudgetOk ∈ tags).
Proof.
  split; [reflexivity|].
  apply (budget_tag_means_top_score (of_Z 9000) (of_Z 24) toronto64);
    reflexivity.
Defined.

End ScoreFacts.

(** * Partner files of any content *)

Section AnyFileFacts.
Variable readFileSync : jsstring -> M jsstring.

Lemma array_map_records budget weeks partners :
  AnyFile.array_map (AnyFile.price budget weeks) (map AnyFile.Rec partners)
  = Ok (map (priced budget weeks) partners).
Proof.
  induction partners as [|p l IH]; [reflexivity|].
  cbn [map AnyFile.array_map AnyFile.price]. simpl. by rewrite IH.
Qed.

Lemma loadPartners_typed (JSON_parse : jsstring -> M (list Partner)) countryCode :
  AnyFile.loadPartners readFileSync (typed JSON_parse) countryCode
  = (partners ← loadPartners readFileSync JSON_parse countryCode;
     mret (records partners)).
Proof.
  unfold AnyFile.loadPartners, loadPartners, typed.
  destruct (readFileSync (partnersPath countryCode)) as [raw|e]; simpl;
    [|reflexivity].
  by destruct (JSON_parse raw).
Qed.

(** On arrays of partner records the definitions of [AnyFile] are the
    ones used so far. *)
Lemma comparePrograms_typed (JSON_parse : jsstring -> M (list Partner))
  countryCode budget weeks :
  AnyFile.comparePrograms readFileSync (typed JSON_parse) countryCode budget weeks
  = Some (comparePrograms readFileSync JSON_parse countryCode budget weeks).
Proof.
  unfold AnyFile.comparePrograms, comparePrograms, AnyFile.loadPartners,
    loadPartners, typed.
  destruct (readFileSync (partnersPath countryCode)) as [raw|e]; simpl;
    [|reflexivity].
  destruct (JSON_parse raw) as [partners|e]; simpl; [|reflexivity].
  rewrite length_map.
  destruct (length partners =? 0)%nat; [reflexivity|].
  by rewrite array_map_records.
Qed.

Lemma turn_typed (JSON_parse : jsstring -> M (list Partner))
  (chat_completion : jsstring -> M (option jsstring)) session message :
  AnyFile.turn readFileSync (typed JSON_parse) chat_completion session message
  = Some (ServerJs.turn readFileSync JSON_parse chat_completion session message).
Proof.
  unfold AnyFile.turn, ServerJs.turn. cbv zeta.
  destruct (negb _ && negb _); [by destruct (chat_completion _)|].
  destruct (setZ (ServerJs.budget _)) as [b|]; [|reflexivity].
  destruct (setS (ServerJs.countryCode _)) as [c|]; [|reflexivity].
  destruct (setZ (ServerJs.weeks _)) as [w|]; [|reflexivity].
  destruct (setS (ServerJs.goal _)) as [g|]; [|reflexivity].
  rewrite comparePrograms_typed.
  destruct (comparePrograms _ _ _ _ _) as [programs|e]; [|reflexivity].
  by destruct (negb _).
Qed.

Lemma hasExactCity_records requestedCity partners :
  AnyFile.hasExactCity requestedCity (records partners)
  = Some (Ok (existsb (fun p => bool_decide
                                  (toLowerCase (city p) = toLowerCase requestedCity))
                      partners)).
Proof.
  unfold AnyFile.hasExactCity, records. f_equal.
  induction partners as [|p l IH]; [reflexivity|].
  cbn [map AnyFile.array_some_city existsb].
  destruct (bool_decide _); [reflexivity|exact IH].
Qed.

Variable JSON_parse : jsstring -> M AnyFile.Value.

Lemma array_map_price budget weeks entries :
  match AnyFile.array_map (AnyFile.price budget weeks) entries with
  | Ok _ => existsb (fun p => match p with AnyFile.Null => true | _ => false end)
                    entries = false
  | Throw _ => existsb (fun p => match p with AnyFile.Null => true | _ => false end)
                       entries = true
  end.
Proof.
  induction entries as [|[p|] l IH]; [reflexivity| |reflexivity].
  cbn [AnyFile.array_map AnyFile.price existsb orb]. simpl.
  by destruct (AnyFile.array_map _ l).
Qed.

Lemma array_map_ok budget weeks entries programs :
  AnyFile.array_map (AnyFile.price budget weeks) entries = Ok programs ->
  exists partners, entries = map AnyFile.Rec partners.
Proof.
  revert programs. induction entries as [|[p|] l IH]; intros programs.
  - by exists [].
  - cbn [AnyFile.array_map AnyFile.price]. simpl.
    destruct (AnyFile.array_map _ l) as [ps|e]; [|discriminate].
    intros _. destruct (IH ps eq_refl) as [partners ->]. by exists (p :: partners).
  - discriminate.
Qed.

(** The file is always loaded: what [loadPartners] cannot read or parse
    is the empty array. *)
Lemma loadPartners_value countryCode :
  exists v,
    AnyFile.loadPartners readFileSync JSON_parse countryCode = Ok v
    /\ (v = AnyFile.VArr []
        \/ exists raw, readFileSync (partnersPath countryCode) = Ok raw
                       /\ JSON_parse raw = Ok v).
Proof.
  unfold AnyFile.loadPartners.
  destruct (readFileSync (partnersPath countryCode)) as [raw|e]; simpl.
  - destruct (JSON_parse raw) as [v|e] eqn:E; simpl.
    + exists v. split; [reflexivity|]. right. by exists raw.
    + eexists. split; [reflexivity|by left].
  - eexists. split; [reflexivity|by left].
Qed.

(** [comparePrograms] throws exactly when the file is read and parsed and
    holds a value on which [partners.length] or [partners.map(...)]
    throws. *)
Lemma comparePrograms_throws countryCode budget weeks :
  (exists err,
     AnyFile.comparePrograms readFileSync JSON_parse countryCode budget weeks
     = Some (Throw err))
  <-> exists raw v,
        readFileSync (partnersPath countryCode) = Ok raw
        /\ JSON_parse raw = Ok v /\ malformed v = true.
Proof.
  unfold AnyFile.comparePrograms.
  destruct (loadPartners_value countryCode) as (v & Hload & Hv).
  rewrite Hload.
  assert (malformed v = true ->
          exists raw v0, readFileSync (partnersPath countryCode) = Ok raw
                         /\ JSON_parse raw = Ok v0 /\ malformed v0 = true) as Hin.
  { intros Hm. destruct Hv as [->|(raw & Hr & Hp)]; [discriminate|].
    by exists raw, v. }
  assert ((exists raw v0, readFileSync (partnersPath countryCode) = Ok raw
                          /\ JSON_parse raw = Ok v0 /\ malformed v0 = true)
          -> malformed v = true) as Hout.
  { intros (raw & v0 & Hr & Hp & Hm).
    destruct Hv as [->|(raw' & Hr' & Hp')]; [|congruence].
    unfold AnyFile.loadPartners in Hload. rewrite Hr in Hload.
    simpl in Hload. rewrite Hp in Hload. simpl in Hload.
    injection Hload as ->. exact Hm. }
  destruct v as [|b|q|s|len|entries|].
  - split; [intros _; by apply Hin|by eexists].
  - split; [by intros [? ?]|]. by intros H%Hout.
  - split; [by intros [? ?]|]. by intros H%Hout.
  - unfold malformed in Hin, Hout.
    destruct (length s =? 0)%nat; simpl in *.
    + split; [by intros [? ?]|]. by intros H%Hout.
    + split; [intros _; by apply Hin|by eexists].
  - unfold malformed in Hin, Hout.
    destruct (from_option AnyFile.truthy false len); simpl in *.
    + split; [intros _; by apply Hin|by eexists].
    + split; [by intros [? ?]|]. by intros H%Hout.
  - unfold malformed in Hin, Hout.
    pose proof (array_map_price budget weeks entries) as Hm.
    destruct (length entries =? 0)%nat eqn:El.
    + destruct entries; [|discriminate].
      split; [by intros [? ?]|]. by intros H%Hout.
    + destruct (AnyFile.array_map _ entries); simpl.
      * split; [by intros [? ?]|]. intros H%Hout. congruence.
      * split; [intros _; by apply Hin|by eexists].
  - split; [by intros [? ?]|]. by intros H%Hout.
Qed.

(** A file that cannot be read and a text that does not parse give the
    empty result. *)
Lemma comparePrograms_unreadable countryCode budget weeks :
  (exists msg, readFileSync (partnersPath countryCode) = Throw msg)
  \/ (exists raw msg, readFileSync (partnersPath countryCode) = Ok raw
                      /\ JSON_parse raw = Throw msg) ->
  AnyFile.loadPartners readFileSync JSON_parse countryCode = Ok (AnyFile.VArr [])
  /\ AnyFile.comparePrograms readFileSync JSON_parse countryCode budget weeks
     = Some (Ok []).
Proof.
  intros Hfail.
  assert (AnyFile.loadPartners readFileSync JSON_parse countryCode
          = Ok (AnyFile.VArr [])) as Hload.
  { unfold AnyFile.loadPartners.
    destruct Hfail as [[msg Hr]|[raw [msg [Hr Hp]]]]; rewrite Hr; simpl;
      [reflexivity|by rewrite Hp]. }
  split; [exact Hload|].
  unfold AnyFile.comparePrograms. by rewrite Hload.
Qed.

(** There is an answer unless the file holds an array with an entry of
    another kind. *)
Lemma comparePrograms_answers countryCode budget weeks :
  (forall raw, readFileSync (partnersPath countryCode) = Ok raw ->
               JSON_parse raw <> Ok AnyFile.VArrOther) ->
  is_Some (AnyFile.comparePrograms readFileSync JSON_parse countryCode budget weeks).
Proof.
  intros Hfile. unfold AnyFile.comparePrograms.
  destruct (loadPartners_value countryCode) as (v & -> & Hv).
  destruct v; try done.
  destruct Hv as [|(raw & Hr & Hp)]; [discriminate|].
  by destruct (Hfile raw Hr).
Qed.

(** A comparison that shows programs has read an array of partner
    records. *)
Lemma comparePrograms_shown countryCode budget weeks programs :
  AnyFile.comparePrograms readFileSync JSON_parse countryCode budget weeks
  = Some (Ok programs) ->
  (length programs =? 0)%nat = false ->
  exists partners,
    AnyFile.loadPartners readFileSync JSON_parse countryCode = Ok (records partners).
Proof.
  unfold AnyFile.comparePrograms.
  destruct (AnyFile.loadPartners _ _ _) as [v|e]; [|discriminate].
  destruct v as [|b|q|s|len|entries|]; try discriminate;
    try (intros [= <-]; discriminate).
  - destruct (length s =? 0)%nat; [|discriminate]. intros [= <-]. discriminate.
  - destruct (negb _); [|discriminate]. intros [= <-]. discriminate.
  - destruct (length entries =? 0)%nat; [intros [= <-]; discriminate|].
    destruct (AnyFile.array_map _ entries) as [ps|e] eqn:E; [|discriminate].
    intros _ _. destruct (array_map_ok _ _ _ _ E) as [partners ->].
    by exists partners.
Qed.

End AnyFileFacts.

Section AnyFileHandler.
Variable readFileSync : jsstring -> M jsstring.
Variable JSON_parse : jsstring -> M AnyFile.Value.
Variable chat_completion : jsstring -> M (option jsstring).

(** X8.  The handler of src/server.js on partner files of any content.
    There is an answer whenever no partner file holds an array with an
    entry that is neither [null] nor a partner record.  An answer with
    status 500 counts the turn, keeps the wizard as the message left it
    and has one of two causes: the generic responder threw, on a message
    without a digit; or the file of the chosen country was read and
    parsed and holds [null], a text that is not empty, an object with a
    truthy [length] or an array with a [null] in it.  And once the four
    slots are set, such a file always gives status 500. *)
Theorem server_error_causes (session : ServerJs.Session) (message : jsstring) :
  let answer := AnyFile.turn readFileSync JSON_parse chat_completion
                             session message in
  let wizard := ServerJs.populate (ServerJs.wizard session) (trim message) in
  ((forall c raw, readFileSync (partnersPath c) = Ok raw ->
                  JSON_parse raw <> Ok AnyFile.VArrOther) ->
   is_Some answer)
  /\ (forall after,
        answer = Some after -> after.2 = ServerJs.ServerError ->
        after.1 = ServerJs.mkSession (ServerJs.count session + 1) wizard
        /\ (((exists err, chat_completion (trim message) = Throw err)
             /\ ~ hasDigit (trim message))
            \/ (exists c raw v,
                  ServerJs.countryCode wizard = Some c
                  /\ readFileSync (partnersPath c) = Ok raw
                  /\ JSON_parse raw = Ok v
                  /\ malformed v = true)))
  /\ (forall b c w g raw v,
        setZ (ServerJs.budget wizard) = Some b ->
        setS (ServerJs.countryCode wizard) = Some c ->
        setZ (ServerJs.weeks wizard) = Some w ->
        setS (ServerJs.goal wizard) = Some g ->
        readFileSync (partnersPath c) = Ok raw ->
        JSON_parse raw = Ok v ->
        malformed v = true ->
        answer = Some (ServerJs.mkSession (ServerJs.count session + 1) wizard,
                       ServerJs.ServerError)).
Proof.
  intros answer wizard. subst answer wizard.
  unfold AnyFile.turn. cbv zeta.
  split; [|split].
  - intros Hfiles.
    destruct (negb _ && negb (ServerJs.isProgramIntent _));
      [by destruct (chat_completion _)|].
    destruct (setZ (ServerJs.budget _)) as [b|]; [|done].
    destruct (setS (ServerJs.countryCode _)) as [c|]; [|done].
    destruct (setZ (ServerJs.weeks _)) as [w|]; [|done].
    destruct (setS (ServerJs.goal _)) as [g|]; [|done].
    destruct (comparePrograms_answers readFileSync JSON_parse c
                (inject_Z b) (inject_Z w) (Hfiles c)) as [r ->].
    destruct r as [programs|e]; [|done]. by destruct (negb _).
  - intros after.
    destruct (negb _ && negb (ServerJs.isProgramIntent _)) eqn:E.
    + apply andb_true_iff in E as [_ E]. apply negb_true_iff in E.
      destruct (chat_completion (trim message)) as [content|err];
        [intros [= <-]; cbn [snd]; discriminate|].
      intros [= <-] _. split; [reflexivity|]. left. split; [by eexists|].
      intros Hd. destruct (parseBudget_digit _ Hd) as (v & Hv & _).
      unfold ServerJs.isProgramIntent in E. cbv zeta in E. rewrite Hv in E.
      rewrite !orb_false_iff in E. destruct E as [_ E].
      apply bool_decide_eq_false in E. by apply E.
    + destruct (setZ (ServerJs.budget _)) as [b|];
        [|intros [= <-]; discriminate].
      destruct (setS (ServerJs.countryCode _)) as [c|] eqn:Ec;
        [|intros [= <-]; discriminate].
      destruct (setZ (ServerJs.weeks _)) as [w|];
        [|intros [= <-]; discriminate].
      destruct (setS (ServerJs.goal _)) as [g|];
        [|intros [= <-]; discriminate].
      destruct (AnyFile.comparePrograms _ _ _ _ _) as [[programs|err]|] eqn:Ecmp;
        [| |discriminate].
      * destruct (negb (length programs =? 0)%nat); intros [= <-];
          cbn [snd]; discriminate.
      * intros [= <-] _. split; [reflexivity|]. right.
        apply setS_Some in Ec as [Ec _].
        destruct (proj1 (comparePrograms_throws readFileSync JSON_parse c
                           (inject_Z b) (inject_Z w)))
          as (raw & v & Hr & Hp & Hm); [by eexists|].
        by exists c, raw, v.
  - intros b c w g raw v Hb Hc Hw Hg Hr Hp Hm.
    rewrite Hb, Hc, Hw, Hg.
    apply setZ_Some in Hb as [_ Hb].
    unfold ServerJs.wizardActive. rewrite Hb. cbn [orb negb andb].
    destruct (proj2 (comparePrograms_throws readFileSync JSON_parse c
                       (inject_Z b) (inject_Z w))) as [err ->];
      [by exists raw, v|reflexivity].
Qed.

End AnyFileHandler.

Lemma server_error_causes_witness :
  let session := ServerJs.mkSession 3
                   (ServerJs.mkWizard (Some 9000%Z) (Some (lit "us"))
                                      (Some 24%Z) None) in
  let wizard := ServerJs.mkWizard (Some 9000%Z) (Some (lit "us")) (Some 24%Z)
                                  (Some (lit "crescita personale")) in
  null_disk (partnersPath (lit "us")) = Ok (lit "null")
  /\ sample_JSON_parse (lit "null") = Ok AnyFile.VNull
  /\ malformed AnyFile.VNull = true
  /\ AnyFile.turn null_disk sample_JSON_parse sample_responder session
                  (lit "crescita personale")
     = Some (ServerJs.mkSession 4 wizard, ServerJs.ServerError).
Proof.
  intros session wizard. do 3 (split; [reflexivity|]).
  apply (proj2 (proj2 (server_error_causes null_disk sample_JSON_parse
                         sample_responder session (lit "crescita personale")))
           9000%Z (lit "us") 24%Z (lit "crescita personale") (lit "null")
           AnyFile.VNull);
    reflexivity.
Defined.

(** C9.  The code departs from the claim.  A partner file that holds
    [null] is read and parsed without an error, so the [catch] of
    [loadPartners] is not reached and [null] is what it returns;
    [partners.length] then throws in [comparePrograms], outside the
    [try], and the handler answers with status 500.  A file that is
    absent and a file that does not parse give the empty result. *)
Theorem null_file_is_not_caught :
  AnyFile.loadPartners null_disk sample_JSON_parse (lit "us") = Ok AnyFile.VNull
  /\ AnyFile.comparePrograms null_disk sample_JSON_parse (lit "us") 9000 24
     = Some (Throw (lit "Cannot read properties of null (reading 'length')"))
  /\ AnyFile.turn null_disk sample_JSON_parse sample_responder
       (ServerJs.mkSession 3
          (ServerJs.mkWizard (Some 9000%Z) (Some (lit "us")) (Some 24%Z) None))
       (lit "crescita personale")
     = Some (ServerJs.mkSession 4
               (ServerJs.mkWizard (Some 9000%Z) (Some (lit "us")) (Some 24%Z)
                                  (Some (lit "crescita personale"))),
             ServerJs.ServerError)
  /\ sample_disk (partnersPath (lit "fr"))
     = Throw (lit "ENOENT: no such file or directory")
  /\ AnyFile.comparePrograms sample_disk sample_JSON_parse (lit "fr") 9000 24
     = Some (Ok [])
  /\ (raw ← corrupt_disk (partnersPath (lit "us")); sample_JSON_parse raw)
     = Throw (lit "Unexpected token")
  /\ AnyFile.comparePrograms corrupt_disk sample_JSON_parse (lit "us") 9000 24
     = Some (Ok []).
Proof. repeat split; reflexivity. Qed.

(** * The delegated controller on partner files of any content *)

Section AnyFileDelegated.
Import Part003.
Variable readFileSync : jsstring -> M jsstring.
Variable controller_completion : gmap jsstring json -> jsstring -> M (option jsstring).
Variable JSON_parse_value : jsstring -> M json.

Lemma compare003_typed (JSON_parse : jsstring -> M (list Partner))
  count updated llmReply :
  comparable updated -> primitive llmReply = true ->
  AnyFile.compare003 readFileSync (typed JSON_parse) count updated llmReply
  = Some (compare readFileSync JSON_parse count updated llmReply).
Proof.
  intros Hc Hp. unfold AnyFile.compare003, compare, comparable in *. cbv zeta.
  destruct (truthyO (updated !! lit "budget")); cbn [negb orb]; [|reflexivity].
  destruct (truthyO (updated !! lit "countryCode")); cbn [negb orb]; [|reflexivity].
  destruct (truthyO (updated !! lit "weeks")); cbn [negb orb]; [|reflexivity].
  destruct (truthyO (updated !! lit "goal")); cbn [negb orb]; [|reflexivity].
  destruct Hc as (budget & code & weeks & -> & -> & ->); try done.
  rewrite comparePrograms_typed.
  destruct (comparePrograms _ _ _ _ _) as [programs|e]; [|reflexivity].
  destruct (length programs =? 0)%nat; [by destruct llmReply|].
  destruct (truthyO (updated !! lit "city")); [|by destruct llmReply].
  destruct (updated !! lit "city") as [[| | |requestedCity| |]|]; try reflexivity.
  rewrite loadPartners_typed.
  destruct (loadPartners _ _ _) as [partners|e];
    cbv [mbind M_bind mret M_ret]; [|reflexivity].
  rewrite hasExactCity_records. by destruct llmReply.
Qed.

Lemma llmReply_primitive control :
  (forall reply, prop control REPLY = Some reply -> primitive reply = true) ->
  primitive (match prop control REPLY with
             | Some r => if truthy r then r else JStr []
             | None => JStr []
             end) = true.
Proof.
  intros H. destruct (prop control REPLY) as [reply|]; [|reflexivity].
  destruct (truthy reply); [by apply H|reflexivity].
Qed.

(** On arrays of partner records, comparable slots and a reply that is
    no array and no object the handler is the one used so far. *)
Lemma turn003_typed (JSON_parse : jsstring -> M (list Partner)) session message :
  (forall control,
     runWizardControllerLLM controller_completion JSON_parse_value
       (wizard session) (trim message) = Ok control ->
     comparable (merged (wizard session) control)
     /\ forall reply, prop control REPLY = Some reply -> primitive reply = true) ->
  AnyFile.turn003 readFileSync (typed JSON_parse) controller_completion
    JSON_parse_value session message
  = Some (turn readFileSync JSON_parse controller_completion JSON_parse_value
               session message).
Proof.
  intros Hc. unfold AnyFile.turn003, turn. cbv zeta.
  destruct (runWizardControllerLLM _ _ _ _) as [control|e]; [|reflexivity].
  destruct (isStr _ (lit "off_topic")); [reflexivity|].
  destruct (isStr _ (lit "ask_more")); [reflexivity|].
  destruct (isStr _ (lit "ready_to_compare")); [|reflexivity].
  destruct (Hc control eq_refl) as [H1 H2].
  apply compare003_typed; [exact H1|by apply llmReply_primitive].
Qed.

Variable JSON_parse : jsstring -> M AnyFile.Value.

(** X16.  The handler of src/unnamed/part_003 on partner files of any
    content.  There is an answer whenever the slots the comparison
    computes with are a number, a text and a number, the reply of the
    model is no array and no object, and no partner file holds an array
    with an entry that is neither [null] nor a partner record.  An answer
    with status 500 counts the turn and has one of
    these causes: the controller call threw (the wizard is unchanged); or
    the model asked for [ready_to_compare] (the wizard holds the merged
    values) and its reply is not a text, or the city is not a text, or the
    file of the chosen country was read and parsed and holds [null], a
    text that is not empty, an object with a truthy [length] or an array
    with a [null] in it. *)
Theorem delegated_server_error_causes (session : Session) (message : jsstring) :
  let answer := AnyFile.turn003 readFileSync JSON_parse controller_completion
                  JSON_parse_value session message in
  let run := runWizardControllerLLM controller_completion JSON_parse_value
               (wizard session) (trim message) in
  ((forall control, run = Ok control ->
                    comparable (merged (wizard session) control)
                    /\ forall reply, prop control REPLY = Some reply ->
                                     primitive reply = true) ->
   (forall c raw, readFileSync (partnersPath c) = Ok raw ->
                  JSON_parse raw <> Ok AnyFile.VArrOther) ->
   is_Some answer)
  /\ (forall after,
        answer = Some after -> after.2 = ServerError ->
        (exists err,
           controller_completion (wizard session) (trim message) = Throw err
           /\ after.1 = mkSession (count session + 1) (wizard session))
        \/ (exists control,
              run = Ok control
              /\ prop control ACTION = Some (JStr (lit "ready_to_compare"))
              /\ after.1 = mkSession (count session + 1)
                                     (merged (wizard session) control)
              /\ ((exists reply, prop control REPLY = Some reply
                                 /\ isString reply = false)
                  \/ (exists hint,
                        merged (wizard session) control !! lit "city" = Some hint
                        /\ isString hint = false)
                  \/ (exists code raw v,
                        merged (wizard session) control !! lit "countryCode"
                        = Some (JStr code)
                        /\ readFileSync (partnersPath code) = Ok raw
                        /\ JSON_parse raw = Ok v
                        /\ malformed v = true)))).
Proof.
  intros answer run. subst answer run.
  unfold AnyFile.turn003. cbv zeta.
  assert (forall requestedCity partners,
            match AnyFile.hasExactCity requestedCity (records partners) with
            | Some hasExactCity =>
                Some (hasExactCity ≫= fun hasExactCity => mret (negb hasExactCity))
            | None => None
            end
            = Some (Ok (negb (existsb
                         (fun p => bool_decide
                            (toLowerCase (city p) = toLowerCase requestedCity))
                         partners)))) as Hcity.
  { intros requestedCity partners. by rewrite hasExactCity_records. }
  split.
  - intros Hcomparable Hfiles.
    destruct (runWizardControllerLLM _ _ _ _) as [control|err]; [|done].
    destruct (Hcomparable control eq_refl) as [Hslots Hreply].
    clear Hcomparable. rename Hslots into Hcomparable.
    apply llmReply_primitive in Hreply.
    destruct (isStr _ (lit "off_topic")); [done|].
    destruct (isStr _ (lit "ask_more")); [done|].
    destruct (isStr _ (lit "ready_to_compare")); [|done].
    unfold AnyFile.compare003, comparable in *. cbv zeta.
    destruct (truthyO (_ !! lit "budget")); cbn [negb orb]; [|done].
    destruct (truthyO (_ !! lit "countryCode")); cbn [negb orb]; [|done].
    destruct (truthyO (_ !! lit "weeks")); cbn [negb orb]; [|done].
    destruct (truthyO (_ !! lit "goal")); cbn [negb orb]; [|done].
    destruct Hcomparable as (budget & code & weeks & -> & -> & ->); try done.
    destruct (comparePrograms_answers readFileSync JSON_parse code budget weeks
                (Hfiles code)) as [r Hr].
    rewrite Hr. destruct r as [programs|e]; [|done].
    destruct (length programs =? 0)%nat eqn:El.
    { by destruct (match prop control REPLY with
                   | Some r => if truthy r then r else JStr []
                   | None => JStr []
                   end). }
    destruct (comparePrograms_shown _ _ _ _ _ _ Hr El) as [partners ->].
    destruct (truthyO (_ !! lit "city")).
    + destruct (_ !! lit "city") as [[| | |requestedCity| |]|]; try done.
      rewrite Hcity.
      by destruct (match prop control REPLY with
                   | Some r => if truthy r then r else JStr []
                   | None => JStr []
                   end).
    + by destruct (match prop control REPLY with
                   | Some r => if truthy r then r else JStr []
                   | None => JStr []
                   end).
  - intros after.
    destruct (runWizardControllerLLM _ _ _ _) as [control|err] eqn:Hrun.
    + set (updated := merged (wizard session) control) in *.
      destruct (isStr (prop control ACTION) (lit "off_topic"));
        [intros [= <-]; discriminate|].
      destruct (isStr (prop control ACTION) (lit "ask_more"));
        [intros [= <-]; discriminate|].
      destruct (isStr (prop control ACTION) (lit "ready_to_compare")) eqn:Ha;
        [|intros [= <-]; discriminate].
      assert (prop control ACTION = Some (JStr (lit "ready_to_compare")))
        as Haction.
      { unfold isStr in Ha.
        destruct (prop control ACTION) as [[]|]; try discriminate.
        by apply bool_decide_eq_true in Ha as ->. }
      unfold AnyFile.compare003. cbv zeta.
      destruct (negb _ || _ || _ || _); [intros [= <-]; discriminate|].
      destruct (updated !! lit "budget") as [[| |budget| | |]|]; try discriminate.
      destruct (updated !! lit "countryCode") as [[| | |code| |]|] eqn:Ecode;
        try discriminate.
      destruct (updated !! lit "weeks") as [[| |weeks| | |]|]; try discriminate.
      destruct (AnyFile.comparePrograms _ _ _ _ _) as [[programs|e]|] eqn:Ecmp;
        [| |discriminate].
      * destruct (length programs =? 0)%nat eqn:El.
        { destruct (match prop control REPLY with
                    | Some r => if truthy r then r else JStr []
                    | None => JStr []
                    end); try discriminate; intros [= <-]; discriminate. }
        destruct (comparePrograms_shown _ _ _ _ _ _ Ecmp El) as [partners ->].
        assert (forall cityNote : bool,
                  match
                    match prop control REPLY with
                    | Some r => if truthy r then r else JStr []
                    | None => JStr []
                    end
                  with
                  | JStr llmReply =>
                      Some (mkSession (count session + 1) ∅,
                            Json OK_TYPE (Results (trim llmReply) cityNote
                                                  (cards programs budget)))
                  | _ => Some (mkSession (count session + 1) updated, ServerError)
                  end = Some after ->
                  after.2 = ServerError ->
                  after.1 = mkSession (count session + 1) updated
                  /\ exists reply, prop control REPLY = Some reply
                                   /\ isString reply = false) as Hreply.
        { intros cityNote.
          destruct (prop control REPLY) as [reply|];
            [|intros [= <-]; discriminate].
          destruct (truthy reply); [|intros [= <-]; discriminate].
          destruct reply; intros [= <-]; try discriminate;
            intros _; (split; [reflexivity|]); by eexists. }
        destruct (updated !! lit "city") as [hint|] eqn:Ecity;
          cbn [truthyO from_option].
        -- destruct (truthy hint) eqn:Hh.
           ++ destruct hint as [| | |requestedCity| |];
                try (intros Hafter _;
                     assert (after = (mkSession (count session + 1) updated,
                                      ServerError)) as ->
                       by (by destruct (match prop control REPLY with
                                        | Some r => if truthy r then r else JStr []
                                        | None => JStr []
                                        end); injection Hafter as <-);
                     right; exists control; repeat split; try done;
                     right; left; by eexists).
              rewrite Hcity. intros Hafter H500.
              destruct (Hreply _ Hafter H500) as [H1 H2].
              right. exists control. repeat split; try done. by left.
           ++ intros Hafter H500.
              destruct (Hreply _ Hafter H500) as [H1 H2].
              right. exists control. repeat split; try done. by left.
        -- intros Hafter H500.
           destruct (Hreply _ Hafter H500) as [H1 H2].
           right. exists control. repeat split; try done. by left.
      * intros [= <-] _. right. exists control.
        repeat split; try done. right. right.
        destruct (proj1 (comparePrograms_throws readFileSync JSON_parse code
                           budget weeks))
          as (raw & v & Hr & Hp & Hm); [by eexists|].
        by exists code, raw, v.
    + intros [= <-] _. left. exists err.
      split; [|reflexivity].
      unfold runWizardControllerLLM in Hrun.
      destruct (controller_completion _ _); [|by injection Hrun as ->].
      simpl in Hrun. by destruct (_ || _ || _ || _).
Qed.

End AnyFileDelegated.

Lemma delegated_server_error_causes_witness :
  let before := Part003.mkSession 2 ∅ in
  let run := Part003.runWizardControllerLLM ready_controller ready_parse_value
               ∅ (trim (lit "tutto pronto")) in
  let answer := AnyFile.turn003 null_disk sample_JSON_parse ready_controller
                  ready_parse_value before (lit "tutto pronto") in
  let after :=
    (Part003.mkSession 3
       {[ lit "budget" := Part003.JNum 9000;
          lit "countryCode" := Part003.JStr (lit "us");
          lit "weeks" := Part003.JNum 24;
          lit "goal" := Part003.JStr (lit "inglese") ]},
     Part003.ServerError) in
  is_Some answer
  /\ ((exists err,
         ready_controller ∅ (trim (lit "tutto pronto")) = Throw err
         /\ after.1 = Part003.mkSession (2 + 1) ∅)
      \/ (exists control,
            run = Ok control
            /\ Part003.prop control Part003.ACTION
               = Some (Part003.JStr (lit "ready_to_compare"))
            /\ after.1 = Part003.mkSession (2 + 1) (Part003.merged ∅ control)
            /\ ((exists reply, Part003.prop control Part003.REPLY = Some reply
                               /\ isString reply = false)
                \/ (exists hint,
                      Part003.merged ∅ control !! lit "city" = Some hint
                      /\ isString hint = false)
                \/ (exists code raw v,
                      Part003.merged ∅ control !! lit "countryCode"
                      = Some (Part003.JStr code)
                      /\ null_disk (partnersPath code) = Ok raw
                      /\ sample_JSON_parse raw = Ok v
                      /\ malformed v = true)))).
Proof.
  intros before run answer after. split.
  - apply (proj1 (delegated_server_error_causes null_disk ready_controller
                    ready_parse_value sample_JSON_parse before
                    (lit "tutto pronto"))).
    + intros control H. vm_compute in H. injection H as <-. split.
      * intros _ _ _ _. eexists _, _, _. repeat split; reflexivity.
      * intros reply Hr. vm_compute in Hr. by injection Hr as <-.
    + intros c raw _. unfold sample_JSON_parse, typed.
      destruct (bool_decide (raw = lit "null")); [discriminate|].
      destruct (sample_parse raw); discriminate.
  - apply (proj2 (delegated_server_error_causes null_disk ready_controller
                    ready_parse_value sample_JSON_parse before
                    (lit "tutto pronto")) after); reflexivity.
Defined.
